(** * iCE40 FPGA loader (components/ice40): a shallow embedding

    The loader of [fpga_loader.c] drives the SPI-slave configuration
    sequence of a Lattice iCE40: it registers a transient SPI device, takes
    the bus, pulses CRESET_B, clocks the bitstream out in chunks of at most
    [LOADER_BUFFER_SIZE] bytes, waits for CDONE and hands the chip-select
    back to the SPI peripheral.

    The C code talks to the ESP-IDF drivers, to FreeRTOS and to libc.  Those
    calls are modelled as operations of a small state monad: every call is
    logged in a trace, and the value a call gives back is read from a
    [platform] record of responses.  The loops of the C code take a fuel
    argument; running out of fuel is [None].  The [ESP_LOGx] diagnostics
    are left out.

    A session is run from [initial_state]: [fpga_update_device] is [NULL]
    whenever [fpga_loader_load] is entered (it is [NULL] at boot and every
    exit leaves it [NULL], lemma [load_leaves_device_null]), and the calls
    logged before a session only shift the numbering of the responses
    (lemma [fpga_loader_load_later]). *)

From Stdlib Require Import ZArith List Bool Lia String.
From Stdlib Require Import Strings.Byte.
Import ListNotations.
Open Scope Z_scope.

(** ** C integer types *)

(** [size_t] and [TickType_t] are 32 bits wide on the ESP32 targets. *)
Definition to_size_t (z : Z) : Z := z mod 2 ^ 32.

(** Conversion to [int] (32 bits, two's complement). *)
Definition to_int (z : Z) : Z := (z + 2 ^ 31) mod 2 ^ 32 - 2 ^ 31.

Definition INT_MAX : Z := 2 ^ 31 - 1.

(** ** esp_err_t *)

(** [typedef int esp_err_t], with the codes of [esp_err.h]. *)
Definition esp_err_t := Z.
Definition ESP_OK : esp_err_t := 0.
Definition ESP_FAIL : esp_err_t := -1.
Definition ESP_ERR_NO_MEM : esp_err_t := 257.
Definition ESP_ERR_INVALID_ARG : esp_err_t := 258.
Definition ESP_ERR_NOT_FOUND : esp_err_t := 261.
Definition ESP_ERR_TIMEOUT : esp_err_t := 263.

(** ** Calls and their log *)

Inductive gpio_signal := SIG_GPIO_OUT_IDX | FSPICS0_OUT_IDX.

(** [spi_transaction_t] as the loader fills it: [.length] (in bits) and the
    bytes [.tx_buffer] points to; [.rx_buffer] is always [NULL]. *)
Record spi_transaction_t := {
  trans_length : Z;
  trans_tx_buffer : list byte
}.

(** A device handle; [None] is [NULL]. *)
Definition spi_device_handle_t := option Z.

Inductive event :=
| EvSpiBusAddDevice (res : esp_err_t)
| EvSpiBusRemoveDevice (h : spi_device_handle_t)
| EvSpiDeviceAcquireBus (h : spi_device_handle_t) (res : esp_err_t)
| EvSpiDeviceReleaseBus (h : spi_device_handle_t)
| EvSemaphoreTake
| EvSemaphoreGive
| EvSpiDeviceTransmit (h : spi_device_handle_t) (trans : spi_transaction_t)
                      (res : esp_err_t)
| EvGpioSetLevel (pin level : Z)
| EvGpioGetLevel (pin level : Z)
| EvGpioMatrixOut (pin : Z) (sig : gpio_signal)
| EvTaskDelay (ticks : Z)
| EvTaskGetTickCount (now : Z)
| EvHeapCapsMalloc (bytes : Z) (ok : bool)
| EvHeapCapsFree
| EvMemset (bytes : Z)
| EvSourceRead (requested returned : Z)
| EvStat (filename : string) (found : bool)
| EvFopen (filename : string) (opened : bool)
| EvFclose.

(** The build configuration (Kconfig, FreeRTOS) and the responses of the
    world the loader runs in.  Calls that a session repeats are answered by
    their number: the [k]-th transmit, the [k]-th pin sample, the [k]-th
    tick read, counting from 0. *)
Record platform := {
  CONFIG_FPGA_SPI_BUFFER_SIZE : Z;
  CONFIG_FPGA_CRESET_GPIO : Z;
  CONFIG_FPGA_CS_GPIO : Z;
  CONFIG_FPGA_CDONE_GPIO : Z;
  pdMS_TO_TICKS : Z -> Z;
  spi_bus_add_device_res : esp_err_t;
  spi_bus_add_device_handle : Z;
  spi_bus_remove_device_res : esp_err_t;
  spi_device_acquire_bus_res : esp_err_t;
  spi_device_transmit_res : nat -> esp_err_t;
  heap_caps_malloc_res : option (list byte);
  gpio_get_level_res : nat -> Z;
  xTaskGetTickCount_res : nat -> Z;
  rom_mem : Z -> byte;
  stat_res : string -> option Z;
  fopen_res : string -> option (list byte)
}.

(** The same platform with other transmit outcomes. *)
Definition with_transmit_res (pf : platform) (tx : nat -> esp_err_t) : platform :=
  {| CONFIG_FPGA_SPI_BUFFER_SIZE := CONFIG_FPGA_SPI_BUFFER_SIZE pf;
     CONFIG_FPGA_CRESET_GPIO := CONFIG_FPGA_CRESET_GPIO pf;
     CONFIG_FPGA_CS_GPIO := CONFIG_FPGA_CS_GPIO pf;
     CONFIG_FPGA_CDONE_GPIO := CONFIG_FPGA_CDONE_GPIO pf;
     pdMS_TO_TICKS := pdMS_TO_TICKS pf;
     spi_bus_add_device_res := spi_bus_add_device_res pf;
     spi_bus_add_device_handle := spi_bus_add_device_handle pf;
     spi_bus_remove_device_res := spi_bus_remove_device_res pf;
     spi_device_acquire_bus_res := spi_device_acquire_bus_res pf;
     spi_device_transmit_res := tx;
     heap_caps_malloc_res := heap_caps_malloc_res pf;
     gpio_get_level_res := gpio_get_level_res pf;
     xTaskGetTickCount_res := xTaskGetTickCount_res pf;
     rom_mem := rom_mem pf;
     stat_res := stat_res pf;
     fopen_res := fopen_res pf |}.

(** ** The state monad *)

(** [trace] holds the calls made so far, newest first; [fpga_update_device]
    is the static variable of that name. *)
Record state := {
  trace : list event;
  fpga_update_device : spi_device_handle_t
}.

Definition initial_state : state :=
  {| trace := []; fpga_update_device := None |}.

(** The calls in the order they were made. *)
Definition history (s : state) : list event := rev (trace s).

Definition M (A : Type) : Type := state -> option (A * state).

Definition mret {A} (a : A) : M A := fun s => Some (a, s).

Definition mbind {A B} (m : M A) (k : A -> M B) : M B :=
  fun s => match m s with
           | Some (a, s') => k a s'
           | None => None
           end.

Declare Scope loader_scope.
Delimit Scope loader_scope with loader.
Notation "x <- m ;; k" := (mbind m (fun x => k))
  (at level 100, m at next level, right associativity) : loader_scope.
Notation "m ;; k" := (mbind m (fun _ => k))
  (at level 100, right associativity) : loader_scope.
Open Scope loader_scope.

Definition emit (e : event) : M unit :=
  fun s => Some (tt, {| trace := e :: trace s;
                        fpga_update_device := fpga_update_device s |}).

Definition get_device : M spi_device_handle_t :=
  fun s => Some (fpga_update_device s, s).

Definition set_device (h : spi_device_handle_t) : M unit :=
  fun s => Some (tt, {| trace := trace s; fpga_update_device := h |}).

Definition get_trace : M (list event) :=
  fun s => Some (trace s, s).

Definition is_transmit (e : event) : bool :=
  match e with EvSpiDeviceTransmit _ _ _ => true | _ => false end.

Definition is_gpio_get (e : event) : bool :=
  match e with EvGpioGetLevel _ _ => true | _ => false end.

Definition is_tick_read (e : event) : bool :=
  match e with EvTaskGetTickCount _ => true | _ => false end.

Fixpoint count_ev (p : event -> bool) (tr : list event) : nat :=
  match tr with
  | [] => O
  | e :: tr' => if p e then S (count_ev p tr') else count_ev p tr'
  end.

(** ** Bitstream sources *)

(** [firmware_source_t]: the total size, the context and the read callback.
    The callback gets the buffer, the number of bytes asked for and the
    context; it gives back the count it reports, the buffer as it left it
    and the context as it left it. *)
Record firmware_source_t (C : Type) := {
  size : Z;
  ctx : C;
  read : list byte -> Z -> C -> Z * list byte * C
}.
Arguments size {C} _.
Arguments ctx {C} _.
Arguments read {C} _ _ _ _.

(** [memcpy(buffer, src, n)] on the model of a buffer: the first [n] bytes
    are replaced. *)
Definition memcpy (buffer src : list byte) : list byte :=
  src ++ skipn (List.length src) buffer.

(** [rom_ctx_t]: [data] is an address in flash. *)
Record rom_ctx_t := {
  rom_data : Z;
  rom_size : Z;
  rom_pos : Z
}.

(** The [n] bytes of memory from address [a] on. *)
Definition mem_bytes (mem : Z -> byte) (a n : Z) : list byte :=
  map (fun i => mem (a + Z.of_nat i)) (seq 0 (Z.to_nat n)).

Definition rom_read (mem : Z -> byte) (buffer : list byte) (size : Z)
    (rom : rom_ctx_t) : Z * list byte * rom_ctx_t :=
  if to_size_t (rom_pos rom + size) >? rom_size rom then
    (0, buffer, rom)
  else
    (size,
     memcpy buffer (mem_bytes mem (rom_data rom + rom_pos rom) size),
     {| rom_data := rom_data rom;
        rom_size := rom_size rom;
        rom_pos := to_size_t (rom_pos rom + size) |}).

(** A [FILE *] opened for reading: the bytes not read yet. *)
Definition FILE := list byte.

(** [fread(buffer, 1, size, fp)]. *)
Definition fread (buffer : list byte) (size : Z) (fp : FILE)
    : Z * list byte * FILE :=
  let got := firstn (Z.to_nat size) fp in
  (Z.of_nat (List.length got), memcpy buffer got, skipn (Z.to_nat size) fp).

Definition file_read (buffer : list byte) (size : Z) (fp : FILE)
    : Z * list byte * FILE :=
  fread buffer size fp.

(** [fpga_bin_t]: two addresses in flash. *)
Record fpga_bin_t := {
  bin_start : Z;
  bin_end : Z
}.

(** ** The loader *)

Section Loader.

Variable pf : platform.

Definition LOADER_BUFFER_SIZE : Z := CONFIG_FPGA_SPI_BUFFER_SIZE pf * 4.

(** *** Platform calls *)

(** [spi_bus_add_device(FSPI_HOST, &devcfg, &fpga_update_device)]: the
    handle is written on success only. *)
Definition spi_bus_add_device : M esp_err_t :=
  let r := spi_bus_add_device_res pf in
  emit (EvSpiBusAddDevice r) ;;
  (if r =? ESP_OK then set_device (Some (spi_bus_add_device_handle pf))
   else mret tt) ;;
  mret r.

Definition spi_bus_remove_device (h : spi_device_handle_t) : M esp_err_t :=
  emit (EvSpiBusRemoveDevice h) ;;
  mret (spi_bus_remove_device_res pf).

Definition spi_device_acquire_bus (h : spi_device_handle_t) : M esp_err_t :=
  let r := spi_device_acquire_bus_res pf in
  emit (EvSpiDeviceAcquireBus h r) ;;
  mret r.

Definition spi_device_release_bus (h : spi_device_handle_t) : M unit :=
  emit (EvSpiDeviceReleaseBus h).

Definition spi_device_transmit (h : spi_device_handle_t)
    (trans : spi_transaction_t) : M esp_err_t :=
  tr <- get_trace ;;
  let r := spi_device_transmit_res pf (count_ev is_transmit tr) in
  emit (EvSpiDeviceTransmit h trans r) ;;
  mret r.

Definition xSemaphoreTake : M unit := emit EvSemaphoreTake.
Definition xSemaphoreGive : M unit := emit EvSemaphoreGive.

Definition gpio_set_level (pin level : Z) : M unit :=
  emit (EvGpioSetLevel pin level).

Definition gpio_get_level (pin : Z) : M Z :=
  tr <- get_trace ;;
  let v := gpio_get_level_res pf (count_ev is_gpio_get tr) in
  emit (EvGpioGetLevel pin v) ;;
  mret v.

Definition gpio_matrix_out (pin : Z) (sig : gpio_signal) : M unit :=
  emit (EvGpioMatrixOut pin sig).

Definition vTaskDelay (ticks : Z) : M unit := emit (EvTaskDelay ticks).

Definition xTaskGetTickCount : M Z :=
  tr <- get_trace ;;
  let now := xTaskGetTickCount_res pf (count_ev is_tick_read tr) in
  emit (EvTaskGetTickCount now) ;;
  mret now.

Definition heap_caps_malloc (bytes : Z) : M (option (list byte)) :=
  match heap_caps_malloc_res pf with
  | Some b => emit (EvHeapCapsMalloc bytes true) ;; mret (Some b)
  | None => emit (EvHeapCapsMalloc bytes false) ;; mret None
  end.

Definition heap_caps_free : M unit := emit EvHeapCapsFree.

(** [memset(buffer, c, n)]: the first [n] bytes become [c]. *)
Definition memset (buffer : list byte) (c : byte) (n : Z) : M (list byte) :=
  emit (EvMemset n) ;;
  mret (memcpy buffer (repeat c (Z.to_nat n))).

(** *** fpga_loader.c *)

Definition update_spi_device_add : M esp_err_t := spi_bus_add_device.

Definition update_spi_device_remove : M esp_err_t :=
  h <- get_device ;;
  ret <- spi_bus_remove_device h ;;
  set_device None ;;
  mret ret.

Definition write_update_block (buffer : list byte) (length : Z) : M esp_err_t :=
  if length >? LOADER_BUFFER_SIZE then
    mret ESP_FAIL
  else
    let trans := {| trans_length := to_size_t (to_int (length * 8));
                    trans_tx_buffer := firstn (Z.to_nat length) buffer |} in
    xSemaphoreTake ;;
    h <- get_device ;;
    ret <- spi_device_transmit h trans ;;
    xSemaphoreGive ;;
    mret ret.

Definition reset_pin_set (value : bool) : M unit :=
  gpio_set_level (CONFIG_FPGA_CRESET_GPIO pf) (if value then 1 else 0).

(** The [while] loop of [cdone_pin_wait]. *)
Fixpoint cdone_pin_poll (fuel : nat) (value : bool) (timeout : Z) : M esp_err_t :=
  match fuel with
  | O => fun _ => None
  | S fuel' =>
      level <- gpio_get_level (CONFIG_FPGA_CDONE_GPIO pf) ;;
      if level =? (if value then 1 else 0) then
        mret ESP_OK
      else
        now <- xTaskGetTickCount ;;
        if now >? timeout then
          mret ESP_ERR_TIMEOUT
        else
          vTaskDelay 1 ;;
          cdone_pin_poll fuel' value timeout
  end.

Definition cdone_pin_wait (fuel : nat) (value : bool) (timeout_ms : Z)
    : M esp_err_t :=
  now <- xTaskGetTickCount ;;
  let timeout := to_size_t (now + pdMS_TO_TICKS pf timeout_ms) in
  cdone_pin_poll fuel value timeout.

(** The labels [cleanup_device] and [cleanup_bus] of [fpga_loader_load]. *)
Definition cleanup_device (ret : esp_err_t) : M esp_err_t :=
  update_spi_device_remove ;;
  mret ret.

Definition cleanup_bus (ret : esp_err_t) : M esp_err_t :=
  h <- get_device ;;
  spi_device_release_bus h ;;
  cleanup_device ret.

(** The part of [fpga_loader_load] after the streaming loop, from the
    comment "Step 8" to [return ret]: the loop is left for this code by
    falling through and by both of its [break]s.  [ret] comes in with the
    value the loop left in it and is assigned by [cdone_pin_wait] before
    it is read. *)
Definition load_steps_8_to_10 (fuel : nat) (buffer : list byte)
    (ret : esp_err_t) : M esp_err_t :=
  (* Step 8 *)
  gpio_set_level (CONFIG_FPGA_CS_GPIO pf) 1 ;;
  buffer <- memset buffer x00 LOADER_BUFFER_SIZE ;;
  write_update_block buffer 13 ;;
  ret <- cdone_pin_wait fuel true 100 ;;
  (* Step 9 *)
  write_update_block buffer 7 ;;
  (* Step 10 *)
  gpio_set_level (CONFIG_FPGA_CS_GPIO pf) 1 ;;
  gpio_matrix_out (CONFIG_FPGA_CS_GPIO pf) FSPICS0_OUT_IDX ;;
  heap_caps_free ;;
  cleanup_bus ret.

Section Source.

Context {C : Type}.
Variable source : firmware_source_t C.

(** The [while (remaining > 0)] loop of [fpga_loader_load], on the
    variables it changes: [buffer], the source context, [remaining] and
    [ret].  It gives back [ret], the buffer and the context at the exit. *)
Fixpoint stream_loop (fuel : nat) (buffer : list byte) (c : C)
    (remaining : Z) (ret : esp_err_t) : M (esp_err_t * list byte * C) :=
  match fuel with
  | O => fun _ => None
  | S fuel' =>
      if remaining >? 0 then
        let chunk := if remaining >? to_size_t LOADER_BUFFER_SIZE
                     then to_size_t LOADER_BUFFER_SIZE else remaining in
        let '(n, buffer', c') := read source buffer chunk c in
        emit (EvSourceRead chunk n) ;;
        if negb (n =? chunk) then
          mret (ESP_FAIL, buffer', c')
        else
          ret' <- write_update_block buffer' (to_int chunk) ;;
          if negb (ret' =? ESP_OK) then
            mret (ret', buffer', c')
          else
            stream_loop fuel' buffer' c' (to_size_t (remaining - chunk)) ret'
      else
        mret (ret, buffer, c)
  end.

Definition fpga_loader_load (fuel : nat) : M esp_err_t :=
  ret <- update_spi_device_add ;;
  if negb (ret =? ESP_OK) then
    mret ret
  else
    h <- get_device ;;
    ret <- spi_device_acquire_bus h ;;
    if negb (ret =? ESP_OK) then
      cleanup_device ret
    else
      (* Steps 1 to 5 *)
      reset_pin_set false ;;
      gpio_set_level (CONFIG_FPGA_CS_GPIO pf) 0 ;;
      gpio_matrix_out (CONFIG_FPGA_CS_GPIO pf) SIG_GPIO_OUT_IDX ;;
      vTaskDelay 1 ;;
      reset_pin_set true ;;
      vTaskDelay (pdMS_TO_TICKS pf 2) ;;
      (* Step 6 *)
      gpio_set_level (CONFIG_FPGA_CS_GPIO pf) 1 ;;
      ret <- write_update_block [x00] 1 ;;
      if negb (ret =? ESP_OK) then
        cleanup_bus ret
      else
        gpio_set_level (CONFIG_FPGA_CS_GPIO pf) 0 ;;
        (* Step 7 *)
        mb <- heap_caps_malloc LOADER_BUFFER_SIZE ;;
        match mb with
        | None => cleanup_bus ESP_ERR_NO_MEM
        | Some buffer =>
            out <- stream_loop fuel buffer (ctx source) (size source) ret ;;
            let '(ret, buffer, _) := out in
            load_steps_8_to_10 fuel buffer ret
        end.

End Source.

Definition fpga_loader_load_from_rom (fuel : nat) (fpga_bin : option fpga_bin_t)
    : M esp_err_t :=
  match fpga_bin with
  | None => mret ESP_ERR_INVALID_ARG
  | Some bin =>
      if bin_end bin <=? bin_start bin then
        mret ESP_ERR_INVALID_ARG
      else
        let c := {| rom_data := bin_start bin;
                    rom_size := to_size_t (bin_end bin - bin_start bin);
                    rom_pos := 0 |} in
        let source := {| size := rom_size c;
                         ctx := c;
                         read := rom_read (rom_mem pf) |} in
        fpga_loader_load source fuel
  end.

Definition fpga_loader_load_from_file (fuel : nat) (filename : string)
    : M esp_err_t :=
  match stat_res pf filename with
  | None => emit (EvStat filename false) ;; mret ESP_ERR_NOT_FOUND
  | Some st_size =>
      emit (EvStat filename true) ;;
      match fopen_res pf filename with
      | None => emit (EvFopen filename false) ;; mret ESP_FAIL
      | Some fp =>
          emit (EvFopen filename true) ;;
          let source := {| size := to_size_t st_size;
                           ctx := fp;
                           read := file_read |} in
          ret <- fpga_loader_load source fuel ;;
          emit EvFclose ;;
          mret ret
      end
  end.

End Loader.

(** * Vocabulary of the statements *)

(** [push evs s]: the state [s] after the calls [evs] (newest first). *)
Definition push (evs : list event) (s : state) : state :=
  {| trace := evs ++ trace s; fpga_update_device := fpga_update_device s |}.

Definition transmit_res_at (pf : platform) (tr : list event) : esp_err_t :=
  spi_device_transmit_res pf (count_ev is_transmit tr).

(** What one [write_update_block] that passes the size check adds to the
    trace (newest first), when the trace before it is [tr]. *)
Definition block_trace (pf : platform) (h : spi_device_handle_t)
    (buffer : list byte) (length : Z) (tr : list event) : list event :=
  [EvSemaphoreGive;
   EvSpiDeviceTransmit h
     {| trans_length := to_size_t (to_int (length * 8));
        trans_tx_buffer := firstn (Z.to_nat length) buffer |}
     (transmit_res_at pf tr);
   EvSemaphoreTake].

(** What any [write_update_block] adds to the trace. *)
Definition write_trace (pf : platform) (h : spi_device_handle_t)
    (buffer : list byte) (length : Z) (tr : list event) : list event :=
  if length >? LOADER_BUFFER_SIZE pf then [] else block_trace pf h buffer length tr.

(** The handle the session works with once the device is added. *)
Definition session_handle (pf : platform) : spi_device_handle_t :=
  Some (spi_bus_add_device_handle pf).

(** Steps 1 to 6 up to the raising of chip-select, after the bus was taken
    (in the order of the calls). *)
Definition reset_steps (pf : platform) : list event :=
  [EvGpioSetLevel (CONFIG_FPGA_CRESET_GPIO pf) 0;
   EvGpioSetLevel (CONFIG_FPGA_CS_GPIO pf) 0;
   EvGpioMatrixOut (CONFIG_FPGA_CS_GPIO pf) SIG_GPIO_OUT_IDX;
   EvTaskDelay 1;
   EvGpioSetLevel (CONFIG_FPGA_CRESET_GPIO pf) 1;
   EvTaskDelay (pdMS_TO_TICKS pf 2);
   EvGpioSetLevel (CONFIG_FPGA_CS_GPIO pf) 1].

(** Step 10 (in the order of the calls): chip-select back to the SPI
    peripheral and the buffer freed. *)
Definition hand_off_steps (pf : platform) : list event :=
  [EvGpioSetLevel (CONFIG_FPGA_CS_GPIO pf) 1;
   EvGpioMatrixOut (CONFIG_FPGA_CS_GPIO pf) FSPICS0_OUT_IDX;
   EvHeapCapsFree].

(** The labels [cleanup_bus] and [cleanup_device] (in the order of the
    calls). *)
Definition cleanup_bus_steps (h : spi_device_handle_t) : list event :=
  [EvSpiDeviceReleaseBus h; EvSpiBusRemoveDevice h].

(** The buffer after [memset(buffer, 0, LOADER_BUFFER_SIZE)]. *)
Definition zeroed (pf : platform) (buffer : list byte) : list byte :=
  memcpy buffer (repeat x00 (Z.to_nat (LOADER_BUFFER_SIZE pf))).

(** The state in which [cdone_pin_wait] is called, when Step 8 starts in
    [s] with the buffer [buffer]. *)
Definition before_wait (pf : platform) (buffer : list byte) (s : state) : state :=
  let tr := EvMemset (LOADER_BUFFER_SIZE pf)
            :: EvGpioSetLevel (CONFIG_FPGA_CS_GPIO pf) 1 :: trace s in
  {| trace := write_trace pf (fpga_update_device s) (zeroed pf buffer) 13 tr ++ tr;
     fpga_update_device := fpga_update_device s |}.

(** The state [fpga_loader_load] returns in, when [cdone_pin_wait] returned
    in [s]. *)
Definition after_wait (pf : platform) (buffer : list byte) (s : state) : state :=
  let h := fpga_update_device s in
  {| trace := rev (cleanup_bus_steps h) ++ rev (hand_off_steps pf)
              ++ write_trace pf h (zeroed pf buffer) 7 (trace s) ++ trace s;
     fpga_update_device := None |}.

(** The state with the history [h] (in the order of the calls) and the
    device variable [d]. *)
Definition state_of (h : list event) (d : spi_device_handle_t) : state :=
  {| trace := rev h; fpga_update_device := d |}.

Definition acquire_steps (pf : platform) : list event :=
  [EvSpiBusAddDevice (spi_bus_add_device_res pf);
   EvSpiDeviceAcquireBus (session_handle pf) (spi_device_acquire_bus_res pf)].

(** The dummy byte of Step 6, when it passes the size check. *)
Definition dummy_steps (pf : platform) : list event :=
  [EvSemaphoreTake;
   EvSpiDeviceTransmit (session_handle pf)
     {| trans_length := 8; trans_tx_buffer := [x00] |}
     (spi_device_transmit_res pf 0);
   EvSemaphoreGive].

(** The calls of a session up to and including the allocation of the
    buffer. *)
Definition steps_1_to_6 (pf : platform) : list event :=
  acquire_steps pf ++ reset_steps pf ++ dummy_steps pf
  ++ [EvGpioSetLevel (CONFIG_FPGA_CS_GPIO pf) 0].

(** The state in which the streaming loop starts. *)
Definition streaming_start (pf : platform) : state :=
  state_of (steps_1_to_6 pf ++ [EvHeapCapsMalloc (LOADER_BUFFER_SIZE pf) true])
           (session_handle pf).

(** ** Calls by kind *)

Definition is_poll_ev (e : event) : bool :=
  match e with
  | EvGpioGetLevel _ _ | EvTaskGetTickCount _ | EvTaskDelay _ => true
  | _ => false
  end.

Definition level_of (value : bool) : Z := if value then 1 else 0.

Definition is_stream_ev (e : event) : bool :=
  match e with
  | EvSourceRead _ _ | EvSemaphoreTake | EvSemaphoreGive
  | EvSpiDeviceTransmit _ _ _ => true
  | _ => false
  end.

Definition is_memset (e : event) : bool :=
  match e with EvMemset _ => true | _ => false end.

Definition is_resource_ev (e : event) : bool :=
  match e with
  | EvSpiBusAddDevice _ | EvSpiBusRemoveDevice _ | EvSpiDeviceAcquireBus _ _
  | EvSpiDeviceReleaseBus _ | EvHeapCapsMalloc _ _ | EvHeapCapsFree => true
  | _ => false
  end.

(** The chunk size the loop asks for when [remaining] bytes are left. *)
Definition chunk_of (pf : platform) (remaining : Z) : Z :=
  if remaining >? to_size_t (LOADER_BUFFER_SIZE pf)
  then to_size_t (LOADER_BUFFER_SIZE pf) else remaining.

(** ** Chunks *)

(** The lengths, in bits, of the transmissions among the calls [evs]. *)
Definition transmit_bits (evs : list event) : list Z :=
  flat_map (fun e => match e with
                     | EvSpiDeviceTransmit _ t _ => [trans_length t]
                     | _ => []
                     end) evs.

Definition Zsum (l : list Z) : Z := fold_right Z.add 0 l.

Definition ceil_div (a b : Z) : Z := (a + b - 1) / b.

(** The source hands out every chunk in full: [inv c remaining] holds of
    the context when [remaining] bytes are still to be read, and a read of
    up to [remaining] bytes gives them all and keeps [inv]. *)
Definition reads_in_full {C : Type} (source : firmware_source_t C)
    (inv : C -> Z -> Prop) : Prop :=
  inv (ctx source) (size source) /\
  forall buffer n c remaining,
    inv c remaining -> 0 < n <= remaining ->
    exists buffer' c',
      read source buffer n c = (n, buffer', c') /\ inv c' (remaining - n).

(** ** Padding *)

(** A transmission of [n] zero bytes with outcome [r], between the take
    and the give of the bus semaphore (in the order of the calls). *)
Definition block_steps (h : spi_device_handle_t) (n : Z) (r : esp_err_t)
    : list event :=
  [EvSemaphoreTake;
   EvSpiDeviceTransmit h
     {| trans_length := n * 8; trans_tx_buffer := repeat x00 (Z.to_nat n) |} r;
   EvSemaphoreGive].

(** What [write_update_block] does with [n] bytes of the zeroed buffer:
    nothing when they do not fit [LOADER_BUFFER_SIZE]. *)
Definition padding_steps (pf : platform) (n : Z) (r : esp_err_t) : list event :=
  if n >? LOADER_BUFFER_SIZE pf then []
  else block_steps (session_handle pf) n r.

(** ** Sessions *)

(** The session got through the registration, the bus acquisition, the
    dummy byte and the allocation: it reaches the streaming loop. *)
Definition reaches_streaming (pf : platform) : Prop :=
  spi_bus_add_device_res pf = ESP_OK /\
  spi_device_acquire_bus_res pf = ESP_OK /\
  1 <= LOADER_BUFFER_SIZE pf /\
  spi_device_transmit_res pf 0 = ESP_OK /\
  heap_caps_malloc_res pf <> None.

(** How [cdone_pin_wait] ended, read off its calls [wait] and its result. *)
Definition wait_outcome (pf : platform) (ret : esp_err_t) (wait : list event)
    : Prop :=
  (ret = ESP_OK /\
   exists wait', wait = wait' ++ [EvGpioGetLevel (CONFIG_FPGA_CDONE_GPIO pf) 1])
  \/
  (ret = ESP_ERR_TIMEOUT /\
   exists wait' now, wait = wait' ++ [EvTaskGetTickCount now]).

(** The CDONE pin is not at level 1 in the first [n + 1] samples, and the
    tick count passes the deadline at the [n + 1]-th check.  The first tick
    read of [cdone_pin_wait] fixes the deadline, 100 ms later. *)
Definition cdone_times_out (pf : platform) (n : nat) : Prop :=
  let deadline :=
    to_size_t (xTaskGetTickCount_res pf 0 + pdMS_TO_TICKS pf 100) in
  (forall j, (j <= n)%nat -> gpio_get_level_res pf j <> 1) /\
  (forall j, (j < n)%nat -> xTaskGetTickCount_res pf (S j) <= deadline) /\
  xTaskGetTickCount_res pf (S n) > deadline.

(** The poll loop ends at its [n + 1]-th sample: until then the pin is not
    at level 1 and the deadline has not passed, and then the pin is at
    level 1 or the deadline has passed. *)
Definition cdone_wait_ends (pf : platform) (n : nat) : Prop :=
  let deadline :=
    to_size_t (xTaskGetTickCount_res pf 0 + pdMS_TO_TICKS pf 100) in
  (forall j, (j < n)%nat ->
     gpio_get_level_res pf j <> 1 /\
     xTaskGetTickCount_res pf (S j) <= deadline) /\
  (gpio_get_level_res pf n = 1 \/ xTaskGetTickCount_res pf (S n) > deadline).

(** The turns of the poll loop of [cdone_pin_wait] when it gives up at its
    [n + 1]-th sample (in the order of the calls): [n] turns of a sample,
    a tick read and a delay of one tick, then the sample and the tick read
    of the last turn.  [g] and [t] count the samples and the tick reads
    made before. *)
Fixpoint timed_out_turns (pf : platform) (g t n : nat) : list event :=
  match n with
  | O =>
      [EvGpioGetLevel (CONFIG_FPGA_CDONE_GPIO pf) (gpio_get_level_res pf g);
       EvTaskGetTickCount (xTaskGetTickCount_res pf t)]
  | S n' =>
      [EvGpioGetLevel (CONFIG_FPGA_CDONE_GPIO pf) (gpio_get_level_res pf g);
       EvTaskGetTickCount (xTaskGetTickCount_res pf t);
       EvTaskDelay 1]
      ++ timed_out_turns pf (S g) (S t) n'
  end.

(** The calls of a [cdone_pin_wait] that times out at its [n + 1]-th
    sample: the tick read that fixes the deadline, then the turns of the
    loop. *)
Definition timed_out_wait (pf : platform) (n : nat) : list event :=
  EvTaskGetTickCount (xTaskGetTickCount_res pf 0) :: timed_out_turns pf 0 1 n.

(** The number of transmissions among the calls [h] (in the order they
    were made) before the buffer is zeroed for the padding: the dummy byte
    and the chunks of the bitstream.  The transmissions after the [memset]
    are the Completion padding and the Activation padding. *)
Fixpoint transmits_before_memset (h : list event) : nat :=
  match h with
  | [] => O
  | EvMemset _ :: _ => O
  | e :: h' =>
      if is_transmit e then S (transmits_before_memset h')
      else transmits_before_memset h'
  end.

(** ** Sessions that start later *)

(** The platform as a session that starts after the calls [tr0] sees
    it: the responses already used up are skipped. *)
Definition shift_responses (pf : platform) (tr0 : list event) : platform :=
  {| CONFIG_FPGA_SPI_BUFFER_SIZE := CONFIG_FPGA_SPI_BUFFER_SIZE pf;
     CONFIG_FPGA_CRESET_GPIO := CONFIG_FPGA_CRESET_GPIO pf;
     CONFIG_FPGA_CS_GPIO := CONFIG_FPGA_CS_GPIO pf;
     CONFIG_FPGA_CDONE_GPIO := CONFIG_FPGA_CDONE_GPIO pf;
     pdMS_TO_TICKS := pdMS_TO_TICKS pf;
     spi_bus_add_device_res := spi_bus_add_device_res pf;
     spi_bus_add_device_handle := spi_bus_add_device_handle pf;
     spi_bus_remove_device_res := spi_bus_remove_device_res pf;
     spi_device_acquire_bus_res := spi_device_acquire_bus_res pf;
     spi_device_transmit_res :=
       fun k => spi_device_transmit_res pf (count_ev is_transmit tr0 + k);
     heap_caps_malloc_res := heap_caps_malloc_res pf;
     gpio_get_level_res :=
       fun k => gpio_get_level_res pf (count_ev is_gpio_get tr0 + k);
     xTaskGetTickCount_res :=
       fun k => xTaskGetTickCount_res pf (count_ev is_tick_read tr0 + k);
     rom_mem := rom_mem pf;
     stat_res := stat_res pf;
     fopen_res := fopen_res pf |}.

(** The state [s] of a session, with the calls [tr0] made before it. *)
Definition resume (tr0 : list event) (s : state) : state :=
  {| trace := trace s ++ tr0; fpga_update_device := fpga_update_device s |}.

(** [m1], run after the calls [tr0], does what [m2] does run from
    scratch. *)
Definition same_run {A : Type} (tr0 : list event) (m1 m2 : M A) : Prop :=
  forall s,
    m1 (resume tr0 s) =
    match m2 s with
    | Some (a, s') => Some (a, resume tr0 s')
    | None => None
    end.

(** ** Resources of a session *)

Record resources := {
  device_registered : bool;
  bus_acquired : bool;
  buffer_allocated : bool
}.

Definition no_resources : resources :=
  {| device_registered := false; bus_acquired := false;
     buffer_allocated := false |}.

(** The effect of one call on what the session holds. *)
Definition apply_event (r : resources) (e : event) : resources :=
  match e with
  | EvSpiBusAddDevice res =>
      if res =? ESP_OK then
        {| device_registered := true; bus_acquired := bus_acquired r;
           buffer_allocated := buffer_allocated r |}
      else r
  | EvSpiBusRemoveDevice _ =>
      {| device_registered := false; bus_acquired := bus_acquired r;
         buffer_allocated := buffer_allocated r |}
  | EvSpiDeviceAcquireBus _ res =>
      if res =? ESP_OK then
        {| device_registered := device_registered r; bus_acquired := true;
           buffer_allocated := buffer_allocated r |}
      else r
  | EvSpiDeviceReleaseBus _ =>
      {| device_registered := device_registered r; bus_acquired := false;
         buffer_allocated := buffer_allocated r |}
  | EvHeapCapsMalloc _ ok =>
      if ok then
        {| device_registered := device_registered r;
           bus_acquired := bus_acquired r; buffer_allocated := true |}
      else r
  | EvHeapCapsFree =>
      {| device_registered := device_registered r;
         bus_acquired := bus_acquired r; buffer_allocated := false |}
  | _ => r
  end.

(** What is held after the calls [h], made in that order from a state
    that holds nothing. *)
Definition resources_after (h : list event) : resources :=
  fold_left apply_event h no_resources.

(** ** The memory-range source as the specification words it *)

(** The count the memory-range source is said to give: the smaller of the
    request and what is left after the cursor. *)
Definition rom_read_claimed (n : Z) (rom : rom_ctx_t) : Z :=
  Z.min n (rom_size rom - rom_pos rom).

(** ** Example boards and sources *)

Definition byte_at (a : Z) : byte :=
  match Byte.of_N (Z.to_N (a mod 256)) with
  | Some b => b
  | None => x00
  end.

(** A board with [CONFIG_FPGA_SPI_BUFFER_SIZE = cfg], a 100 Hz tick, the
    transmit outcomes [tx] and the CDONE levels [level]; the tick count
    goes up by one at every read. *)
Definition board (cfg : Z) (tx : nat -> esp_err_t) (level : nat -> Z)
    (files : string -> option (Z * list byte)) : platform :=
  {| CONFIG_FPGA_SPI_BUFFER_SIZE := cfg;
     CONFIG_FPGA_CRESET_GPIO := 4;
     CONFIG_FPGA_CS_GPIO := 5;
     CONFIG_FPGA_CDONE_GPIO := 6;
     pdMS_TO_TICKS := fun ms => ms * 100 / 1000;
     spi_bus_add_device_res := ESP_OK;
     spi_bus_add_device_handle := 1;
     spi_bus_remove_device_res := ESP_OK;
     spi_device_acquire_bus_res := ESP_OK;
     spi_device_transmit_res := tx;
     heap_caps_malloc_res := Some (repeat xff (Z.to_nat (cfg * 4)));
     gpio_get_level_res := level;
     xTaskGetTickCount_res := fun k => Z.of_nat k;
     rom_mem := byte_at;
     stat_res := fun name => option_map fst (files name);
     fopen_res := fun name => option_map snd (files name) |}.

Definition always_ok : nat -> esp_err_t := fun _ => ESP_OK.

(** CDONE goes high at the fourth sample. *)
Definition cdone_after_three : nat -> Z :=
  fun k => if (k <? 3)%nat then 0 else 1.

Definition cdone_low : nat -> Z := fun _ => 0.
Definition cdone_high : nat -> Z := fun _ => 1.

Definition no_files : string -> option (Z * list byte) := fun _ => None.

(** A file that [stat] reports as 100 bytes long and that gives 80 bytes
    when read. *)
Definition truncated_file : string -> option (Z * list byte) :=
  fun name => if String.eqb name "/spiffs/top.bin"
              then Some (100, repeat x01 80) else None.

Definition empty_file : string -> option (Z * list byte) :=
  fun name => if String.eqb name "/spiffs/top.bin"
              then Some (0, []) else None.

(** The memory-range source [fpga_loader_load_from_rom] builds for the
    [len] bytes at address [start]. *)
Definition rom_source (mem : Z -> byte) (start len : Z)
    : firmware_source_t rom_ctx_t :=
  {| size := len;
     ctx := {| rom_data := start; rom_size := len; rom_pos := 0 |};
     read := rom_read mem |}.

(** A bitstream of 100 bytes in flash. *)
Definition image : fpga_bin_t := {| bin_start := 4096; bin_end := 4196 |}.

(** Both padding transmissions fail: the transmissions 3 and 4 of a
    session that sends 100 bytes through a buffer of 64. *)
Definition padding_fails : nat -> esp_err_t :=
  fun k => if (k <? 3)%nat then ESP_OK else ESP_FAIL.

(** * Vocabulary of the further properties *)

(** ** Rounds of the streaming loop *)

(** One round of the streaming loop in which the chunk is read in full and
    handed to [spi_device_transmit] (in the order of the calls). *)
Definition round_steps (h : spi_device_handle_t) (chunk : Z)
    (t : spi_transaction_t) (r : esp_err_t) : list event :=
  [EvSourceRead chunk chunk; EvSemaphoreTake; EvSpiDeviceTransmit h t r;
   EvSemaphoreGive].

(** A round after which the loop goes on: the transmission went through. *)
Definition full_round (h : spi_device_handle_t) (ct : Z * spi_transaction_t)
    : list event :=
  round_steps h (fst ct) (snd ct) ESP_OK.

(** A chunk of [chunk] bytes that passed the size check of
    [write_update_block], with its transaction [t]. *)
Definition chunk_sent (pf : platform) (ct : Z * spi_transaction_t) : Prop :=
  (exists remaining, 0 < remaining /\ fst ct = chunk_of pf remaining) /\
  to_int (fst ct) <= LOADER_BUFFER_SIZE pf /\
  trans_length (snd ct) = to_size_t (to_int (to_int (fst ct) * 8)).

(** How the loop is left after the rounds [rounds], with the calls of the
    round that broke it and the value of [ret]: the condition
    [remaining > 0] failed, or a read came short (or the chunk did not pass
    the size check), or a transmission failed. *)
Inductive loop_exit (pf : platform) (h : spi_device_handle_t)
    (ret0 : esp_err_t) (rounds : list (Z * spi_transaction_t))
    : list event -> esp_err_t -> Prop :=
| exit_done :
    loop_exit pf h ret0 rounds []
      (match rounds with [] => ret0 | _ :: _ => ESP_OK end)
| exit_read (chunk n : Z) :
    n <> chunk \/ to_int chunk > LOADER_BUFFER_SIZE pf ->
    loop_exit pf h ret0 rounds [EvSourceRead chunk n] ESP_FAIL
| exit_transmit (chunk : Z) (t : spi_transaction_t) (r : esp_err_t) :
    chunk_sent pf (chunk, t) ->
    r <> ESP_OK ->
    loop_exit pf h ret0 rounds (round_steps h chunk t r) r.

(** ** Sessions, exit by exit *)

(** The calls of a session of [fpga_loader_load] that returns [ret], in the
    order they were made: one case for each [return] and [goto] and one
    for the sessions that go through Step 8. *)
Inductive session (pf : platform) : esp_err_t -> list event -> Prop :=
| session_no_device :
    spi_bus_add_device_res pf <> ESP_OK ->
    session pf (spi_bus_add_device_res pf)
      [EvSpiBusAddDevice (spi_bus_add_device_res pf)]
| session_no_bus :
    spi_bus_add_device_res pf = ESP_OK ->
    spi_device_acquire_bus_res pf <> ESP_OK ->
    session pf (spi_device_acquire_bus_res pf)
      (acquire_steps pf ++ [EvSpiBusRemoveDevice (session_handle pf)])
| session_no_room :
    spi_bus_add_device_res pf = ESP_OK ->
    spi_device_acquire_bus_res pf = ESP_OK ->
    LOADER_BUFFER_SIZE pf < 1 ->
    session pf ESP_FAIL
      (acquire_steps pf ++ reset_steps pf
       ++ cleanup_bus_steps (session_handle pf))
| session_no_dummy :
    spi_bus_add_device_res pf = ESP_OK ->
    spi_device_acquire_bus_res pf = ESP_OK ->
    1 <= LOADER_BUFFER_SIZE pf ->
    spi_device_transmit_res pf 0 <> ESP_OK ->
    session pf (spi_device_transmit_res pf 0)
      (acquire_steps pf ++ reset_steps pf ++ dummy_steps pf
       ++ cleanup_bus_steps (session_handle pf))
| session_no_buffer :
    spi_bus_add_device_res pf = ESP_OK ->
    spi_device_acquire_bus_res pf = ESP_OK ->
    1 <= LOADER_BUFFER_SIZE pf ->
    spi_device_transmit_res pf 0 = ESP_OK ->
    heap_caps_malloc_res pf = None ->
    session pf ESP_ERR_NO_MEM
      (steps_1_to_6 pf ++ [EvHeapCapsMalloc (LOADER_BUFFER_SIZE pf) false]
       ++ cleanup_bus_steps (session_handle pf))
| session_complete (rounds : list (Z * spi_transaction_t))
    (last wait : list event) (r8 r13 r7 ret : esp_err_t) :
    reaches_streaming pf ->
    Forall (chunk_sent pf) rounds ->
    loop_exit pf (session_handle pf) (spi_device_transmit_res pf 0)
      rounds last r8 ->
    Forall (fun e => is_poll_ev e = true) wait ->
    wait_outcome pf ret wait ->
    session pf ret
      (steps_1_to_6 pf ++ [EvHeapCapsMalloc (LOADER_BUFFER_SIZE pf) true]
       ++ flat_map (full_round (session_handle pf)) rounds ++ last
       ++ [EvGpioSetLevel (CONFIG_FPGA_CS_GPIO pf) 1;
           EvMemset (LOADER_BUFFER_SIZE pf)]
       ++ padding_steps pf 13 r13
       ++ wait
       ++ padding_steps pf 7 r7
       ++ hand_off_steps pf
       ++ cleanup_bus_steps (session_handle pf)).

(** ** The bus semaphore *)

Inductive semaphore_state := SemFree | SemTaken | SemUsed.

(** The bus semaphore over the calls: taken when free, one transmission
    while it is taken, given back right after; no other call is made while
    it is held and no transmission is made without it.  [None]: a call
    was out of this order. *)
Definition semaphore_step (q : option semaphore_state) (e : event)
    : option semaphore_state :=
  match q with
  | None => None
  | Some SemFree =>
      match e with
      | EvSemaphoreTake => Some SemTaken
      | EvSemaphoreGive | EvSpiDeviceTransmit _ _ _ => None
      | _ => Some SemFree
      end
  | Some SemTaken =>
      match e with
      | EvSpiDeviceTransmit _ _ _ => Some SemUsed
      | _ => None
      end
  | Some SemUsed =>
      match e with
      | EvSemaphoreGive => Some SemFree
      | _ => None
      end
  end.

Definition semaphore_after (h : list event) : option semaphore_state :=
  fold_left semaphore_step h (Some SemFree).

(** ** Resources in order *)

(** The call [e] is in order for a session that holds [r]: the device is
    added when none is registered, the bus is acquired with the device
    registered, transmissions are made with the bus acquired, the buffer is
    written with the buffer allocated, and what is given back was held
    (the device is removed with the bus released). *)
Definition in_order (r : resources) (e : event) : bool :=
  match e with
  | EvSpiBusAddDevice _ => negb (device_registered r)
  | EvSpiBusRemoveDevice _ => device_registered r && negb (bus_acquired r)
  | EvSpiDeviceAcquireBus _ _ => device_registered r && negb (bus_acquired r)
  | EvSpiDeviceReleaseBus _ => bus_acquired r
  | EvSpiDeviceTransmit _ _ _ => device_registered r && bus_acquired r
  | EvHeapCapsMalloc _ _ => negb (buffer_allocated r)
  | EvHeapCapsFree | EvMemset _ | EvSourceRead _ _ => buffer_allocated r
  | _ => true
  end.

Definition checked_event (r : option resources) (e : event)
    : option resources :=
  match r with
  | Some r => if in_order r e then Some (apply_event r e) else None
  | None => None
  end.

(** What is held after the calls [h], made in that order from a state that
    holds nothing; [None] when one of them was out of order. *)
Definition resources_in_order (h : list event) : option resources :=
  fold_left checked_event h (Some no_resources).

(** A session at work: the device registered, the bus acquired, the buffer
    allocated. *)
Definition working : resources :=
  {| device_registered := true; bus_acquired := true;
     buffer_allocated := true |}.

(** ** Device handles *)

(** The device handles the calls [evs] were made with. *)
Definition handles (evs : list event) : list spi_device_handle_t :=
  flat_map (fun e => match e with
                     | EvSpiBusRemoveDevice h | EvSpiDeviceAcquireBus h _
                     | EvSpiDeviceReleaseBus h | EvSpiDeviceTransmit h _ _ => [h]
                     | _ => []
                     end) evs.

(** ** Chip-select *)

(** Where the chip-select pin stands at each transmission among the calls
    [h] (in the order they were made): the signal routed to the pin and the
    level last written to it, which are [sig] and [level] before [h]. *)
Fixpoint cs_at_transmits (pf : platform) (sig : gpio_signal) (level : Z)
    (h : list event) : list (gpio_signal * Z) :=
  match h with
  | [] => []
  | e :: h' =>
      match e with
      | EvGpioSetLevel pin v =>
          cs_at_transmits pf sig
            (if pin =? CONFIG_FPGA_CS_GPIO pf then v else level) h'
      | EvGpioMatrixOut pin sig' =>
          cs_at_transmits pf
            (if pin =? CONFIG_FPGA_CS_GPIO pf then sig' else sig) level h'
      | EvSpiDeviceTransmit _ _ _ =>
          (sig, level) :: cs_at_transmits pf sig level h'
      | _ => cs_at_transmits pf sig level h'
      end
  end.

(** The call leaves the chip-select pin alone. *)
Definition keeps_cs (e : event) : bool :=
  match e with
  | EvGpioSetLevel _ _ | EvGpioMatrixOut _ _ => false
  | _ => true
  end.

(** ** Bytes on the bus *)

(** The payloads of the transmissions among the calls [evs]. *)
Definition transmit_payloads (evs : list event) : list (list byte) :=
  flat_map (fun e => match e with
                     | EvSpiDeviceTransmit _ t _ => [trans_tx_buffer t]
                     | _ => []
                     end) evs.

(** The bytes the transmissions among the calls [evs] put on the bus, end
    to end. *)
Definition bytes_sent (evs : list event) : list byte :=
  List.concat (transmit_payloads evs).

(** The source delivers what it holds: [holds c bytes] says that the
    bytes still to come from the context [c] start with [bytes]; a read of
    up to that many bytes copies them to the start of the buffer, reports
    them all and leaves a context that holds the rest. *)
Definition delivers {C : Type} (source : firmware_source_t C)
    (holds : C -> list byte -> Prop) : Prop :=
  forall buffer n c bytes,
    holds c bytes -> 0 < n <= Z.of_nat (List.length bytes) ->
    exists c',
      read source buffer n c
      = (n, memcpy buffer (firstn (Z.to_nat n) bytes), c') /\
      holds c' (skipn (Z.to_nat n) bytes).

(** What the memory-range context [c] over the [len] bytes at [start]
    still has to give. *)
Definition rom_holds (mem : Z -> byte) (start len : Z) (c : rom_ctx_t)
    (bytes : list byte) : Prop :=
  rom_data c = start /\ rom_size c = len /\ 0 <= rom_pos c /\
  rom_pos c + Z.of_nat (List.length bytes) = len /\
  bytes = mem_bytes mem (start + rom_pos c) (Z.of_nat (List.length bytes)).

(** The bytes of the padding of [n] zero bytes: none when they do not fit
    [LOADER_BUFFER_SIZE]. *)
Definition padding_bytes (pf : platform) (n : Z) : list byte :=
  if n >? LOADER_BUFFER_SIZE pf then [] else repeat x00 (Z.to_nat n).

(** ** The clock and the pin *)

(** The tick count goes up between one read and the next, for the first
    [n + 1] reads. *)
Definition clock_advances (pf : platform) (n : nat) : Prop :=
  forall k, (k <= n)%nat ->
    xTaskGetTickCount_res pf k < xTaskGetTickCount_res pf (S k).

(** The first [n + 1] tick reads give values of [TickType_t], a counter of
    32 bits. *)
Definition ticks_in_range (pf : platform) (n : nat) : Prop :=
  forall k, (k <= n)%nat -> 0 <= xTaskGetTickCount_res pf k < 2 ^ 32.

(** The CDONE pin is at level 1 at the sample [n], and until then it is
    not and the deadline has not passed. *)
Definition cdone_rises (pf : platform) (n : nat) : Prop :=
  let deadline :=
    to_size_t (xTaskGetTickCount_res pf 0 + pdMS_TO_TICKS pf 100) in
  (forall j, (j < n)%nat ->
     gpio_get_level_res pf j <> 1 /\
     xTaskGetTickCount_res pf (S j) <= deadline) /\
  gpio_get_level_res pf n = 1.

(** The wait loop ends at the sample [j] or before. *)
Definition wait_over (pf : platform) (j : nat) : bool :=
  (gpio_get_level_res pf j =? 1)
  || (xTaskGetTickCount_res pf (S j)
      >? to_size_t (xTaskGetTickCount_res pf 0 + pdMS_TO_TICKS pf 100)).

(** ** Files *)

Definition is_file_ev (e : event) : bool :=
  match e with
  | EvStat _ _ | EvFopen _ _ | EvFclose => true
  | _ => false
  end.

(** The number of files open over the calls: [fopen] that succeeds opens
    one, [fclose] closes one.  [None]: [fclose] with no file open. *)
Definition file_step (q : option nat) (e : event) : option nat :=
  match q with
  | None => None
  | Some k =>
      match e with
      | EvFopen _ true => Some (S k)
      | EvFclose => match k with O => None | S k' => Some k' end
      | _ => Some k
      end
  end.

Definition files_open_after (h : list event) : option nat :=
  fold_left file_step h (Some O).

(** ** More example boards *)

(** The board of [board] with the tick count at [tick0] at the first
    read. *)
Definition board_at (tick0 : Z) (cfg : Z) (tx : nat -> esp_err_t)
    (level : nat -> Z) (files : string -> option (Z * list byte)) : platform :=
  {| CONFIG_FPGA_SPI_BUFFER_SIZE := cfg;
     CONFIG_FPGA_CRESET_GPIO := 4;
     CONFIG_FPGA_CS_GPIO := 5;
     CONFIG_FPGA_CDONE_GPIO := 6;
     pdMS_TO_TICKS := fun ms => ms * 100 / 1000;
     spi_bus_add_device_res := ESP_OK;
     spi_bus_add_device_handle := 1;
     spi_bus_remove_device_res := ESP_OK;
     spi_device_acquire_bus_res := ESP_OK;
     spi_device_transmit_res := tx;
     heap_caps_malloc_res := Some (repeat xff (Z.to_nat (cfg * 4)));
     gpio_get_level_res := level;
     xTaskGetTickCount_res := fun k => tick0 + Z.of_nat k;
     rom_mem := byte_at;
     stat_res := fun name => option_map fst (files name);
     fopen_res := fun name => option_map snd (files name) |}.

(** The second chunk of the bitstream fails: the transmission 2 of a
    session, after the dummy byte and the first chunk. *)
Definition second_chunk_fails : nat -> esp_err_t :=
  fun k => if (k =? 2)%nat then ESP_FAIL else ESP_OK.

(** A file of 100 bytes, reported as such. *)
Definition whole_file : string -> option (Z * list byte) :=
  fun name => if String.eqb name "/spiffs/top.bin"
              then Some (100, map byte_at (map Z.of_nat (seq 0 100)))
              else None.

(** A file [stat] finds and [fopen] can not open. *)
Definition locked_file_board : platform :=
  {| CONFIG_FPGA_SPI_BUFFER_SIZE := 16;
     CONFIG_FPGA_CRESET_GPIO := 4;
     CONFIG_FPGA_CS_GPIO := 5;
     CONFIG_FPGA_CDONE_GPIO := 6;
     pdMS_TO_TICKS := fun ms => ms * 100 / 1000;
     spi_bus_add_device_res := ESP_OK;
     spi_bus_add_device_handle := 1;
     spi_bus_remove_device_res := ESP_OK;
     spi_device_acquire_bus_res := ESP_OK;
     spi_device_transmit_res := always_ok;
     heap_caps_malloc_res := Some (repeat xff 64);
     gpio_get_level_res := cdone_high;
     xTaskGetTickCount_res := fun k => Z.of_nat k;
     rom_mem := byte_at;
     stat_res := fun _ => Some 100;
     fopen_res := fun _ => None |}.

(** ** The removal of the device *)

(** The same platform with another outcome of [spi_bus_remove_device]. *)
Definition with_remove_res (pf : platform) (r : esp_err_t) : platform :=
  {| CONFIG_FPGA_SPI_BUFFER_SIZE := CONFIG_FPGA_SPI_BUFFER_SIZE pf;
     CONFIG_FPGA_CRESET_GPIO := CONFIG_FPGA_CRESET_GPIO pf;
     CONFIG_FPGA_CS_GPIO := CONFIG_FPGA_CS_GPIO pf;
     CONFIG_FPGA_CDONE_GPIO := CONFIG_FPGA_CDONE_GPIO pf;
     pdMS_TO_TICKS := pdMS_TO_TICKS pf;
     spi_bus_add_device_res := spi_bus_add_device_res pf;
     spi_bus_add_device_handle := spi_bus_add_device_handle pf;
     spi_bus_remove_device_res := r;
     spi_device_acquire_bus_res := spi_device_acquire_bus_res pf;
     spi_device_transmit_res := spi_device_transmit_res pf;
     heap_caps_malloc_res := heap_caps_malloc_res pf;
     gpio_get_level_res := gpio_get_level_res pf;
     xTaskGetTickCount_res := xTaskGetTickCount_res pf;
     rom_mem := rom_mem pf;
     stat_res := stat_res pf;
     fopen_res := fopen_res pf |}.

(** * The bus, the pins and the applications *)

(** The callers of the loader and what they call before it:
    [master_spi_init] of [master_spi.c], [fpga_loader_init] of
    [fpga_loader.c], [app_main] of the colorwheel example, and
    [send_rgb_to_fpga] and [set_handler] of the web-led example.  The
    Wi-Fi, NVS and HTTP-server set-up of the web-led example is not part
    of the model. *)

Definition ESP_ERR_INVALID_STATE : esp_err_t := 259.

(** Conversion to [uint8_t] and to [uint64_t]. *)
Definition to_uint8 (z : Z) : Z := z mod 2 ^ 8.
Definition to_uint64 (z : Z) : Z := z mod 2 ^ 64.

(** The byte with the value [z] of a [uint8_t]. *)
Definition uint8_byte (z : Z) : byte :=
  match Byte.of_N (Z.to_N z) with
  | Some b => b
  | None => x00
  end.

Inductive spi_bus_flag :=
| SPICOMMON_BUSFLAG_MASTER
| SPICOMMON_BUSFLAG_GPIO_PINS.

(** [spi_bus_config_t] as [master_spi_init] fills it. *)
Record spi_bus_config_t := {
  mosi_io_num : Z;
  miso_io_num : Z;
  sclk_io_num : Z;
  quadwp_io_num : Z;
  quadhd_io_num : Z;
  max_transfer_sz : Z;
  bus_flags : list spi_bus_flag
}.

Inductive gpio_mode_t := GPIO_MODE_INPUT | GPIO_MODE_OUTPUT.
Inductive gpio_pullup_t := GPIO_PULLUP_DISABLE | GPIO_PULLUP_ENABLE.
Inductive gpio_pulldown_t := GPIO_PULLDOWN_DISABLE | GPIO_PULLDOWN_ENABLE.
Inductive gpio_int_type_t := GPIO_INTR_DISABLE.

Record gpio_config_t := {
  pin_bit_mask : Z;
  mode : gpio_mode_t;
  pull_up_en : gpio_pullup_t;
  pull_down_en : gpio_pulldown_t;
  intr_type : gpio_int_type_t
}.

(** An HTTP request, by its URI. *)
Definition httpd_req_t := string.

(** The calls of the applications: those of the loader's kinds, and the
    others. *)
Inductive app_event :=
| Ev (e : event)
| EvSemaphoreCreateMutex (created : bool)
| EvSpiBusInitialize (buscfg : spi_bus_config_t) (res : esp_err_t)
| EvGpioConfig (cfg : gpio_config_t) (res : esp_err_t)
| EvHttpdRespSetType (type : string)
| EvHttpdRespSend (buf : string) (buf_len : Z).

(** The platform of the loader with the rest of the build configuration
    and the responses to the other calls.  [xSemaphoreCreateMutex],
    [spi_bus_initialize] and [gpio_config] are answered by their number;
    the two query functions of the HTTP server give their result and what
    they write to the buffer; [fpga_image] holds the two linker symbols of
    the embedded bitstream. *)
Record app_platform := {
  loader_platform : platform;
  CONFIG_FPGA_MOSI_GPIO : Z;
  CONFIG_FPGA_MISO_GPIO : Z;
  CONFIG_FPGA_SCLK_GPIO : Z;
  CONFIG_FPGA_WP_GPIO : Z;
  CONFIG_FPGA_HD_GPIO : Z;
  xSemaphoreCreateMutex_res : nat -> option Z;
  spi_bus_initialize_res : nat -> esp_err_t;
  gpio_config_res : nat -> esp_err_t;
  httpd_req_get_url_query_str_res : httpd_req_t -> Z -> esp_err_t * string;
  httpd_query_key_value_res : string -> string -> Z -> esp_err_t * string;
  atoi : string -> Z;
  fpga_image : fpga_bin_t
}.

(** [calls] holds the calls made so far, newest first; the other fields are
    the static variables: [fpga_update_device] of [fpga_loader.c],
    [master_spi_semaphore] of [master_spi.c], and [fpga_spi_device] and the
    three colours of [web-led/main.c]. *)
Record app_state := {
  calls : list app_event;
  loader_device : spi_device_handle_t;
  master_spi_semaphore : option Z;
  fpga_spi_device : spi_device_handle_t;
  current_r : Z;
  current_g : Z;
  current_b : Z
}.

(** The state at boot. *)
Definition boot_state : app_state :=
  {| calls := []; loader_device := None; master_spi_semaphore := None;
     fpga_spi_device := None; current_r := 0; current_g := 0; current_b := 0 |}.

(** The calls in the order they were made. *)
Definition app_history (a : app_state) : list app_event := rev (calls a).

Definition App (A : Type) : Type := app_state -> option (A * app_state).

Definition aret {A} (x : A) : App A := fun a => Some (x, a).

Definition abind {A B} (m : App A) (k : A -> App B) : App B :=
  fun a => match m a with
           | Some (x, a') => k x a'
           | None => None
           end.

Declare Scope app_scope.
Delimit Scope app_scope with app.
Notation "x <- m ;; k" := (abind m (fun x => k))
  (at level 100, m at next level, right associativity) : app_scope.
Notation "m ;; k" := (abind m (fun _ => k))
  (at level 100, right associativity) : app_scope.

Definition with_calls (a : app_state) (l : list app_event)
    (d : spi_device_handle_t) : app_state :=
  {| calls := l; loader_device := d;
     master_spi_semaphore := master_spi_semaphore a;
     fpga_spi_device := fpga_spi_device a;
     current_r := current_r a; current_g := current_g a;
     current_b := current_b a |}.

Definition app_emit (e : app_event) : App unit :=
  fun a => Some (tt, with_calls a (e :: calls a) (loader_device a)).

Definition get_calls : App (list app_event) := fun a => Some (calls a, a).

Definition get_semaphore : App (option Z) :=
  fun a => Some (master_spi_semaphore a, a).

Definition set_semaphore (h : option Z) : App unit :=
  fun a => Some (tt,
    {| calls := calls a; loader_device := loader_device a;
       master_spi_semaphore := h;
       fpga_spi_device := fpga_spi_device a;
       current_r := current_r a; current_g := current_g a;
       current_b := current_b a |}).

Definition get_fpga_spi_device : App spi_device_handle_t :=
  fun a => Some (fpga_spi_device a, a).

Definition set_current (r g b : Z) : App unit :=
  fun a => Some (tt,
    {| calls := calls a; loader_device := loader_device a;
       master_spi_semaphore := master_spi_semaphore a;
       fpga_spi_device := fpga_spi_device a;
       current_r := r; current_g := g; current_b := b |}).

(** The calls of the loader's kinds among the calls [l]. *)
Definition loader_calls (l : list app_event) : list event :=
  flat_map (fun e => match e with Ev e => [e] | _ => [] end) l.

(** The state of the loader inside the state of the application. *)
Definition loader_view (a : app_state) : state :=
  {| trace := loader_calls (calls a); fpga_update_device := loader_device a |}.

(** A function of the loader, or a platform call of the loader's kinds,
    run by the application: it sees the calls of those kinds made so far
    and the loader's static variable; the calls it adds to its trace
    ([made]) are added to those of the application. *)
Definition lift {A} (m : M A) : App A :=
  fun a =>
    let s := loader_view a in
    match m s with
    | Some (x, s') =>
        let made :=
          firstn (List.length (trace s') - List.length (trace s)) (trace s') in
        Some (x, with_calls a (map Ev made ++ calls a) (fpga_update_device s'))
    | None => None
    end.

Definition is_create_mutex (e : app_event) : bool :=
  match e with EvSemaphoreCreateMutex _ => true | _ => false end.

Definition is_bus_initialize (e : app_event) : bool :=
  match e with EvSpiBusInitialize _ _ => true | _ => false end.

Definition is_gpio_config (e : app_event) : bool :=
  match e with EvGpioConfig _ _ => true | _ => false end.

Fixpoint count_app (p : app_event -> bool) (l : list app_event) : nat :=
  match l with
  | [] => O
  | e :: l' => if p e then S (count_app p l') else count_app p l'
  end.

Open Scope app_scope.

Section Applications.

Variable ap : app_platform.

(** *** Platform calls *)

Definition xSemaphoreCreateMutex : App (option Z) :=
  l <- get_calls ;;
  let h := xSemaphoreCreateMutex_res ap (count_app is_create_mutex l) in
  app_emit (EvSemaphoreCreateMutex
              (match h with Some _ => true | None => false end)) ;;
  aret h.

Definition spi_bus_initialize (buscfg : spi_bus_config_t) : App esp_err_t :=
  l <- get_calls ;;
  let r := spi_bus_initialize_res ap (count_app is_bus_initialize l) in
  app_emit (EvSpiBusInitialize buscfg r) ;;
  aret r.

Definition gpio_config (cfg : gpio_config_t) : App esp_err_t :=
  l <- get_calls ;;
  let r := gpio_config_res ap (count_app is_gpio_config l) in
  app_emit (EvGpioConfig cfg r) ;;
  aret r.

Definition httpd_resp_set_type (type : string) : App unit :=
  app_emit (EvHttpdRespSetType type).

Definition httpd_resp_send (buf : string) (buf_len : Z) : App unit :=
  app_emit (EvHttpdRespSend buf buf_len).

(** *** master_spi.c *)

(** [master_spi_init] from the declaration of [buscfg] on. *)
Definition master_spi_init_bus : App esp_err_t :=
  let buscfg :=
    {| mosi_io_num := CONFIG_FPGA_MOSI_GPIO ap;
       miso_io_num := CONFIG_FPGA_MISO_GPIO ap;
       sclk_io_num := CONFIG_FPGA_SCLK_GPIO ap;
       quadwp_io_num := CONFIG_FPGA_WP_GPIO ap;
       quadhd_io_num := CONFIG_FPGA_HD_GPIO ap;
       max_transfer_sz := CONFIG_FPGA_SPI_BUFFER_SIZE (loader_platform ap) * 4;
       bus_flags := [SPICOMMON_BUSFLAG_MASTER; SPICOMMON_BUSFLAG_GPIO_PINS] |} in
  ret <- spi_bus_initialize buscfg ;;
  if negb (ret =? ESP_OK) then aret ret else aret ESP_OK.

Definition master_spi_init : App esp_err_t :=
  sem <- get_semaphore ;;
  match sem with
  | None =>
      h <- xSemaphoreCreateMutex ;;
      set_semaphore h ;;
      match h with
      | None => aret ESP_ERR_NO_MEM
      | Some _ => master_spi_init_bus
      end
  | Some _ => master_spi_init_bus
  end.

(** *** fpga_loader.c, continued *)

(** [pin_bit_mask] is [1ULL << pin]. *)
Definition fpga_loader_init : App esp_err_t :=
  let creset_cfg :=
    {| pin_bit_mask :=
         to_uint64 (Z.shiftl 1 (CONFIG_FPGA_CRESET_GPIO (loader_platform ap)));
       mode := GPIO_MODE_OUTPUT;
       pull_up_en := GPIO_PULLUP_DISABLE;
       pull_down_en := GPIO_PULLDOWN_DISABLE;
       intr_type := GPIO_INTR_DISABLE |} in
  lift (gpio_set_level (CONFIG_FPGA_CRESET_GPIO (loader_platform ap)) 0) ;;
  gpio_config creset_cfg ;;
  let cdone_cfg :=
    {| pin_bit_mask :=
         to_uint64 (Z.shiftl 1 (CONFIG_FPGA_CDONE_GPIO (loader_platform ap)));
       mode := GPIO_MODE_INPUT;
       pull_up_en := GPIO_PULLUP_DISABLE;
       pull_down_en := GPIO_PULLDOWN_DISABLE;
       intr_type := GPIO_INTR_DISABLE |} in
  gpio_config cdone_cfg ;;
  aret ESP_OK.

(** *** examples/colorwheel/firmware/main/main.c *)

(** The [while (1)] loop of [app_main]: it has no exit, so that every
    amount of fuel runs out. *)
Fixpoint heartbeat (fuel : nat) (ticks : Z) : App unit :=
  match fuel with
  | O => fun _ => None
  | S fuel' => lift (vTaskDelay ticks) ;; heartbeat fuel' ticks
  end.

(** [app_main] up to the [while (1)] loop: [true] when the loop is
    reached, [false] at each [return]. *)
Definition app_main_startup (fuel : nat) : App bool :=
  ret <- master_spi_init ;;
  if negb (ret =? ESP_OK) then aret false
  else
    ret <- fpga_loader_init ;;
    if negb (ret =? ESP_OK) then aret false
    else
      ret <- lift (fpga_loader_load_from_rom (loader_platform ap) fuel
                     (Some (fpga_image ap))) ;;
      if negb (ret =? ESP_OK) then aret false
      else aret true.

Definition app_main (fuel : nat) : App unit :=
  running <- app_main_startup fuel ;;
  if running then heartbeat fuel (pdMS_TO_TICKS (loader_platform ap) 5000)
  else aret tt.

(** *** examples/web-led/firmware/main/main.c *)

Definition send_rgb_to_fpga (r g b : Z) : App esp_err_t :=
  dev <- get_fpga_spi_device ;;
  match dev with
  | None => aret ESP_ERR_INVALID_STATE
  | Some _ =>
      let data := [uint8_byte r; uint8_byte g; uint8_byte b] in
      let trans := {| trans_length := 24; trans_tx_buffer := data |} in
      lift xSemaphoreTake ;;
      ret <- lift (spi_device_transmit (loader_platform ap) dev trans) ;;
      lift xSemaphoreGive ;;
      aret ret
  end.

(** [httpd_query_key_value(buf, key, param, sizeof(param))] followed by
    [atoi(param)] when the key is found; [v] is what the variable holds
    before. *)
Definition query_color (buf key : string) (v : Z) : Z :=
  let '(err, param) := httpd_query_key_value_res ap buf key 8 in
  if err =? ESP_OK then atoi ap param else v.

(** [(v < 0) ? 0 : (v > 255) ? 255 : v]. *)
Definition clamp (v : Z) : Z :=
  if v <? 0 then 0 else if v >? 255 then 255 else v.

Definition set_handler (req : httpd_req_t) : App esp_err_t :=
  let '(err, buf) := httpd_req_get_url_query_str_res ap req 64 in
  let '(r, g, b) :=
    if err =? ESP_OK then
      (query_color buf "r" 0, query_color buf "g" 0, query_color buf "b" 0)
    else (0, 0, 0) in
  let r := clamp r in
  let g := clamp g in
  let b := clamp b in
  set_current (to_uint8 r) (to_uint8 g) (to_uint8 b) ;;
  send_rgb_to_fpga (to_uint8 r) (to_uint8 g) (to_uint8 b) ;;
  httpd_resp_set_type "text/plain" ;;
  httpd_resp_send "OK" 2 ;;
  aret ESP_OK.

End Applications.

Close Scope app_scope.

(** ** Vocabulary for the applications *)

(** What the start-up has made ready. *)
Record readiness := {
  mutex_created : bool;
  bus_initialized : bool;
  creset_configured : bool;
  cdone_configured : bool
}.

Definition nothing_ready : readiness :=
  {| mutex_created := false; bus_initialized := false;
     creset_configured := false; cdone_configured := false |}.

(** The call [e] finds ready what it uses: the semaphore is taken and
    given only when the mutex exists, a device is added only to the
    initialised bus, CRESET is released only after it was configured, and
    CDONE is sampled only after it was configured. *)
Definition finds_ready (pf : platform) (q : readiness) (e : app_event) : bool :=
  match e with
  | Ev EvSemaphoreTake | Ev EvSemaphoreGive => mutex_created q
  | Ev (EvSpiBusAddDevice _) => bus_initialized q
  | Ev (EvGpioSetLevel pin level) =>
      if (pin =? CONFIG_FPGA_CRESET_GPIO pf) && (level =? 1)
      then creset_configured q else true
  | Ev (EvGpioGetLevel pin _) =>
      if pin =? CONFIG_FPGA_CDONE_GPIO pf then cdone_configured q else true
  | _ => true
  end.

(** What the call [e] makes ready: a mutex that was created, a bus whose
    initialisation returned [ESP_OK], and the pins of the mask of a
    [gpio_config] that returned [ESP_OK]. *)
Definition makes_ready (pf : platform) (q : readiness) (e : app_event)
    : readiness :=
  match e with
  | EvSemaphoreCreateMutex true =>
      {| mutex_created := true; bus_initialized := bus_initialized q;
         creset_configured := creset_configured q;
         cdone_configured := cdone_configured q |}
  | EvSpiBusInitialize _ res =>
      {| mutex_created := mutex_created q;
         bus_initialized := bus_initialized q || (res =? ESP_OK);
         creset_configured := creset_configured q;
         cdone_configured := cdone_configured q |}
  | EvGpioConfig cfg res =>
      {| mutex_created := mutex_created q;
         bus_initialized := bus_initialized q;
         creset_configured :=
           creset_configured q
           || ((res =? ESP_OK)
               && match mode cfg with GPIO_MODE_OUTPUT => true | _ => false end
               && Z.testbit (pin_bit_mask cfg) (CONFIG_FPGA_CRESET_GPIO pf));
         cdone_configured :=
           cdone_configured q
           || ((res =? ESP_OK)
               && match mode cfg with GPIO_MODE_INPUT => true | _ => false end
               && Z.testbit (pin_bit_mask cfg) (CONFIG_FPGA_CDONE_GPIO pf)) |}
  | _ => q
  end.

Definition ready_step (pf : platform) (q : option readiness) (e : app_event)
    : option readiness :=
  match q with
  | Some q => if finds_ready pf q e then Some (makes_ready pf q e) else None
  | None => None
  end.

(** What is ready after the calls [h], made in that order from boot;
    [None] when one of them did not find ready what it uses. *)
Definition ready_after (pf : platform) (h : list app_event) : option readiness :=
  fold_left (ready_step pf) h (Some nothing_ready).

(** *** The start-up of [app_main] *)

(** The bus configuration [master_spi_init] passes. *)
Definition buscfg_of (ap : app_platform) : spi_bus_config_t :=
  {| mosi_io_num := CONFIG_FPGA_MOSI_GPIO ap;
     miso_io_num := CONFIG_FPGA_MISO_GPIO ap;
     sclk_io_num := CONFIG_FPGA_SCLK_GPIO ap;
     quadwp_io_num := CONFIG_FPGA_WP_GPIO ap;
     quadhd_io_num := CONFIG_FPGA_HD_GPIO ap;
     max_transfer_sz := CONFIG_FPGA_SPI_BUFFER_SIZE (loader_platform ap) * 4;
     bus_flags := [SPICOMMON_BUSFLAG_MASTER; SPICOMMON_BUSFLAG_GPIO_PINS] |}.

Definition all_ready : readiness :=
  {| mutex_created := true; bus_initialized := true;
     creset_configured := true; cdone_configured := true |}.

(** The calls of [master_spi_init] and [fpga_loader_init] at boot when both
    return [ESP_OK], in the order they are made. *)
Definition init_steps (ap : app_platform) : list app_event :=
  [EvSemaphoreCreateMutex true;
   EvSpiBusInitialize (buscfg_of ap) ESP_OK;
   Ev (EvGpioSetLevel (CONFIG_FPGA_CRESET_GPIO (loader_platform ap)) 0);
   EvGpioConfig
     {| pin_bit_mask :=
          to_uint64 (Z.shiftl 1 (CONFIG_FPGA_CRESET_GPIO (loader_platform ap)));
        mode := GPIO_MODE_OUTPUT;
        pull_up_en := GPIO_PULLUP_DISABLE;
        pull_down_en := GPIO_PULLDOWN_DISABLE;
        intr_type := GPIO_INTR_DISABLE |}
     (gpio_config_res ap 0);
   EvGpioConfig
     {| pin_bit_mask :=
          to_uint64 (Z.shiftl 1 (CONFIG_FPGA_CDONE_GPIO (loader_platform ap)));
        mode := GPIO_MODE_INPUT;
        pull_up_en := GPIO_PULLUP_DISABLE;
        pull_down_en := GPIO_PULLDOWN_DISABLE;
        intr_type := GPIO_INTR_DISABLE |}
     (gpio_config_res ap 1)].

(** The platform the loader sees when [app_main] calls it: after the one
    call of its kinds that [fpga_loader_init] made. *)
Definition platform_at_load (ap : app_platform) : platform :=
  shift_responses (loader_platform ap)
    [EvGpioSetLevel (CONFIG_FPGA_CRESET_GPIO (loader_platform ap)) 0].

(** The state of [app_main] with the history [l] (in the order of the
    calls) and the mutex [sem]; the devices are [NULL] and the colours 0. *)
Definition booted (l : list app_event) (sem : option Z) : app_state :=
  {| calls := rev l; loader_device := None; master_spi_semaphore := sem;
     fpga_spi_device := None; current_r := 0; current_g := 0;
     current_b := 0 |}.

(** The source [app_main] loads from. *)
Definition image_source (ap : app_platform) : firmware_source_t rom_ctx_t :=
  rom_source (rom_mem (loader_platform ap)) (bin_start (fpga_image ap))
    (to_size_t (bin_end (fpga_image ap) - bin_start (fpga_image ap))).

(** The colour a request asks for under [key]: the number after the key in
    the query string, 0 when the request has no query string that fits or
    the key is not in it. *)
Definition requested_color (ap : app_platform) (req : httpd_req_t)
    (key : string) : Z :=
  let '(err, buf) := httpd_req_get_url_query_str_res ap req 64 in
  if err =? ESP_OK then
    let '(err', param) := httpd_query_key_value_res ap buf key 8 in
    if err' =? ESP_OK then atoi ap param else 0
  else 0.

(** ** An example application platform *)

(** The query string is the URI after ["/set?"]; it holds [r=300],
    [b=-5] and no [g]. *)
Definition demo_query_key_value (buf key : string) (size : Z)
    : esp_err_t * string :=
  if String.eqb key "r" then (ESP_OK, "300"%string)
  else if String.eqb key "b" then (ESP_OK, "-5"%string)
  else (ESP_ERR_NOT_FOUND, EmptyString).

Definition demo_atoi (s : string) : Z :=
  if String.eqb s "300" then 300
  else if String.eqb s "-5" then -5
  else 0.

(** The board [pf] with the SPI pins 11, 13, 12, 14 and 9, a heap with
    room for the mutex, a bus that initialises, pins that configure, and
    the bitstream [image]. *)
Definition demo_app (pf : platform) : app_platform :=
  {| loader_platform := pf;
     CONFIG_FPGA_MOSI_GPIO := 11;
     CONFIG_FPGA_MISO_GPIO := 13;
     CONFIG_FPGA_SCLK_GPIO := 12;
     CONFIG_FPGA_WP_GPIO := 14;
     CONFIG_FPGA_HD_GPIO := 9;
     xSemaphoreCreateMutex_res := fun _ => Some 7;
     spi_bus_initialize_res := fun _ => ESP_OK;
     gpio_config_res := fun _ => ESP_OK;
     httpd_req_get_url_query_str_res :=
       fun req _ => (ESP_OK, substring 5 (String.length req - 5) req);
     httpd_query_key_value_res := demo_query_key_value;
     atoi := demo_atoi;
     fpga_image := image |}.

(** The same with no room for the mutex. *)
Definition demo_app_no_heap (pf : platform) : app_platform :=
  {| loader_platform := pf;
     CONFIG_FPGA_MOSI_GPIO := 11;
     CONFIG_FPGA_MISO_GPIO := 13;
     CONFIG_FPGA_SCLK_GPIO := 12;
     CONFIG_FPGA_WP_GPIO := 14;
     CONFIG_FPGA_HD_GPIO := 9;
     xSemaphoreCreateMutex_res := fun _ => None;
     spi_bus_initialize_res := fun _ => ESP_OK;
     gpio_config_res := fun _ => ESP_OK;
     httpd_req_get_url_query_str_res :=
       fun req _ => (ESP_OK, substring 5 (String.length req - 5) req);
     httpd_query_key_value_res := demo_query_key_value;
     atoi := demo_atoi;
     fpga_image := image |}.

(** The state of [web-led] once its device was added with the handle 2. *)
Definition web_led_running : app_state :=
  {| calls := []; loader_device := None; master_spi_semaphore := Some 7;
     fpga_spi_device := Some 2; current_r := 0; current_g := 0;
     current_b := 0 |}.

(** ** Tactics *)

(** Boolean comparisons of [Z] in hypotheses, as propositions. *)
Ltac zbool :=
  repeat match goal with
  | H : (_ >? _) = true |- _ => apply Z.gtb_lt in H
  | H : (_ >? _) = false |- _ => rewrite Z.gtb_ltb in H; apply Z.ltb_ge in H
  | H : (_ =? _) = true |- _ => apply Z.eqb_eq in H
  | H : (_ =? _) = false |- _ => apply Z.eqb_neq in H
  | H : (_ <=? _) = true |- _ => apply Z.leb_le in H
  | H : (_ <=? _) = false |- _ => apply Z.leb_gt in H
  end.

(** Runs the straight-line part of a computation in [M]. *)
Ltac run_loader :=
  cbv beta iota zeta delta
    [fpga_loader_load update_spi_device_add update_spi_device_remove
     spi_bus_add_device spi_bus_remove_device spi_device_acquire_bus
     spi_device_release_bus spi_device_transmit xSemaphoreTake xSemaphoreGive
     gpio_set_level gpio_get_level gpio_matrix_out vTaskDelay
     xTaskGetTickCount heap_caps_malloc heap_caps_free memset
     write_update_block reset_pin_set cleanup_device cleanup_bus
     mbind mret emit get_device set_device get_trace
     initial_state state_of push trace fpga_update_device
     count_ev is_transmit is_gpio_get is_tick_read
     steps_1_to_6 acquire_steps reset_steps dummy_steps cleanup_bus_steps
     hand_off_steps session_handle negb
     rev app fst snd].

(** * Properties *)

(** ** Basic facts *)

Lemma to_size_t_small (z : Z) : 0 <= z < 2 ^ 32 -> to_size_t z = z.
Proof. intros H. unfold to_size_t. apply Z.mod_small. exact H. Qed.

Lemma to_size_t_bounds (z : Z) : 0 <= z -> 0 <= to_size_t z <= z.
Proof.
  intros H. unfold to_size_t. split.
  - apply Z.mod_pos_bound. lia.
  - apply Z.mod_le; lia.
Qed.

Lemma to_int_small (z : Z) : 0 <= z <= INT_MAX -> to_int z = z.
Proof.
  unfold to_int, INT_MAX. intros H.
  rewrite Z.mod_small by lia. lia.
Qed.

Lemma count_ev_app (p : event -> bool) (a b : list event) :
  count_ev p (a ++ b) = (count_ev p a + count_ev p b)%nat.
Proof.
  induction a as [|e a IH]; simpl; [reflexivity|].
  destruct (p e); rewrite IH; reflexivity.
Qed.

Lemma count_ev_none (p : event -> bool) (l : list event) :
  Forall (fun e => p e = false) l -> count_ev p l = O.
Proof.
  induction 1 as [|e l He _ IH]; simpl; [reflexivity|].
  rewrite He. exact IH.
Qed.

Lemma write_update_block_eq (pf : platform) (buffer : list byte) (length : Z)
    (s : state) :
  write_update_block pf buffer length s =
  if length >? LOADER_BUFFER_SIZE pf then Some (ESP_FAIL, s)
  else Some (transmit_res_at pf (trace s),
             push (block_trace pf (fpga_update_device s) buffer length (trace s)) s).
Proof.
  unfold write_update_block.
  destruct (length >? LOADER_BUFFER_SIZE pf); reflexivity.
Qed.

Lemma load_steps_8_to_10_eq (pf : platform) (fuel : nat) (buffer : list byte)
    (ret0 : esp_err_t) (s : state) :
  load_steps_8_to_10 pf fuel buffer ret0 s =
  match cdone_pin_wait pf fuel true 100 (before_wait pf buffer s) with
  | Some (ret, sw) => Some (ret, after_wait pf buffer sw)
  | None => None
  end.
Proof.
  unfold load_steps_8_to_10, before_wait, after_wait, write_trace.
  unfold mbind at 1. simpl.
  unfold mbind at 1. simpl.
  unfold mbind at 1. rewrite write_update_block_eq. simpl.
  destruct (13 >? LOADER_BUFFER_SIZE pf); simpl.
  - unfold mbind at 1.
    destruct (cdone_pin_wait pf fuel true 100 _) as [[ret sw]|]; [|reflexivity].
    unfold mbind at 1. rewrite write_update_block_eq.
    destruct (7 >? LOADER_BUFFER_SIZE pf); reflexivity.
  - unfold mbind at 1.
    destruct (cdone_pin_wait pf fuel true 100 _) as [[ret sw]|]; [|reflexivity].
    unfold mbind at 1. rewrite write_update_block_eq.
    destruct (7 >? LOADER_BUFFER_SIZE pf); reflexivity.
Qed.

(** [fpga_loader_load] from the initial state, path by path. *)
Lemma fpga_loader_load_eq (pf : platform) (C : Type)
    (source : firmware_source_t C) (fuel : nat) :
  fpga_loader_load pf source fuel initial_state =
  if negb (spi_bus_add_device_res pf =? ESP_OK) then
    Some (spi_bus_add_device_res pf,
          state_of [EvSpiBusAddDevice (spi_bus_add_device_res pf)] None)
  else if negb (spi_device_acquire_bus_res pf =? ESP_OK) then
    Some (spi_device_acquire_bus_res pf,
          state_of (acquire_steps pf ++ [EvSpiBusRemoveDevice (session_handle pf)])
                   None)
  else if 1 >? LOADER_BUFFER_SIZE pf then
    Some (ESP_FAIL,
          state_of (acquire_steps pf ++ reset_steps pf
                    ++ cleanup_bus_steps (session_handle pf)) None)
  else if negb (spi_device_transmit_res pf 0 =? ESP_OK) then
    Some (spi_device_transmit_res pf 0,
          state_of (acquire_steps pf ++ reset_steps pf ++ dummy_steps pf
                    ++ cleanup_bus_steps (session_handle pf)) None)
  else
    match heap_caps_malloc_res pf with
    | None =>
        Some (ESP_ERR_NO_MEM,
              state_of (steps_1_to_6 pf
                        ++ [EvHeapCapsMalloc (LOADER_BUFFER_SIZE pf) false]
                        ++ cleanup_bus_steps (session_handle pf)) None)
    | Some buffer =>
        match stream_loop pf source fuel buffer (ctx source) (size source)
                (spi_device_transmit_res pf 0) (streaming_start pf) with
        | Some (ret', buffer', _, s) =>
            load_steps_8_to_10 pf fuel buffer' ret' s
        | None => None
        end
    end.
Proof.
  destruct (spi_bus_add_device_res pf =? ESP_OK) eqn:Hadd;
    [|repeat (run_loader; progress rewrite ?Hadd); reflexivity].
  destruct (spi_device_acquire_bus_res pf =? ESP_OK) eqn:Hacq;
    [|repeat (run_loader; progress rewrite ?Hadd, ?Hacq); reflexivity].
  destruct (1 >? LOADER_BUFFER_SIZE pf) eqn:Hfit;
    [repeat (run_loader; progress rewrite ?Hadd, ?Hacq, ?Hfit); reflexivity|].
  destruct (spi_device_transmit_res pf 0 =? ESP_OK) eqn:Htx;
    [|repeat (run_loader; progress rewrite ?Hadd, ?Hacq, ?Hfit, ?Htx);
      reflexivity].
  repeat (run_loader; progress rewrite ?Hadd, ?Hacq, ?Hfit, ?Htx).
  destruct (heap_caps_malloc_res pf) as [buffer|]; [|reflexivity].
  run_loader.
  change (streaming_start pf) with
    {| trace :=
         [EvHeapCapsMalloc (LOADER_BUFFER_SIZE pf) true;
          EvGpioSetLevel (CONFIG_FPGA_CS_GPIO pf) 0;
          EvSemaphoreGive;
          EvSpiDeviceTransmit (Some (spi_bus_add_device_handle pf))
            {| trans_length := 8; trans_tx_buffer := [x00] |}
            (spi_device_transmit_res pf 0);
          EvSemaphoreTake;
          EvGpioSetLevel (CONFIG_FPGA_CS_GPIO pf) 1;
          EvTaskDelay (pdMS_TO_TICKS pf 2);
          EvGpioSetLevel (CONFIG_FPGA_CRESET_GPIO pf) 1;
          EvTaskDelay 1;
          EvGpioMatrixOut (CONFIG_FPGA_CS_GPIO pf) SIG_GPIO_OUT_IDX;
          EvGpioSetLevel (CONFIG_FPGA_CS_GPIO pf) 0;
          EvGpioSetLevel (CONFIG_FPGA_CRESET_GPIO pf) 0;
          EvSpiDeviceAcquireBus (Some (spi_bus_add_device_handle pf))
            (spi_device_acquire_bus_res pf);
          EvSpiBusAddDevice (spi_bus_add_device_res pf)];
       fpga_update_device := Some (spi_bus_add_device_handle pf) |}.
  change (to_size_t (to_int (1 * 8))) with 8.
  destruct (stream_loop pf source fuel buffer (ctx source) (size source) _ _)
    as [[[[r b] c] s]|]; reflexivity.
Qed.

(** ** The completion poll *)

(** One turn of the poll loop. *)
Lemma cdone_pin_poll_step (pf : platform) (fuel : nat) (value : bool)
    (timeout : Z) (s : state) :
  cdone_pin_poll pf (S fuel) value timeout s =
  let level := gpio_get_level_res pf (count_ev is_gpio_get (trace s)) in
  let sample := EvGpioGetLevel (CONFIG_FPGA_CDONE_GPIO pf) level in
  if level =? level_of value then
    Some (ESP_OK, push [sample] s)
  else
    let now := xTaskGetTickCount_res pf (count_ev is_tick_read (trace s)) in
    if now >? timeout then
      Some (ESP_ERR_TIMEOUT, push [EvTaskGetTickCount now; sample] s)
    else
      cdone_pin_poll pf fuel value timeout
        (push [EvTaskDelay 1; EvTaskGetTickCount now; sample] s).
Proof.
  cbv zeta.
  destruct (_ =? level_of value) eqn:Hlevel;
    [|destruct (_ >? timeout) eqn:Hnow];
    cbn [cdone_pin_poll];
    repeat (cbv beta iota delta
              [mbind gpio_get_level xTaskGetTickCount vTaskDelay get_trace
               emit mret];
            cbn [trace fpga_update_device count_ev is_tick_read is_gpio_get];
            fold (level_of value); rewrite ?Hlevel, ?Hnow);
    reflexivity.
Qed.

Lemma cdone_pin_wait_eq (pf : platform) (fuel : nat) (value : bool)
    (timeout_ms : Z) (s : state) :
  cdone_pin_wait pf fuel value timeout_ms s =
  let now := xTaskGetTickCount_res pf (count_ev is_tick_read (trace s)) in
  cdone_pin_poll pf fuel value (to_size_t (now + pdMS_TO_TICKS pf timeout_ms))
    (push [EvTaskGetTickCount now] s).
Proof. reflexivity. Qed.

(** What the poll loop leaves behind: only samples, tick reads and
    delays; [ESP_OK] comes right after a sample at the awaited level,
    [ESP_ERR_TIMEOUT] right after a tick read past the deadline. *)
Lemma cdone_pin_poll_inv (pf : platform) (value : bool) (timeout : Z) :
  forall (fuel : nat) (s s' : state) (r : esp_err_t),
  cdone_pin_poll pf fuel value timeout s = Some (r, s') ->
  fpga_update_device s' = fpga_update_device s /\
  exists evs,
    trace s' = evs ++ trace s /\
    Forall (fun e => is_poll_ev e = true) evs /\
    ((r = ESP_OK /\
      exists evs', evs = EvGpioGetLevel (CONFIG_FPGA_CDONE_GPIO pf)
                           (level_of value) :: evs') \/
     (r = ESP_ERR_TIMEOUT /\
      exists now evs', evs = EvTaskGetTickCount now :: evs' /\ now > timeout)).
Proof.
  induction fuel as [|fuel IH]; intros s s' r H; [discriminate|].
  rewrite cdone_pin_poll_step in H. cbv zeta in H.
  destruct (_ =? level_of value) eqn:Hlvl.
  - inversion H; subst; clear H. split; [reflexivity|].
    apply Z.eqb_eq in Hlvl. rewrite Hlvl.
    exists [EvGpioGetLevel (CONFIG_FPGA_CDONE_GPIO pf) (level_of value)].
    split; [reflexivity|]. split; [repeat constructor|].
    left. split; [reflexivity|]. exists []. reflexivity.
  - destruct (_ >? timeout) eqn:Hnow.
    + inversion H; subst; clear H. split; [reflexivity|].
      eexists. split; [reflexivity|]. split; [repeat constructor|].
      right. split; [reflexivity|]. do 2 eexists. split; [reflexivity|].
      apply Z.gtb_lt in Hnow. lia.
    + apply IH in H. destruct H as [Hdev [evs [Htr [Hall Hres]]]].
      split; [exact Hdev|].
      eexists (evs ++ [_; _; _]). split.
      * rewrite Htr. cbn [push trace]. rewrite <- app_assoc. reflexivity.
      * split.
        -- apply Forall_app. split; [exact Hall|repeat constructor].
        -- destruct Hres as [[Hr [evs' He]]|[Hr [now [evs' [He Hgt]]]]].
           ++ left. split; [exact Hr|]. subst evs. eexists. reflexivity.
           ++ right. split; [exact Hr|]. subst evs. do 2 eexists.
              split; [reflexivity|exact Hgt].
Qed.

(** ** The streaming loop *)

(** One turn of the streaming loop. *)
Lemma stream_loop_step (pf : platform) (C : Type) (source : firmware_source_t C)
    (fuel : nat) (buffer : list byte) (c : C) (remaining : Z) (ret : esp_err_t)
    (s : state) :
  stream_loop pf source (S fuel) buffer c remaining ret s =
  if remaining >? 0 then
    let chunk := chunk_of pf remaining in
    let '(n, buffer', c') := read source buffer chunk c in
    let tr := EvSourceRead chunk n :: trace s in
    if negb (n =? chunk) then
      Some (ESP_FAIL, buffer', c', push [EvSourceRead chunk n] s)
    else if to_int chunk >? LOADER_BUFFER_SIZE pf then
      Some (ESP_FAIL, buffer', c', push [EvSourceRead chunk n] s)
    else
      let s' := push (block_trace pf (fpga_update_device s) buffer'
                        (to_int chunk) tr ++ [EvSourceRead chunk n]) s in
      if negb (transmit_res_at pf tr =? ESP_OK) then
        Some (transmit_res_at pf tr, buffer', c', s')
      else
        stream_loop pf source fuel buffer' c' (to_size_t (remaining - chunk))
          (transmit_res_at pf tr) s'
  else
    Some (ret, buffer, c, s).
Proof.
  cbn [stream_loop]. unfold chunk_of.
  destruct (remaining >? 0); [|reflexivity].
  cbv zeta.
  destruct (read source buffer _ c) as [[n buffer'] c'].
  unfold mbind at 1. unfold emit at 1.
  destruct (negb (n =? _)); [reflexivity|].
  unfold mbind at 1. rewrite write_update_block_eq.
  cbn [trace fpga_update_device].
  destruct (to_int _ >? LOADER_BUFFER_SIZE pf); [reflexivity|].
  destruct (negb (transmit_res_at pf _ =? ESP_OK)); reflexivity.
Qed.

(** The loop only reads the source and transmits; the device variable is
    left alone. *)
Lemma stream_loop_inv (pf : platform) (C : Type) (source : firmware_source_t C) :
  forall (fuel : nat) (buffer : list byte) (c : C) (remaining : Z)
         (ret : esp_err_t) (s s' : state) out,
  stream_loop pf source fuel buffer c remaining ret s = Some (out, s') ->
  fpga_update_device s' = fpga_update_device s /\
  exists evs,
    trace s' = evs ++ trace s /\
    Forall (fun e => is_stream_ev e = true) evs.
Proof.
  induction fuel as [|fuel IH]; intros buffer c remaining ret s s' out H;
    [discriminate|].
  rewrite stream_loop_step in H.
  destruct (remaining >? 0).
  - cbv zeta in H.
    destruct (read source buffer _ c) as [[n buffer'] c'].
    destruct (negb (n =? _));
      [inversion H; subst; split; [reflexivity|];
       eexists [_]; split; [reflexivity|repeat constructor]|].
    destruct (to_int _ >? _);
      [inversion H; subst; split; [reflexivity|];
       eexists [_]; split; [reflexivity|repeat constructor]|].
    destruct (negb (_ =? ESP_OK)).
    + inversion H; subst. split; [reflexivity|].
      eexists. split; [reflexivity|]. repeat constructor.
    + apply IH in H. destruct H as [Hdev [evs [Htr Hall]]].
      split; [exact Hdev|].
      cbn [push trace] in Htr.
      eexists (evs ++ _). split.
      * rewrite Htr. apply app_assoc.
      * apply Forall_app. split; [exact Hall|repeat constructor].
  - inversion H; subst. split; [reflexivity|].
    exists []. split; [reflexivity|constructor].
Qed.

(** With a chunk size of at least one byte the loop ends within
    [remaining] turns, whatever the source and the bus do. *)
Lemma stream_loop_terminates (pf : platform) (C : Type)
    (source : firmware_source_t C) :
  0 < to_size_t (LOADER_BUFFER_SIZE pf) ->
  forall (fuel : nat) (buffer : list byte) (c : C) (remaining : Z)
         (ret : esp_err_t) (s : state),
  (Z.to_nat remaining < fuel)%nat ->
  exists out s',
    stream_loop pf source fuel buffer c remaining ret s = Some (out, s').
Proof.
  intros Hpos.
  induction fuel as [|fuel IH]; intros buffer c remaining ret s Hfuel; [lia|].
  rewrite stream_loop_step.
  destruct (remaining >? 0) eqn:Hrem; [|eauto].
  apply Z.gtb_lt in Hrem. cbv zeta.
  destruct (read source buffer _ c) as [[n buffer'] c'].
  destruct (negb (n =? _)); [eauto|].
  destruct (to_int _ >? _); [eauto|].
  destruct (negb (_ =? ESP_OK)); [eauto|].
  apply IH.
  assert (Hchunk : 0 < chunk_of pf remaining <= remaining).
  { unfold chunk_of. destruct (remaining >? _) eqn:Hc; [|lia].
    apply Z.gtb_lt in Hc. lia. }
  pose proof (to_size_t_bounds (remaining - chunk_of pf remaining)).
  lia.
Qed.

(** *** Chunking *)

Lemma transmit_bits_app (a b : list event) :
  transmit_bits (a ++ b) = transmit_bits a ++ transmit_bits b.
Proof. unfold transmit_bits. apply flat_map_app. Qed.

Lemma transmit_bits_rev (l : list event) :
  transmit_bits (rev l) = rev (transmit_bits l).
Proof.
  induction l as [|e l IH]; [reflexivity|].
  cbn [rev]. rewrite transmit_bits_app, IH.
  destruct e; cbn [transmit_bits flat_map app rev];
    rewrite ?app_nil_r; reflexivity.
Qed.

Lemma Zsum_app (a b : list Z) : Zsum (a ++ b) = Zsum a + Zsum b.
Proof.
  induction a as [|x a IH]; [reflexivity|].
  unfold Zsum in *. cbn [app fold_right]. rewrite IH. lia.
Qed.

Lemma Zsum_rev (l : list Z) : Zsum (rev l) = Zsum l.
Proof.
  induction l as [|x l IH]; [reflexivity|].
  cbn [rev]. rewrite Zsum_app, IH. unfold Zsum. cbn [fold_right]. lia.
Qed.

Lemma ceil_div_zero (b : Z) : 0 < b -> ceil_div 0 b = 0.
Proof. intros H. unfold ceil_div. apply Z.div_small. lia. Qed.

Lemma ceil_div_last (a b : Z) : 0 < a <= b -> ceil_div a b = 1.
Proof.
  intros H. unfold ceil_div.
  replace (a + b - 1) with ((a - 1) + 1 * b) by lia.
  rewrite Z.div_add by lia. rewrite Z.div_small by lia. reflexivity.
Qed.

Lemma ceil_div_more (a b : Z) : 0 < b -> ceil_div a b = ceil_div (a - b) b + 1.
Proof.
  intros H. unfold ceil_div.
  replace (a + b - 1) with ((a - b + b - 1) + 1 * b) by lia.
  apply Z.div_add. lia.
Qed.

Lemma ceil_div_nonneg (a b : Z) : 0 <= a -> 0 < b -> 0 <= ceil_div a b.
Proof. intros Ha Hb. unfold ceil_div. apply Z.div_pos; lia. Qed.

(** The loop on a source that reads in full and a bus that transmits:
    the chunks (newest first) are counted by [ceil_div], fit the buffer
    and add up to what was left. *)
Lemma stream_loop_chunks (pf : platform) (C : Type)
    (source : firmware_source_t C) (inv : C -> Z -> Prop) :
  0 < LOADER_BUFFER_SIZE pf ->
  8 * LOADER_BUFFER_SIZE pf <= INT_MAX ->
  (forall buffer n c remaining,
     inv c remaining -> 0 < n <= remaining ->
     exists buffer' c',
       read source buffer n c = (n, buffer', c') /\ inv c' (remaining - n)) ->
  (forall k, spi_device_transmit_res pf k = ESP_OK) ->
  forall (fuel : nat) (buffer : list byte) (c : C) (remaining : Z)
         (ret : esp_err_t) (s : state),
  inv c remaining ->
  0 <= remaining < 2 ^ 32 ->
  (Z.to_nat remaining < fuel)%nat ->
  exists out s' evs chunks,
    stream_loop pf source fuel buffer c remaining ret s = Some (out, s') /\
    trace s' = evs ++ trace s /\
    transmit_bits evs = map (Z.mul 8) chunks /\
    List.length chunks = Z.to_nat (ceil_div remaining (LOADER_BUFFER_SIZE pf)) /\
    Forall (fun n => 0 < n <= LOADER_BUFFER_SIZE pf) chunks /\
    Zsum chunks = remaining.
Proof.
  intros Hpos Hmax Hread Htx.
  assert (Hsz : to_size_t (LOADER_BUFFER_SIZE pf) = LOADER_BUFFER_SIZE pf).
  { apply to_size_t_small. unfold INT_MAX in Hmax. lia. }
  induction fuel as [|fuel IH]; intros buffer c remaining ret s Hinv Hrem Hfuel;
    [lia|].
  rewrite stream_loop_step.
  destruct (remaining >? 0) eqn:Hgt.
  2:{ assert (remaining = 0) by (zbool; lia).
      subst remaining. exists (ret, buffer, c), s, [], [].
      rewrite ceil_div_zero by exact Hpos.
      repeat split; constructor. }
  apply Z.gtb_lt in Hgt. cbv zeta.
  assert (Hchunk : 0 < chunk_of pf remaining <= remaining /\
                   chunk_of pf remaining <= LOADER_BUFFER_SIZE pf).
  { unfold chunk_of. rewrite Hsz.
    destruct (remaining >? _) eqn:Hc; zbool; lia. }
  destruct Hchunk as [Hchunk Hfit].
  destruct (Hread buffer _ c remaining Hinv Hchunk) as [buffer' [c' [Hrd Hinv']]].
  rewrite Hrd. rewrite Z.eqb_refl. cbn [negb].
  assert (Hint : to_int (chunk_of pf remaining) = chunk_of pf remaining).
  { apply to_int_small. unfold INT_MAX in *. lia. }
  rewrite Hint.
  destruct (chunk_of pf remaining >? LOADER_BUFFER_SIZE pf) eqn:Hblk;
    [apply Z.gtb_lt in Hblk; lia|].
  unfold transmit_res_at at 1. rewrite Htx. cbn [Z.eqb ESP_OK negb].
  assert (Hnext : to_size_t (remaining - chunk_of pf remaining)
                  = remaining - chunk_of pf remaining)
    by (apply to_size_t_small; lia).
  rewrite Hnext.
  edestruct (IH buffer' c' (remaining - chunk_of pf remaining)
               (transmit_res_at pf
                  (EvSourceRead (chunk_of pf remaining) (chunk_of pf remaining)
                   :: trace s)))
    as [out [s' [evs [chunks [Hrun [Htr [Hbits [Hlen [Hall Hsum]]]]]]]]];
    [exact Hinv'|lia|lia|].
  rewrite Hrun. cbn [push trace] in Htr.
  eexists out, s', (evs ++ _), (chunks ++ [chunk_of pf remaining]).
  split; [reflexivity|]. split; [rewrite Htr; apply app_assoc|].
  split.
  { rewrite transmit_bits_app, Hbits, map_app. f_equal.
    cbn [transmit_bits flat_map block_trace app trans_length map].
    rewrite to_int_small by (unfold INT_MAX in *; lia).
    rewrite to_size_t_small by (unfold INT_MAX in *; lia).
    f_equal. lia. }
  split.
  { rewrite length_app, Hlen. cbn [List.length].
    unfold chunk_of. rewrite Hsz.
    destruct (remaining >? LOADER_BUFFER_SIZE pf) eqn:Hc.
    - apply Z.gtb_lt in Hc.
      rewrite (ceil_div_more remaining) by exact Hpos.
      rewrite Z2Nat.inj_add; [|apply ceil_div_nonneg; lia|lia].
      reflexivity.
    - zbool.
      rewrite Z.sub_diag, ceil_div_zero, ceil_div_last by lia.
      reflexivity. }
  split.
  { apply Forall_app. split; [exact Hall|]. repeat constructor; lia. }
  rewrite Zsum_app, Hsum. unfold Zsum. cbn [fold_right]. lia.
Qed.

(** ** Padding *)

Lemma firstn_repeat_le (A : Type) (x : A) (n m : nat) :
  (n <= m)%nat -> firstn n (repeat x m) = repeat x n.
Proof.
  revert m. induction n as [|n IH]; intros m H; [reflexivity|].
  destruct m as [|m]; [lia|].
  cbn [repeat firstn]. rewrite IH by lia. reflexivity.
Qed.

Lemma firstn_zeroed (pf : platform) (buffer : list byte) (n : Z) :
  n <= LOADER_BUFFER_SIZE pf ->
  firstn (Z.to_nat n) (zeroed pf buffer) = repeat x00 (Z.to_nat n).
Proof.
  intros H. unfold zeroed, memcpy.
  rewrite firstn_app, repeat_length.
  replace (Z.to_nat n - Z.to_nat (LOADER_BUFFER_SIZE pf))%nat with O by lia.
  cbn [firstn]. rewrite app_nil_r.
  apply firstn_repeat_le. lia.
Qed.

(** The padding written from the zeroed buffer, in the order of the
    calls. *)
Lemma write_trace_padding (pf : platform) (buffer : list byte) (n : Z)
    (tr : list event) :
  0 <= n * 8 <= INT_MAX ->
  rev (write_trace pf (session_handle pf) (zeroed pf buffer) n tr)
  = padding_steps pf n (transmit_res_at pf tr).
Proof.
  intros Hn. unfold write_trace, padding_steps.
  destruct (n >? LOADER_BUFFER_SIZE pf) eqn:Hfit; [reflexivity|].
  zbool. unfold block_trace, block_steps. cbn [rev app].
  rewrite firstn_zeroed by lia.
  rewrite to_int_small by exact Hn.
  rewrite to_size_t_small by (unfold INT_MAX in Hn; lia).
  reflexivity.
Qed.

Lemma write_trace_stream (pf : platform) (h : spi_device_handle_t)
    (buffer : list byte) (n : Z) (tr : list event) :
  Forall (fun e => is_stream_ev e = true) (write_trace pf h buffer n tr).
Proof.
  unfold write_trace. destruct (n >? _); repeat constructor.
Qed.

(** ** The anatomy of a session that reaches Step 8 *)

Lemma reaches_streaming_load (pf : platform) (C : Type)
    (source : firmware_source_t C) (fuel : nat) :
  reaches_streaming pf ->
  exists buffer,
    heap_caps_malloc_res pf = Some buffer /\
    fpga_loader_load pf source fuel initial_state =
    match stream_loop pf source fuel buffer (ctx source) (size source)
            (spi_device_transmit_res pf 0) (streaming_start pf) with
    | Some (ret', buffer', _, s) => load_steps_8_to_10 pf fuel buffer' ret' s
    | None => None
    end.
Proof.
  intros [Hadd [Hacq [Hfit [Htx Hmem]]]].
  destruct (heap_caps_malloc_res pf) as [buffer|] eqn:Hm; [|congruence].
  exists buffer. split; [reflexivity|].
  rewrite fpga_loader_load_eq, Hadd, Hacq, Htx, Hm.
  destruct (1 >? LOADER_BUFFER_SIZE pf) eqn:H1; [zbool; lia|].
  reflexivity.
Qed.

Lemma completed_session (pf : platform) (C : Type)
    (source : firmware_source_t C) (fuel : nat) (ret : esp_err_t) (st : state) :
  reaches_streaming pf ->
  fpga_loader_load pf source fuel initial_state = Some (ret, st) ->
  exists streamed wait r13 r7,
    history st =
      steps_1_to_6 pf ++ [EvHeapCapsMalloc (LOADER_BUFFER_SIZE pf) true]
      ++ streamed
      ++ [EvGpioSetLevel (CONFIG_FPGA_CS_GPIO pf) 1;
          EvMemset (LOADER_BUFFER_SIZE pf)]
      ++ padding_steps pf 13 r13
      ++ wait
      ++ padding_steps pf 7 r7
      ++ hand_off_steps pf
      ++ cleanup_bus_steps (session_handle pf) /\
    Forall (fun e => is_stream_ev e = true) streamed /\
    Forall (fun e => is_poll_ev e = true) wait /\
    wait_outcome pf ret wait /\
    fpga_update_device st = None.
Proof.
  intros Hreach Hload.
  destruct (reaches_streaming_load pf C source fuel Hreach)
    as [buffer [_ Heq]].
  rewrite Heq in Hload. clear Heq.
  destruct (stream_loop pf source fuel buffer _ _ _ _)
    as [[[[r b] c] s8]|] eqn:Hloop; [|discriminate].
  apply stream_loop_inv in Hloop. destruct Hloop as [Hdev8 [evs [Htr8 Hevs]]].
  rewrite load_steps_8_to_10_eq, cdone_pin_wait_eq in Hload. cbv zeta in Hload.
  destruct (cdone_pin_poll pf fuel true _ _) as [[ret' sw]|] eqn:Hpoll;
    [|discriminate].
  inversion Hload; subst ret' st; clear Hload.
  apply cdone_pin_poll_inv in Hpoll.
  destruct Hpoll as [Hdevw [pevs [Htrw [Hpevs Hout]]]].
  cbn [push before_wait trace fpga_update_device app] in Hdevw, Htrw.
  change (fpga_update_device (streaming_start pf)) with (session_handle pf)
    in Hdev8.
  rewrite Hdev8 in *.
  eexists (rev evs), (_ :: rev pevs), _, _.
  split; [|split; [|split; [|split]]].
  - unfold history, after_wait. cbn [trace].
    rewrite Hdevw, Htrw, Htr8.
    unfold streaming_start, state_of. cbn [trace].
    repeat first [rewrite rev_app_distr | rewrite rev_involutive
                 | progress cbn [rev app]].
    rewrite !write_trace_padding by (unfold INT_MAX; lia).
    rewrite <- !app_assoc. cbn [app]. reflexivity.
  - apply Forall_rev. exact Hevs.
  - constructor; [reflexivity|]. apply Forall_rev. exact Hpevs.
  - destruct Hout as [[Hr [evs' He]]|[Hr [now [evs' [He _]]]]]; subst pevs.
    + left. split; [exact Hr|]. eexists (_ :: rev evs'). reflexivity.
    + right. split; [exact Hr|]. eexists (_ :: rev evs'), now. reflexivity.
  - reflexivity.
Qed.

(** The calls from Step 8 on, when the wait made the calls [pevs] (newest
    first) after its first tick read. *)
Lemma after_wait_history (pf : platform) (b : list byte) (s8 sw : state)
    (tick : Z) (pevs : list event) :
  fpga_update_device s8 = session_handle pf ->
  fpga_update_device sw = session_handle pf ->
  trace sw = pevs ++ EvTaskGetTickCount tick :: trace (before_wait pf b s8) ->
  exists r13 r7,
    history (after_wait pf b sw) =
      history s8
      ++ [EvGpioSetLevel (CONFIG_FPGA_CS_GPIO pf) 1;
          EvMemset (LOADER_BUFFER_SIZE pf)]
      ++ padding_steps pf 13 r13
      ++ (EvTaskGetTickCount tick :: rev pevs)
      ++ padding_steps pf 7 r7
      ++ hand_off_steps pf
      ++ cleanup_bus_steps (session_handle pf).
Proof.
  intros Hdev8 Hdevw Htrw.
  do 2 eexists. unfold history, after_wait. cbn [trace].
  rewrite Hdevw, Htrw. unfold before_wait. cbn [trace]. rewrite Hdev8.
  repeat first [rewrite rev_app_distr | rewrite rev_involutive
               | progress cbn [rev app]].
  rewrite !write_trace_padding by (unfold INT_MAX; lia).
  rewrite <- !app_assoc. cbn [app]. reflexivity.
Qed.

(** ** What a session holds *)

Lemma fold_apply_event_neutral (l : list event) (r : resources) :
  Forall (fun e => is_resource_ev e = false) l ->
  fold_left apply_event l r = r.
Proof.
  induction 1 as [|e l He _ IH]; [reflexivity|].
  cbn [fold_left]. rewrite <- IH at 2. f_equal.
  destruct e; try reflexivity; discriminate.
Qed.

Lemma stream_ev_neutral (l : list event) :
  Forall (fun e => is_stream_ev e = true) l ->
  Forall (fun e => is_resource_ev e = false) l.
Proof.
  apply Forall_impl. intros e He. destruct e; try reflexivity; discriminate.
Qed.

Lemma poll_ev_neutral (l : list event) :
  Forall (fun e => is_poll_ev e = true) l ->
  Forall (fun e => is_resource_ev e = false) l.
Proof.
  apply Forall_impl. intros e He. destruct e; try reflexivity; discriminate.
Qed.

Lemma padding_steps_neutral (pf : platform) (n : Z) (r : esp_err_t) :
  Forall (fun e => is_resource_ev e = false) (padding_steps pf n r).
Proof.
  unfold padding_steps. destruct (n >? _); repeat constructor.
Qed.

Lemma history_state_of (h : list event) (d : spi_device_handle_t) :
  history (state_of h d) = h.
Proof. unfold history, state_of. cbn [trace]. apply rev_involutive. Qed.

(** Once the bus is taken, a session that returns has released it and
    removed the device, and holds nothing. *)
Lemma load_releases (pf : platform) (C : Type) (source : firmware_source_t C)
    (fuel : nat) (ret : esp_err_t) (st : state) :
  spi_bus_add_device_res pf = ESP_OK ->
  spi_device_acquire_bus_res pf = ESP_OK ->
  fpga_loader_load pf source fuel initial_state = Some (ret, st) ->
  (exists pre, history st = pre ++ cleanup_bus_steps (session_handle pf)) /\
  resources_after (history st) = no_resources /\
  fpga_update_device st = None.
Proof.
  intros Hadd Hacq Hload.
  destruct (1 >? LOADER_BUFFER_SIZE pf) eqn:Hfit;
    [|destruct (spi_device_transmit_res pf 0 =? ESP_OK) eqn:Htx;
      [destruct (heap_caps_malloc_res pf) as [buffer|] eqn:Hmem|]].
  - rewrite fpga_loader_load_eq, Hadd, Hacq, Hfit in Hload.
    inversion Hload; subst; clear Hload. rewrite history_state_of.
    split; [exists (acquire_steps pf ++ reset_steps pf); reflexivity|].
    split; [|reflexivity].
    unfold resources_after, acquire_steps. cbn [app fold_left apply_event].
    rewrite Hadd, Hacq. reflexivity.
  - assert (Hreach : reaches_streaming pf).
    { zbool. repeat split; try assumption; try lia. congruence. }
    destruct (completed_session pf C source fuel ret st Hreach Hload)
      as [streamed [wait [r13 [r7 [Hh [Hs [Hw [_ Hdev]]]]]]]].
    split; [|split; [|exact Hdev]].
    + rewrite Hh. eexists. rewrite !app_assoc. reflexivity.
    + rewrite Hh. unfold resources_after.
      rewrite !fold_left_app.
      rewrite (fold_apply_event_neutral streamed)
        by (apply stream_ev_neutral; exact Hs).
      rewrite (fold_apply_event_neutral (padding_steps pf 13 r13))
        by apply padding_steps_neutral.
      rewrite (fold_apply_event_neutral wait)
        by (apply poll_ev_neutral; exact Hw).
      rewrite (fold_apply_event_neutral (padding_steps pf 7 r7))
        by apply padding_steps_neutral.
      unfold steps_1_to_6, acquire_steps. cbn [app fold_left apply_event].
      rewrite Hadd, Hacq. reflexivity.
  - rewrite fpga_loader_load_eq, Hadd, Hacq, Hfit, Htx, Hmem in Hload.
    inversion Hload; subst; clear Hload. rewrite history_state_of.
    split;
      [exists (steps_1_to_6 pf
               ++ [EvHeapCapsMalloc (LOADER_BUFFER_SIZE pf) false]);
       reflexivity|].
    split; [|reflexivity].
    unfold resources_after, steps_1_to_6, acquire_steps.
    cbn [app fold_left apply_event].
    rewrite Hadd, Hacq. reflexivity.
  - rewrite fpga_loader_load_eq, Hadd, Hacq, Hfit, Htx in Hload.
    inversion Hload; subst; clear Hload. rewrite history_state_of.
    split;
      [exists (acquire_steps pf ++ reset_steps pf ++ dummy_steps pf);
       reflexivity|].
    split; [|reflexivity].
    unfold resources_after, acquire_steps. cbn [app fold_left apply_event].
    rewrite Hadd, Hacq. reflexivity.
Qed.

(** A session that returns [ESP_OK] went through every step. *)
Lemma load_ok_reaches_streaming (pf : platform) (C : Type)
    (source : firmware_source_t C) (fuel : nat) (st : state) :
  fpga_loader_load pf source fuel initial_state = Some (ESP_OK, st) ->
  reaches_streaming pf.
Proof.
  intros Hload. rewrite fpga_loader_load_eq in Hload.
  destruct (spi_bus_add_device_res pf =? ESP_OK) eqn:Hadd;
    cbn [negb] in Hload;
    [|injection Hload as Hret Hst; zbool; contradiction].
  destruct (spi_device_acquire_bus_res pf =? ESP_OK) eqn:Hacq;
    cbn [negb] in Hload;
    [|injection Hload as Hret Hst; zbool; contradiction].
  destruct (1 >? LOADER_BUFFER_SIZE pf) eqn:Hfit; [discriminate|].
  destruct (spi_device_transmit_res pf 0 =? ESP_OK) eqn:Htx;
    cbn [negb] in Hload;
    [|injection Hload as Hret Hst; zbool; contradiction].
  destruct (heap_caps_malloc_res pf) eqn:Hmem; [|discriminate].
  zbool. unfold reaches_streaming. rewrite Hmem.
  split; [assumption|]. split; [assumption|]. split; [lia|].
  split; [assumption|discriminate].
Qed.

Lemma stream_ev_quiet (p : event -> bool) (l : list event) :
  (forall e, is_stream_ev e = true -> p e = false) ->
  Forall (fun e => is_stream_ev e = true) l ->
  count_ev p l = O.
Proof.
  intros Hp Hl. apply count_ev_none. revert Hl. apply Forall_impl. exact Hp.
Qed.

(** No sample and no tick read is made before [cdone_pin_wait]. *)
Lemma before_wait_quiet (pf : platform) (buffer : list byte) (evs : list event)
    (s8 : state) :
  trace s8 = evs ++ trace (streaming_start pf) ->
  Forall (fun e => is_stream_ev e = true) evs ->
  count_ev is_gpio_get (trace (before_wait pf buffer s8)) = O /\
  count_ev is_tick_read (trace (before_wait pf buffer s8)) = O.
Proof.
  intros Htr Hevs. unfold before_wait. cbn [trace].
  split; rewrite count_ev_app;
    (rewrite (stream_ev_quiet _ (write_trace _ _ _ _ _));
     [|intros e He; destruct e; try reflexivity; discriminate
      |apply write_trace_stream]);
    cbn [count_ev is_gpio_get is_tick_read Nat.add];
    rewrite Htr, count_ev_app;
    (rewrite (stream_ev_quiet _ evs);
     [|intros e He; destruct e; try reflexivity; discriminate|exact Hevs]);
    reflexivity.
Qed.

(** Every exit leaves the device variable [NULL]. *)
Lemma load_leaves_device_null (pf : platform) (C : Type)
    (source : firmware_source_t C) (fuel : nat) (ret : esp_err_t) (st : state) :
  fpga_loader_load pf source fuel initial_state = Some (ret, st) ->
  fpga_update_device st = None.
Proof.
  intros Hload. rewrite fpga_loader_load_eq in Hload.
  destruct (negb (spi_bus_add_device_res pf =? ESP_OK));
    [injection Hload as _ Hst; subst st; reflexivity|].
  destruct (negb (spi_device_acquire_bus_res pf =? ESP_OK));
    [injection Hload as _ Hst; subst st; reflexivity|].
  destruct (1 >? LOADER_BUFFER_SIZE pf);
    [injection Hload as _ Hst; subst st; reflexivity|].
  destruct (negb (spi_device_transmit_res pf 0 =? ESP_OK));
    [injection Hload as _ Hst; subst st; reflexivity|].
  destruct (heap_caps_malloc_res pf) as [buffer|];
    [|injection Hload as _ Hst; subst st; reflexivity].
  destruct (stream_loop pf source fuel buffer _ _ _ _)
    as [[[[r b] c] s8]|]; [|discriminate].
  rewrite load_steps_8_to_10_eq in Hload.
  destruct (cdone_pin_wait pf fuel true 100 _) as [[r' sw]|]; [|discriminate].
  injection Hload as _ Hst. subst st. reflexivity.
Qed.

(** The memory-range entry point on a descriptor it accepts is
    [fpga_loader_load] on the source of that range. *)
Lemma fpga_loader_load_from_rom_eq (pf : platform) (fuel : nat)
    (bin : fpga_bin_t) (s : state) :
  bin_start bin < bin_end bin ->
  fpga_loader_load_from_rom pf fuel (Some bin) s =
  fpga_loader_load pf
    (rom_source (rom_mem pf) (bin_start bin)
       (to_size_t (bin_end bin - bin_start bin))) fuel s.
Proof.
  intros H. unfold fpga_loader_load_from_rom.
  destruct (bin_end bin <=? bin_start bin) eqn:Hle; [zbool; lia|].
  reflexivity.
Qed.

Lemma cdone_pin_poll_ends (pf : platform) (timeout : Z) :
  forall (n fuel : nat) (s : state),
  (n < fuel)%nat ->
  (forall j, (j < n)%nat ->
     gpio_get_level_res pf (count_ev is_gpio_get (trace s) + j) <> 1 /\
     xTaskGetTickCount_res pf (count_ev is_tick_read (trace s) + j)
     <= timeout) ->
  (gpio_get_level_res pf (count_ev is_gpio_get (trace s) + n) = 1 \/
   xTaskGetTickCount_res pf (count_ev is_tick_read (trace s) + n) > timeout) ->
  exists r sw, cdone_pin_poll pf fuel true timeout s = Some (r, sw).
Proof.
  induction n as [|n IH]; intros fuel s Hfuel Hwait Hend;
    (destruct fuel as [|fuel]; [lia|]);
    rewrite cdone_pin_poll_step; cbv zeta; cbn [level_of].
  - rewrite !Nat.add_0_r in Hend.
    destruct (_ =? 1) eqn:Hl; [eauto|].
    destruct Hend as [Hend|Hend]; [zbool; contradiction|].
    apply Z.gt_lt, Z.gtb_lt in Hend. rewrite Hend. eauto.
  - destruct (Hwait O ltac:(lia)) as [Hl0 Hw0].
    rewrite Nat.add_0_r in Hl0, Hw0.
    apply Z.eqb_neq in Hl0. rewrite Hl0.
    destruct (_ >? timeout) eqn:Hgt; [zbool; lia|].
    apply IH; cbn [push trace app count_ev is_gpio_get is_tick_read].
    + lia.
    + intros j Hj. rewrite !Nat.add_succ_comm. apply Hwait. lia.
    + rewrite !Nat.add_succ_comm. exact Hend.
Qed.

(** A session whose wait ends returns: with enough fuel
    [fpga_loader_load] gives a result. *)
Lemma load_returns (pf : platform) (C : Type) (source : firmware_source_t C)
    (n : nat) :
  reaches_streaming pf ->
  LOADER_BUFFER_SIZE pf < 2 ^ 32 ->
  cdone_wait_ends pf n ->
  exists fuel ret st,
    fpga_loader_load pf source fuel initial_state = Some (ret, st).
Proof.
  intros Hreach Hmax [Hwait Hend].
  set (fuel := S (Z.to_nat (size source) + n)).
  destruct (reaches_streaming_load pf C source fuel Hreach)
    as [buffer [Hmem Heq]].
  assert (Hpos : 0 < to_size_t (LOADER_BUFFER_SIZE pf)).
  { destruct Hreach as [_ [_ [H1 _]]]. rewrite to_size_t_small; lia. }
  destruct (stream_loop_terminates pf C source Hpos fuel buffer (ctx source)
              (size source) (spi_device_transmit_res pf 0) (streaming_start pf))
    as [[[r b] c] [s8 Hloop]]; [unfold fuel; lia|].
  pose proof (stream_loop_inv pf C source _ _ _ _ _ _ _ _ Hloop)
    as [_ [evs [Htr8 Hevs]]].
  destruct (before_wait_quiet pf b evs s8 Htr8 Hevs) as [Hg Ht].
  destruct (cdone_pin_poll_ends pf
              (to_size_t (xTaskGetTickCount_res pf 0 + pdMS_TO_TICKS pf 100))
              n fuel
              (push [EvTaskGetTickCount (xTaskGetTickCount_res pf 0)]
                    (before_wait pf b s8)))
    as [ret [sw Hpoll]].
  { unfold fuel; lia. }
  { intros j Hj. cbn [push trace app count_ev is_gpio_get is_tick_read].
    rewrite Hg, Ht. apply Hwait. exact Hj. }
  { cbn [push trace app count_ev is_gpio_get is_tick_read].
    rewrite Hg, Ht. exact Hend. }
  exists fuel, ret, (after_wait pf b sw).
  rewrite Heq, Hloop, load_steps_8_to_10_eq, cdone_pin_wait_eq.
  cbv zeta. rewrite Ht, Hpoll. reflexivity.
Qed.

Lemma rom_reads_in_full (mem : Z -> byte) (start len : Z) :
  0 <= len < 2 ^ 32 ->
  reads_in_full (rom_source mem start len)
    (fun c remaining =>
       rom_size c = len /\ 0 <= rom_pos c /\ rom_pos c + remaining = len).
Proof.
  intros Hlen. split; [cbn; lia|].
  intros buffer n c remaining [Hsize [Hpos Hrem]] Hn.
  cbn [rom_source read]. unfold rom_read.
  rewrite to_size_t_small by lia.
  destruct (_ >? _) eqn:Hc; [zbool; lia|].
  do 2 eexists. split; [reflexivity|]. cbn [rom_size rom_pos]. lia.
Qed.

(** ** Sessions that start later *)

Lemma same_run_ret (A : Type) (tr0 : list event) (a : A) :
  same_run tr0 (mret a) (mret a).
Proof. intros s. reflexivity. Qed.

Lemma same_run_bind (A B : Type) (tr0 : list event) (m1 m2 : M A)
    (k1 k2 : A -> M B) :
  same_run tr0 m1 m2 ->
  (forall a, same_run tr0 (k1 a) (k2 a)) ->
  same_run tr0 (mbind m1 k1) (mbind m2 k2).
Proof.
  intros Hm Hk s. unfold mbind. rewrite Hm.
  destruct (m2 s) as [[a s']|]; [apply Hk|reflexivity].
Qed.

Lemma same_run_emit (tr0 : list event) (e : event) :
  same_run tr0 (emit e) (emit e).
Proof. intros s. reflexivity. Qed.

Lemma same_run_get_device (tr0 : list event) :
  same_run tr0 get_device get_device.
Proof. intros s. reflexivity. Qed.

Lemma same_run_set_device (tr0 : list event) (h : spi_device_handle_t) :
  same_run tr0 (set_device h) (set_device h).
Proof. intros s. reflexivity. Qed.

Lemma same_run_transmit (pf : platform) (tr0 : list event)
    (h : spi_device_handle_t) (t : spi_transaction_t) :
  same_run tr0 (spi_device_transmit pf h t)
    (spi_device_transmit (shift_responses pf tr0) h t).
Proof.
  intros s. unfold spi_device_transmit, mbind, get_trace, emit, mret.
  cbn [resume trace fpga_update_device shift_responses spi_device_transmit_res].
  rewrite count_ev_app, Nat.add_comm. reflexivity.
Qed.

Lemma same_run_gpio_get_level (pf : platform) (tr0 : list event) (pin : Z) :
  same_run tr0 (gpio_get_level pf pin)
    (gpio_get_level (shift_responses pf tr0) pin).
Proof.
  intros s. unfold gpio_get_level, mbind, get_trace, emit, mret.
  cbn [resume trace fpga_update_device shift_responses gpio_get_level_res].
  rewrite count_ev_app, Nat.add_comm. reflexivity.
Qed.

Lemma same_run_tick (pf : platform) (tr0 : list event) :
  same_run tr0 (xTaskGetTickCount pf)
    (xTaskGetTickCount (shift_responses pf tr0)).
Proof.
  intros s. unfold xTaskGetTickCount, mbind, get_trace, emit, mret.
  cbn [resume trace fpga_update_device shift_responses xTaskGetTickCount_res].
  rewrite count_ev_app, Nat.add_comm. reflexivity.
Qed.

(** Splits a sequence of calls whose results are not looked at. *)
Ltac same_run_seq :=
  repeat first
    [ apply same_run_ret
    | apply same_run_emit
    | apply same_run_get_device
    | apply same_run_set_device
    | apply same_run_transmit
    | apply same_run_gpio_get_level
    | apply same_run_tick
    | apply same_run_bind; [|intro] ].

Create HintDb same_run discriminated.

#[local] Hint Resolve same_run_ret same_run_emit same_run_get_device
  same_run_set_device same_run_transmit same_run_gpio_get_level
  same_run_tick : same_run.

Lemma same_run_write_update_block (pf : platform) (tr0 : list event)
    (buffer : list byte) (length : Z) :
  same_run tr0 (write_update_block pf buffer length)
    (write_update_block (shift_responses pf tr0) buffer length).
Proof.
  unfold write_update_block.
  change (LOADER_BUFFER_SIZE (shift_responses pf tr0))
    with (LOADER_BUFFER_SIZE pf).
  destruct (length >? LOADER_BUFFER_SIZE pf); [apply same_run_ret|].
  unfold xSemaphoreTake, xSemaphoreGive. same_run_seq.
Qed.

Lemma same_run_cdone_pin_poll (pf : platform) (tr0 : list event)
    (value : bool) (timeout : Z) (fuel : nat) :
  same_run tr0 (cdone_pin_poll pf fuel value timeout)
    (cdone_pin_poll (shift_responses pf tr0) fuel value timeout).
Proof.
  induction fuel as [|fuel IH]; [intros s; reflexivity|].
  cbn [cdone_pin_poll].
  change (CONFIG_FPGA_CDONE_GPIO (shift_responses pf tr0))
    with (CONFIG_FPGA_CDONE_GPIO pf).
  apply same_run_bind; [auto with same_run|intros level].
  destruct (level =? _); [auto with same_run|].
  apply same_run_bind; [auto with same_run|intros now].
  destruct (now >? timeout); [auto with same_run|].
  unfold vTaskDelay.
  apply same_run_bind; [auto with same_run|intros _; exact IH].
Qed.

Lemma same_run_cleanup_device (pf : platform) (tr0 : list event)
    (ret : esp_err_t) :
  same_run tr0 (cleanup_device pf ret)
    (cleanup_device (shift_responses pf tr0) ret).
Proof.
  unfold cleanup_device, update_spi_device_remove, spi_bus_remove_device.
  change (spi_bus_remove_device_res (shift_responses pf tr0))
    with (spi_bus_remove_device_res pf).
  same_run_seq.
Qed.

Lemma same_run_cleanup_bus (pf : platform) (tr0 : list event) (ret : esp_err_t) :
  same_run tr0 (cleanup_bus pf ret) (cleanup_bus (shift_responses pf tr0) ret).
Proof.
  unfold cleanup_bus, spi_device_release_bus.
  apply same_run_bind; [auto with same_run|intros h].
  apply same_run_bind; [auto with same_run|intros _].
  apply same_run_cleanup_device.
Qed.

Lemma same_run_steps_8_to_10 (pf : platform) (tr0 : list event) (fuel : nat)
    (buffer : list byte) (ret0 : esp_err_t) :
  same_run tr0 (load_steps_8_to_10 pf fuel buffer ret0)
    (load_steps_8_to_10 (shift_responses pf tr0) fuel buffer ret0).
Proof.
  unfold load_steps_8_to_10, gpio_set_level, gpio_matrix_out, heap_caps_free,
    memset, cdone_pin_wait.
  change (LOADER_BUFFER_SIZE (shift_responses pf tr0))
    with (LOADER_BUFFER_SIZE pf).
  change (CONFIG_FPGA_CS_GPIO (shift_responses pf tr0))
    with (CONFIG_FPGA_CS_GPIO pf).
  change (pdMS_TO_TICKS (shift_responses pf tr0)) with (pdMS_TO_TICKS pf).
  apply same_run_bind; [auto with same_run|intros _].
  apply same_run_bind; [same_run_seq|intros zeros].
  apply same_run_bind; [apply same_run_write_update_block|intros _].
  apply same_run_bind.
  { apply same_run_bind; [auto with same_run|intros now].
    apply same_run_cdone_pin_poll. }
  intros ret.
  apply same_run_bind; [apply same_run_write_update_block|intros _].
  do 3 (apply same_run_bind; [auto with same_run|intros _]).
  apply same_run_cleanup_bus.
Qed.

Lemma same_run_stream_loop (pf : platform) (tr0 : list event) (C : Type)
    (source : firmware_source_t C) (fuel : nat) :
  forall (buffer : list byte) (c : C) (remaining : Z) (ret : esp_err_t),
  same_run tr0 (stream_loop pf source fuel buffer c remaining ret)
    (stream_loop (shift_responses pf tr0) source fuel buffer c remaining ret).
Proof.
  induction fuel as [|fuel IH]; intros buffer c remaining ret;
    [intros s; reflexivity|].
  cbn [stream_loop].
  change (LOADER_BUFFER_SIZE (shift_responses pf tr0))
    with (LOADER_BUFFER_SIZE pf).
  destruct (remaining >? 0); [|apply same_run_ret].
  destruct (read source buffer _ c) as [[n buffer'] c'].
  apply same_run_bind; [auto with same_run|intros _].
  destruct (negb (n =? _)); [auto with same_run|].
  apply same_run_bind; [apply same_run_write_update_block|intros ret'].
  destruct (negb (ret' =? ESP_OK)); [auto with same_run|apply IH].
Qed.

(** A session after the calls [tr0] is a session from scratch on the
    platform with the responses shifted. *)
Lemma same_run_fpga_loader_load (pf : platform) (tr0 : list event) (C : Type)
    (source : firmware_source_t C) (fuel : nat) :
  same_run tr0 (fpga_loader_load pf source fuel)
    (fpga_loader_load (shift_responses pf tr0) source fuel).
Proof.
  unfold fpga_loader_load, update_spi_device_add, spi_bus_add_device,
    spi_device_acquire_bus, reset_pin_set, gpio_set_level, gpio_matrix_out,
    vTaskDelay, heap_caps_malloc.
  change (LOADER_BUFFER_SIZE (shift_responses pf tr0))
    with (LOADER_BUFFER_SIZE pf).
  cbn [shift_responses spi_bus_add_device_res spi_bus_add_device_handle
       spi_device_acquire_bus_res CONFIG_FPGA_CS_GPIO CONFIG_FPGA_CRESET_GPIO
       pdMS_TO_TICKS heap_caps_malloc_res].
  apply same_run_bind.
  { apply same_run_bind; [auto with same_run|intros _].
    apply same_run_bind; [|auto with same_run].
    destruct (_ =? ESP_OK); auto with same_run. }
  intros ret. destruct (negb (ret =? ESP_OK)); [auto with same_run|].
  apply same_run_bind; [auto with same_run|intros h].
  apply same_run_bind; [same_run_seq|intros ret1].
  destruct (negb (ret1 =? ESP_OK)); [apply same_run_cleanup_device|].
  do 7 (apply same_run_bind; [auto with same_run|intros _]).
  apply same_run_bind; [apply same_run_write_update_block|intros ret2].
  destruct (negb (ret2 =? ESP_OK)); [apply same_run_cleanup_bus|].
  apply same_run_bind; [auto with same_run|intros _].
  apply same_run_bind.
  { destruct (heap_caps_malloc_res pf); same_run_seq. }
  intros [buffer|]; [|apply same_run_cleanup_bus].
  apply same_run_bind; [apply same_run_stream_loop|].
  intros [[r b] c]. apply same_run_steps_8_to_10.
Qed.

(** [fpga_loader_load] entered with [fpga_update_device = NULL] after the
    calls [tr0]. *)
Lemma fpga_loader_load_later (pf : platform) (tr0 : list event) (C : Type)
    (source : firmware_source_t C) (fuel : nat) :
  fpga_loader_load pf source fuel
    {| trace := tr0; fpga_update_device := None |} =
  match fpga_loader_load (shift_responses pf tr0) source fuel initial_state with
  | Some (ret, st) => Some (ret, resume tr0 st)
  | None => None
  end.
Proof. exact (same_run_fpga_loader_load pf tr0 C source fuel initial_state). Qed.

(** The file entry point on a file that is found and opened: a session on
    the source of that file, between [fopen] and [fclose]. *)
Lemma fpga_loader_load_from_file_eq (pf : platform) (fuel : nat)
    (filename : string) (st_size : Z) (fp : FILE) :
  stat_res pf filename = Some st_size ->
  fopen_res pf filename = Some fp ->
  fpga_loader_load_from_file pf fuel filename initial_state =
  match fpga_loader_load
          (shift_responses pf [EvFopen filename true; EvStat filename true])
          {| size := to_size_t st_size; ctx := fp; read := file_read |}
          fuel initial_state with
  | Some (ret, st) =>
      Some (ret,
            push [EvFclose]
              (resume [EvFopen filename true; EvStat filename true] st))
  | None => None
  end.
Proof.
  intros Hstat Hopen. unfold fpga_loader_load_from_file.
  rewrite Hstat, Hopen.
  unfold mbind at 1. cbn [emit]. unfold mbind at 1. cbn [emit].
  unfold mbind at 1. cbn [initial_state trace fpga_update_device].
  rewrite fpga_loader_load_later.
  destruct (fpga_loader_load _ _ fuel initial_state) as [[ret st]|];
    reflexivity.
Qed.

(** ** Claim C1 *)

(** Whatever the streaming loop did, a session that reaches it returns
    the result of [cdone_pin_wait]: the [ESP_FAIL] of a short read and the
    error of a failed chunk transmission are lost. *)
Lemma load_returns_wait_result (pf : platform) (C : Type)
    (source : firmware_source_t C) (fuel : nat) (ret : esp_err_t) (st : state) :
  reaches_streaming pf ->
  fpga_loader_load pf source fuel initial_state = Some (ret, st) ->
  ret = ESP_OK \/ ret = ESP_ERR_TIMEOUT.
Proof.
  intros Hreach Hload.
  destruct (completed_session pf C source fuel ret st Hreach Hload)
    as [_ [wait [_ [_ [_ [_ [_ [Hout _]]]]]]]].
  destruct Hout as [[Hr _]|[Hr _]]; [left|right]; exact Hr.
Qed.

(** C1 (the code at the failing input). The file is reported as 100 bytes
    long and gives 80: with a buffer of 64 bytes the second read asks for
    36 bytes and gets 16.  The short chunk is not transmitted, but the
    loader goes on to Step 8: it transmits the 104 and 56 padding clocks,
    and the [ESP_FAIL] of the loop is replaced by the result of
    [cdone_pin_wait]: [ESP_OK] when CDONE is high, [ESP_ERR_TIMEOUT]
    when it stays low, never [ESP_FAIL]. *)
Theorem short_read_result_is_overwritten :
  (exists st pre post,
     fpga_loader_load_from_file
       (board 16 always_ok cdone_high truncated_file) 100 "/spiffs/top.bin"
       initial_state = Some (ESP_OK, st) /\
     history st = pre ++ EvSourceRead 36 16 :: post /\
     transmit_bits pre = [8; 512] /\
     transmit_bits post = [104; 56]) /\
  (exists st pre post,
     fpga_loader_load_from_file
       (board 16 always_ok cdone_low truncated_file) 100 "/spiffs/top.bin"
       initial_state = Some (ESP_ERR_TIMEOUT, st) /\
     history st = pre ++ EvSourceRead 36 16 :: post /\
     transmit_bits pre = [8; 512] /\
     transmit_bits post = [104; 56]) /\
  ESP_OK <> ESP_FAIL /\ ESP_ERR_TIMEOUT <> ESP_FAIL.
Proof.
  split; [|split; [|split; discriminate]].
  - eexists.
    exists (firstn 20 (history (snd (match fpga_loader_load_from_file
       (board 16 always_ok cdone_high truncated_file) 100 "/spiffs/top.bin"
       initial_state with Some x => x | None => (0, initial_state) end)))).
    eexists.
    split; [vm_compute; reflexivity|].
    split; [vm_compute; reflexivity|].
    split; vm_compute; reflexivity.
  - eexists.
    exists (firstn 20 (history (snd (match fpga_loader_load_from_file
       (board 16 always_ok cdone_low truncated_file) 100 "/spiffs/top.bin"
       initial_state with Some x => x | None => (0, initial_state) end)))).
    eexists.
    split; [vm_compute; reflexivity|].
    split; [vm_compute; reflexivity|].
    split; vm_compute; reflexivity.
Qed.

(** ** Claim C2 *)

Lemma cdone_pin_poll_gives_up (pf : platform) (timeout : Z) :
  forall (n fuel : nat) (s : state),
  (n < fuel)%nat ->
  (forall j, (j <= n)%nat ->
     gpio_get_level_res pf (count_ev is_gpio_get (trace s) + j) <> 1) ->
  (forall j, (j < n)%nat ->
     xTaskGetTickCount_res pf (count_ev is_tick_read (trace s) + j)
     <= timeout) ->
  xTaskGetTickCount_res pf (count_ev is_tick_read (trace s) + n) > timeout ->
  cdone_pin_poll pf fuel true timeout s
  = Some (ESP_ERR_TIMEOUT,
          push (rev (timed_out_turns pf (count_ev is_gpio_get (trace s))
                       (count_ev is_tick_read (trace s)) n)) s).
Proof.
  induction n as [|n IH]; intros fuel s Hfuel Hlow Hwait Hlate;
    (destruct fuel as [|fuel]; [lia|]);
    rewrite cdone_pin_poll_step; cbv zeta; cbn [level_of];
    pose proof (Hlow O ltac:(lia)) as Hl0; rewrite Nat.add_0_r in Hl0;
    apply Z.eqb_neq in Hl0; rewrite Hl0.
  - rewrite Nat.add_0_r in Hlate.
    apply Z.gt_lt, Z.gtb_lt in Hlate. rewrite Hlate. reflexivity.
  - pose proof (Hwait O ltac:(lia)) as Hw0. rewrite Nat.add_0_r in Hw0.
    destruct (_ >? timeout) eqn:Hgt; [zbool; lia|].
    rewrite IH; cbn [push trace app count_ev is_gpio_get is_tick_read].
    + cbn [timed_out_turns]. rewrite rev_app_distr.
      unfold push. cbn [trace fpga_update_device rev app].
      rewrite <- app_assoc. reflexivity.
    + lia.
    + intros j Hj. rewrite Nat.add_succ_comm. apply Hlow. lia.
    + intros j Hj. rewrite Nat.add_succ_comm. apply Hwait. lia.
    + rewrite Nat.add_succ_comm. exact Hlate.
Qed.

(** C2 (amended). In a session that reaches the streaming loop on a
    platform whose [LOADER_BUFFER_SIZE] is at least 7 bytes, when the
    CDONE pin is not at level 1 in any of the samples taken before the
    tick count passes the deadline, [fpga_loader_load] returns
    [ESP_ERR_TIMEOUT]; the wait is the tick read that fixes the deadline
    and the samples and tick reads up to the one past the deadline, and
    right after it come the 7 zero bytes (56 clock edges) of the
    Activation padding of Step 9, the hand-off of Step 10 (chip-select
    back to the SPI peripheral, buffer freed), the release of the bus and
    the removal of the device; nothing is held when it returns. *)
Theorem completion_timeout_still_hands_off (pf : platform) (C : Type)
    (source : firmware_source_t C) (n : nat) :
  reaches_streaming pf ->
  7 <= LOADER_BUFFER_SIZE pf ->
  LOADER_BUFFER_SIZE pf < 2 ^ 32 ->
  cdone_times_out pf n ->
  exists fuel st streamed r13 r7,
    fpga_loader_load pf source fuel initial_state = Some (ESP_ERR_TIMEOUT, st) /\
    history st =
      steps_1_to_6 pf ++ [EvHeapCapsMalloc (LOADER_BUFFER_SIZE pf) true]
      ++ streamed
      ++ [EvGpioSetLevel (CONFIG_FPGA_CS_GPIO pf) 1;
          EvMemset (LOADER_BUFFER_SIZE pf)]
      ++ padding_steps pf 13 r13
      ++ timed_out_wait pf n
      ++ block_steps (session_handle pf) 7 r7
      ++ hand_off_steps pf
      ++ cleanup_bus_steps (session_handle pf) /\
    Forall (fun e => is_stream_ev e = true) streamed /\
    transmit_bits (block_steps (session_handle pf) 7 r7) = [56] /\
    resources_after (history st) = no_resources /\
    fpga_update_device st = None.
Proof.
  intros Hreach Hfit Hmax [Hlow [Hwait Hlate]].
  set (fuel := S (Z.to_nat (size source) + n)).
  destruct (reaches_streaming_load pf C source fuel Hreach)
    as [buffer [Hmem Heq]].
  assert (Hpos : 0 < to_size_t (LOADER_BUFFER_SIZE pf)).
  { rewrite to_size_t_small; lia. }
  destruct (stream_loop_terminates pf C source Hpos fuel buffer (ctx source)
              (size source) (spi_device_transmit_res pf 0) (streaming_start pf))
    as [[[r b] c] [s8 Hloop]]; [unfold fuel; lia|].
  pose proof (stream_loop_inv pf C source _ _ _ _ _ _ _ _ Hloop)
    as [Hdev8 [evs [Htr8 Hevs]]].
  change (fpga_update_device (streaming_start pf)) with (session_handle pf)
    in Hdev8.
  destruct (before_wait_quiet pf b evs s8 Htr8 Hevs) as [Hg Ht].
  pose proof (cdone_pin_poll_gives_up pf
              (to_size_t (xTaskGetTickCount_res pf 0 + pdMS_TO_TICKS pf 100))
              n fuel
              (push [EvTaskGetTickCount (xTaskGetTickCount_res pf 0)]
                    (before_wait pf b s8))) as Hpoll.
  cbn [push trace app count_ev is_gpio_get is_tick_read] in Hpoll.
  rewrite Hg, Ht in Hpoll.
  specialize (Hpoll ltac:(unfold fuel; lia) Hlow Hwait Hlate).
  match type of Hpoll with _ = Some (_, ?s) => set (sw := s) in * end.
  assert (Hload : fpga_loader_load pf source fuel initial_state
                  = Some (ESP_ERR_TIMEOUT, after_wait pf b sw)).
  { rewrite Heq, Hloop, load_steps_8_to_10_eq, cdone_pin_wait_eq.
    cbv zeta. rewrite Ht. unfold push in Hpoll |- *.
    cbn [trace fpga_update_device app] in Hpoll |- *.
    rewrite Hpoll. reflexivity. }
  destruct (after_wait_history pf b s8 sw (xTaskGetTickCount_res pf 0)
              (rev (timed_out_turns pf 0 1 n)) Hdev8 Hdev8 eq_refl)
    as [r13 [r7 Hh]].
  exists fuel, (after_wait pf b sw), (rev evs), r13, r7.
  split; [exact Hload|].
  split.
  { rewrite Hh. unfold history at 1. rewrite Htr8.
    unfold streaming_start, state_of, padding_steps, timed_out_wait.
    cbn [trace].
    destruct (7 >? LOADER_BUFFER_SIZE pf) eqn:H7; [zbool; lia|].
    rewrite rev_app_distr, !rev_involutive, <- !app_assoc.
    reflexivity. }
  split; [apply Forall_rev; exact Hevs|].
  split; [reflexivity|].
  destruct Hreach as [Hadd [Hacq _]].
  destruct (load_releases pf C source fuel _ _ Hadd Hacq Hload)
    as [_ [Hres _]].
  split; [exact Hres|reflexivity].
Qed.

(** CDONE stays low and the deadline, 10 ticks after the first tick read,
    passes at the eleventh check. *)
Lemma completion_timeout_witness :
  reaches_streaming (board 16 always_ok cdone_low no_files) /\
  cdone_times_out (board 16 always_ok cdone_low no_files) 10 /\
  exists fuel st streamed r13 r7,
    fpga_loader_load (board 16 always_ok cdone_low no_files)
      (rom_source byte_at 4096 100) fuel initial_state
    = Some (ESP_ERR_TIMEOUT, st) /\
    history st =
      steps_1_to_6 (board 16 always_ok cdone_low no_files)
      ++ [EvHeapCapsMalloc 64 true]
      ++ streamed
      ++ [EvGpioSetLevel 5 1; EvMemset 64]
      ++ padding_steps (board 16 always_ok cdone_low no_files) 13 r13
      ++ timed_out_wait (board 16 always_ok cdone_low no_files) 10
      ++ block_steps (Some 1) 7 r7
      ++ hand_off_steps (board 16 always_ok cdone_low no_files)
      ++ cleanup_bus_steps (Some 1) /\
    Forall (fun e => is_stream_ev e = true) streamed /\
    transmit_bits (block_steps (Some 1) 7 r7) = [56] /\
    resources_after (history st) = no_resources /\
    fpga_update_device st = None.
Proof.
  assert (Hreach : reaches_streaming (board 16 always_ok cdone_low no_files)).
  { unfold reaches_streaming. cbn.
    repeat split; try reflexivity; try lia; discriminate. }
  assert (Hout : cdone_times_out (board 16 always_ok cdone_low no_files) 10).
  { unfold cdone_times_out. change (to_size_t _) with 10. cbn.
    repeat split; intros; try discriminate; lia. }
  split; [exact Hreach|]. split; [exact Hout|].
  apply (completion_timeout_still_hands_off
           (board 16 always_ok cdone_low no_files) _
           (rom_source byte_at 4096 100) 10 Hreach);
    [vm_compute; discriminate|vm_compute; reflexivity|exact Hout].
Defined.

(** With a buffer of 4 bytes the 7 bytes of Activation padding do not pass
    the size check of [write_update_block]: the session reaches the
    streaming loop, CDONE stays low and the wait times out, and the
    hand-off follows the last tick read with no transmission in between;
    the only transmissions of the session are the dummy byte and the
    three chunks of the 10-byte bitstream. *)
Lemma small_buffer_skips_activation_padding :
  reaches_streaming (board 1 always_ok cdone_low no_files) /\
  LOADER_BUFFER_SIZE (board 1 always_ok cdone_low no_files) < 2 ^ 32 /\
  cdone_times_out (board 1 always_ok cdone_low no_files) 10 /\
  exists st pre,
    fpga_loader_load (board 1 always_ok cdone_low no_files)
      (rom_source byte_at 4096 10) 100 initial_state
    = Some (ESP_ERR_TIMEOUT, st) /\
    history st =
      pre ++ timed_out_wait (board 1 always_ok cdone_low no_files) 10
      ++ hand_off_steps (board 1 always_ok cdone_low no_files)
      ++ cleanup_bus_steps (Some 1) /\
    transmit_bits (history st) = [8; 32; 32; 16] /\
    Forall (fun bits => bits <> 56) (transmit_bits (history st)).
Proof.
  split.
  { unfold reaches_streaming. cbn.
    repeat split; try reflexivity; try lia; discriminate. }
  split; [vm_compute; reflexivity|].
  split.
  { unfold cdone_times_out. change (to_size_t _) with 10. cbn.
    repeat split; intros; try discriminate; lia. }
  eexists _, (firstn _ (history (snd (match fpga_loader_load
       (board 1 always_ok cdone_low no_files) (rom_source byte_at 4096 10)
       100 initial_state with Some x => x | None => (0, initial_state) end)))).
  split; [vm_compute; reflexivity|].
  split; [instantiate (1 := 28%nat); vm_compute; reflexivity|].
  split; [vm_compute; reflexivity|].
  vm_compute. repeat constructor; discriminate.
Qed.

(** ** Claim C3 *)

(** C3. For a source of [L] bytes that hands out every chunk in full and a
    bus on which every transmission succeeds, with a chunk size [C] of
    [LOADER_BUFFER_SIZE] bytes ([0 < C], and [8 * C] an [int]), the
    streaming loop ends and makes exactly [ceil_div L C] transmissions;
    each carries between 1 and [C] bytes (its length field is 8 times
    that), and the byte counts add up to [L]. *)
Theorem streaming_chunks (pf : platform) (C : Type)
    (source : firmware_source_t C) (inv : C -> Z -> Prop)
    (buffer : list byte) (ret : esp_err_t) (s : state) :
  0 < LOADER_BUFFER_SIZE pf ->
  8 * LOADER_BUFFER_SIZE pf <= INT_MAX ->
  0 <= size source < 2 ^ 32 ->
  reads_in_full source inv ->
  (forall k, spi_device_transmit_res pf k = ESP_OK) ->
  exists fuel out s' evs chunks,
    stream_loop pf source fuel buffer (ctx source) (size source) ret s
    = Some (out, s') /\
    history s' = history s ++ evs /\
    transmit_bits evs = map (Z.mul 8) chunks /\
    List.length chunks
    = Z.to_nat (ceil_div (size source) (LOADER_BUFFER_SIZE pf)) /\
    Forall (fun n => 0 < n <= LOADER_BUFFER_SIZE pf) chunks /\
    Zsum chunks = size source.
Proof.
  intros Hpos Hmax Hsize [Hinv Hread] Htx.
  destruct (stream_loop_chunks pf C source inv Hpos Hmax Hread Htx
              (S (Z.to_nat (size source))) buffer (ctx source) (size source)
              ret s Hinv Hsize ltac:(lia))
    as [out [s' [evs [chunks [Hrun [Htr [Hbits [Hlen [Hall Hsum]]]]]]]]].
  exists (S (Z.to_nat (size source))), out, s', (rev evs), (rev chunks).
  split; [exact Hrun|].
  split; [unfold history; rewrite Htr; apply rev_app_distr|].
  split; [rewrite transmit_bits_rev, Hbits, map_rev; reflexivity|].
  split; [rewrite length_rev; exact Hlen|].
  split; [apply Forall_rev; exact Hall|].
  rewrite Zsum_rev. exact Hsum.
Qed.

(** 100 bytes through a buffer of 64. *)
Lemma streaming_chunks_witness :
  exists fuel out s' evs chunks,
    stream_loop (board 16 always_ok cdone_high no_files)
      (rom_source byte_at 4096 100) fuel (repeat xff 64)
      (ctx (rom_source byte_at 4096 100)) 100 ESP_OK
      (streaming_start (board 16 always_ok cdone_high no_files))
    = Some (out, s') /\
    history s'
    = history (streaming_start (board 16 always_ok cdone_high no_files))
      ++ evs /\
    transmit_bits evs = map (Z.mul 8) chunks /\
    List.length chunks = Z.to_nat (ceil_div 100 64) /\
    Forall (fun n => 0 < n <= 64) chunks /\
    Zsum chunks = 100.
Proof.
  apply (streaming_chunks (board 16 always_ok cdone_high no_files) _
           (rom_source byte_at 4096 100)
           (fun c remaining =>
              rom_size c = 100 /\ 0 <= rom_pos c /\ rom_pos c + remaining = 100)
           (repeat xff 64) ESP_OK
           (streaming_start (board 16 always_ok cdone_high no_files))).
  - vm_compute. reflexivity.
  - vm_compute. discriminate.
  - cbn. lia.
  - apply rom_reads_in_full. lia.
  - intros k. reflexivity.
Defined.

(** ** Claim C4 *)

(** C4 (amended). For a request of [n] bytes on the memory-range source,
    with the cursor inside the range and [pos + n] within [size_t]:
    when [n] is at most what is left, [rom_read] reports [n], copies the
    [n] bytes at the cursor to the start of the buffer and advances the
    cursor by [n]; when fewer than [n] bytes are left it reports 0 and
    leaves the buffer and the cursor as they are. *)
Theorem rom_read_all_or_nothing (mem : Z -> byte) (buffer : list byte)
    (n : Z) (rom : rom_ctx_t) :
  0 <= n ->
  0 <= rom_pos rom <= rom_size rom ->
  rom_pos rom + n < 2 ^ 32 ->
  (n <= rom_size rom - rom_pos rom ->
   rom_read mem buffer n rom =
   (n,
    memcpy buffer (mem_bytes mem (rom_data rom + rom_pos rom) n),
    {| rom_data := rom_data rom; rom_size := rom_size rom;
       rom_pos := rom_pos rom + n |})) /\
  (rom_size rom - rom_pos rom < n ->
   rom_read mem buffer n rom = (0, buffer, rom)).
Proof.
  intros Hn Hpos Hfit. unfold rom_read.
  rewrite to_size_t_small by lia.
  split; intros H.
  - destruct (_ >? _) eqn:Hc; [zbool; lia|reflexivity].
  - destruct (_ >? _) eqn:Hc; [reflexivity|zbool; lia].
Qed.

(** A request of 60 bytes with 40 left: nothing is read, where the
    smaller of the two is 40. *)
Lemma rom_read_short_request_gives_nothing :
  rom_read byte_at (repeat xff 64) 60
    {| rom_data := 4096; rom_size := 100; rom_pos := 60 |}
  = (0, repeat xff 64, {| rom_data := 4096; rom_size := 100; rom_pos := 60 |})
  /\ rom_read_claimed 60 {| rom_data := 4096; rom_size := 100; rom_pos := 60 |}
     = 40
  /\ fst (fst (rom_read byte_at (repeat xff 64) 60
                 {| rom_data := 4096; rom_size := 100; rom_pos := 60 |}))
     <> rom_read_claimed 60
          {| rom_data := 4096; rom_size := 100; rom_pos := 60 |}.
Proof.
  split; [vm_compute; reflexivity|].
  split; [vm_compute; reflexivity|].
  vm_compute. discriminate.
Qed.

(** A request of 40 bytes with 40 left. *)
Lemma rom_read_all_or_nothing_witness :
  rom_read byte_at (repeat xff 64) 40
    {| rom_data := 4096; rom_size := 100; rom_pos := 60 |}
  = (40,
     memcpy (repeat xff 64) (mem_bytes byte_at (4096 + 60) 40),
     {| rom_data := 4096; rom_size := 100; rom_pos := 60 + 40 |}).
Proof.
  apply (proj1 (rom_read_all_or_nothing byte_at (repeat xff 64) 40
                  {| rom_data := 4096; rom_size := 100; rom_pos := 60 |}
                  ltac:(lia) ltac:(cbn; lia) ltac:(cbn; lia))).
  cbn. lia.
Defined.

(** ** Claim C5 *)

(** C5. On every exit of [fpga_loader_load] after the device was added and
    the bus was acquired, also after the early exits of Step 6 and of the
    allocation and after a [break] of the streaming loop, the last two
    calls are the release of the bus and the removal of the device, the
    device variable is [NULL], and nothing is held: a buffer that was
    allocated has been freed, the device is removed, the bus is
    released. *)
Theorem cleanup_on_every_exit (pf : platform) (C : Type)
    (source : firmware_source_t C) (fuel : nat) (ret : esp_err_t) (st : state) :
  spi_bus_add_device_res pf = ESP_OK ->
  spi_device_acquire_bus_res pf = ESP_OK ->
  fpga_loader_load pf source fuel initial_state = Some (ret, st) ->
  (exists pre, history st = pre ++ cleanup_bus_steps (session_handle pf)) /\
  resources_after (history st) = no_resources /\
  fpga_update_device st = None.
Proof. exact (load_releases pf C source fuel ret st). Qed.

(** The dummy byte of Step 6 fails: the early exit through
    [cleanup_bus]. *)
Lemma cleanup_on_every_exit_witness :
  exists ret st,
    fpga_loader_load (board 16 (fun _ => ESP_FAIL) cdone_high no_files)
      (rom_source byte_at 4096 100) 100 initial_state = Some (ret, st) /\
    (exists pre, history st = pre ++ cleanup_bus_steps (Some 1)) /\
    resources_after (history st) = no_resources /\
    fpga_update_device st = None.
Proof.
  eexists _, _. split; [vm_compute; reflexivity|].
  eapply (cleanup_on_every_exit
            (board 16 (fun _ => ESP_FAIL) cdone_high no_files) _
            (rom_source byte_at 4096 100) 100);
    [reflexivity|reflexivity|vm_compute; reflexivity].
Defined.

(** ** Claim C6 *)

(** C6. Whenever [fpga_loader_load] returns [ESP_OK], the CDONE pin was
    read at level 1 and the calls that follow that sample are exactly the
    Activation padding of Step 9, the hand-off of Step 10 and the cleanup:
    the asserted sample comes before the Activation transmission. *)
Theorem success_after_cdone_sample (pf : platform) (C : Type)
    (source : firmware_source_t C) (fuel : nat) (st : state) :
  fpga_loader_load pf source fuel initial_state = Some (ESP_OK, st) ->
  exists pre r7,
    history st =
      pre ++ [EvGpioGetLevel (CONFIG_FPGA_CDONE_GPIO pf) 1]
      ++ padding_steps pf 7 r7
      ++ hand_off_steps pf
      ++ cleanup_bus_steps (session_handle pf).
Proof.
  intros Hload.
  pose proof (load_ok_reaches_streaming pf C source fuel st Hload) as Hreach.
  destruct (completed_session pf C source fuel ESP_OK st Hreach Hload)
    as [streamed [wait [r13 [r7 [Hh [_ [_ [Hout _]]]]]]]].
  destruct Hout as [[_ [wait' Hw]]|[Habs _]]; [|discriminate].
  subst wait.
  exists (steps_1_to_6 pf ++ [EvHeapCapsMalloc (LOADER_BUFFER_SIZE pf) true]
          ++ streamed
          ++ [EvGpioSetLevel (CONFIG_FPGA_CS_GPIO pf) 1;
              EvMemset (LOADER_BUFFER_SIZE pf)]
          ++ padding_steps pf 13 r13 ++ wait'), r7.
  rewrite Hh. rewrite <- !app_assoc. cbn [app]. reflexivity.
Qed.

(** CDONE goes high at the fourth sample. *)
Lemma success_after_cdone_sample_witness :
  exists st,
    fpga_loader_load (board 16 always_ok cdone_after_three no_files)
      (rom_source byte_at 4096 100) 100 initial_state = Some (ESP_OK, st) /\
    exists pre r7,
      history st =
        pre ++ [EvGpioGetLevel 6 1]
        ++ padding_steps (board 16 always_ok cdone_after_three no_files) 7 r7
        ++ hand_off_steps (board 16 always_ok cdone_after_three no_files)
        ++ cleanup_bus_steps (Some 1).
Proof.
  eexists. split; [vm_compute; reflexivity|].
  apply (success_after_cdone_sample
           (board 16 always_ok cdone_after_three no_files) _
           (rom_source byte_at 4096 100) 100).
  vm_compute. reflexivity.
Defined.

(** ** Claim C7 *)

(** C7 (amended). In every session that reaches Step 8 on a platform whose
    [LOADER_BUFFER_SIZE] is at least 13 bytes, the loader raises
    chip-select, zeroes the buffer and transmits 13 zero bytes (104 clock
    edges) before the first sample of CDONE, and after the wait, whatever
    its outcome, it transmits 7 zero bytes (56 clock edges) before the
    hand-off. *)
Theorem padding_around_the_wait (pf : platform) (C : Type)
    (source : firmware_source_t C) (fuel : nat) (ret : esp_err_t) (st : state) :
  reaches_streaming pf ->
  13 <= LOADER_BUFFER_SIZE pf ->
  fpga_loader_load pf source fuel initial_state = Some (ret, st) ->
  exists pre wait r13 r7,
    history st =
      pre
      ++ [EvGpioSetLevel (CONFIG_FPGA_CS_GPIO pf) 1;
          EvMemset (LOADER_BUFFER_SIZE pf)]
      ++ block_steps (session_handle pf) 13 r13
      ++ wait
      ++ block_steps (session_handle pf) 7 r7
      ++ hand_off_steps pf
      ++ cleanup_bus_steps (session_handle pf) /\
    Forall (fun e => is_gpio_get e = false) pre /\
    Forall (fun e => is_poll_ev e = true) wait /\
    wait_outcome pf ret wait /\
    transmit_bits (block_steps (session_handle pf) 13 r13) = [104] /\
    transmit_bits (block_steps (session_handle pf) 7 r7) = [56].
Proof.
  intros Hreach Hfit Hload.
  destruct (completed_session pf C source fuel ret st Hreach Hload)
    as [streamed [wait [r13 [r7 [Hh [Hs [Hw [Hout _]]]]]]]].
  exists (steps_1_to_6 pf ++ [EvHeapCapsMalloc (LOADER_BUFFER_SIZE pf) true]
          ++ streamed), wait, r13, r7.
  unfold padding_steps in Hh.
  destruct (13 >? LOADER_BUFFER_SIZE pf) eqn:H13; [zbool; lia|].
  destruct (7 >? LOADER_BUFFER_SIZE pf) eqn:H7; [zbool; lia|].
  split; [rewrite Hh; rewrite <- !app_assoc; reflexivity|].
  split.
  { apply Forall_app. split; [repeat constructor|].
    apply Forall_app. split; [repeat constructor|].
    revert Hs. apply Forall_impl. intros e He.
    destruct e; try reflexivity; discriminate. }
  split; [exact Hw|]. split; [exact Hout|]. split; reflexivity.
Qed.

(** With a buffer of 12 bytes the 13 bytes of Completion padding do not
    pass the size check of [write_update_block]: the session reaches
    Step 8 and polls CDONE, and no transmission of the whole session has
    100 clock edges. *)
Lemma small_buffer_skips_completion_padding :
  reaches_streaming (board 3 always_ok cdone_after_three no_files) /\
  exists ret st,
    fpga_loader_load_from_rom (board 3 always_ok cdone_after_three no_files)
      100 (Some image) initial_state = Some (ret, st) /\
    In (EvMemset 12) (history st) /\
    In (EvGpioGetLevel 6 1) (history st) /\
    transmit_bits (history st) = [8; 96; 96; 96; 96; 96; 96; 96; 96; 32; 56] /\
    Forall (fun bits => bits < 100) (transmit_bits (history st)).
Proof.
  split.
  { unfold reaches_streaming. cbn.
    repeat split; try reflexivity; try lia; discriminate. }
  eexists _, _. split; [vm_compute; reflexivity|].
  split; [vm_compute; tauto|]. split; [vm_compute; tauto|].
  split; [vm_compute; reflexivity|].
  vm_compute. repeat constructor.
Qed.

Lemma padding_around_the_wait_witness :
  exists ret st pre wait r13 r7,
    fpga_loader_load (board 16 always_ok cdone_after_three no_files)
      (rom_source byte_at 4096 100) 100 initial_state = Some (ret, st) /\
    history st =
      pre ++ [EvGpioSetLevel 5 1; EvMemset 64]
      ++ block_steps (Some 1) 13 r13
      ++ wait
      ++ block_steps (Some 1) 7 r7
      ++ hand_off_steps (board 16 always_ok cdone_after_three no_files)
      ++ cleanup_bus_steps (Some 1) /\
    Forall (fun e => is_gpio_get e = false) pre /\
    Forall (fun e => is_poll_ev e = true) wait /\
    wait_outcome (board 16 always_ok cdone_after_three no_files) ret wait /\
    transmit_bits (block_steps (Some 1) 13 r13) = [104] /\
    transmit_bits (block_steps (Some 1) 7 r7) = [56].
Proof.
  eexists _, _.
  assert (Hload :
    fpga_loader_load (board 16 always_ok cdone_after_three no_files)
      (rom_source byte_at 4096 100) 100 initial_state
    = Some (ESP_OK,
            snd (match fpga_loader_load
                         (board 16 always_ok cdone_after_three no_files)
                         (rom_source byte_at 4096 100) 100 initial_state with
                 | Some x => x
                 | None => (0, initial_state)
                 end)))
    by (vm_compute; reflexivity).
  destruct (padding_around_the_wait
              (board 16 always_ok cdone_after_three no_files) _
              (rom_source byte_at 4096 100) 100 _ _
              ltac:(unfold reaches_streaming; cbn;
                    repeat split; try reflexivity; try lia; discriminate)
              ltac:(vm_compute; discriminate)
              Hload)
    as [pre [wait [r13 [r7 H]]]].
  exists pre, wait, r13, r7. split; [exact Hload|exact H].
Defined.

(** ** Claim C8 *)

(** C8 (amended). For every memory-range descriptor that is null or whose
    end is not after its start, [fpga_loader_load_from_rom] returns
    [ESP_ERR_INVALID_ARG] and makes no call at all: the state is the one
    it was called in. *)
Theorem invalid_rom_descriptor_rejected (pf : platform) (fuel : nat)
    (fpga_bin : option fpga_bin_t) (s : state) :
  (fpga_bin = None \/
   exists bin, fpga_bin = Some bin /\ bin_end bin <= bin_start bin) ->
  fpga_loader_load_from_rom pf fuel fpga_bin s = Some (ESP_ERR_INVALID_ARG, s).
Proof.
  intros [Hnull|[bin [Hsome Hempty]]]; subst fpga_bin;
    unfold fpga_loader_load_from_rom; [reflexivity|].
  apply Z.leb_le in Hempty. rewrite Hempty. reflexivity.
Qed.

(** A descriptor of zero length. *)
Lemma invalid_rom_descriptor_rejected_witness :
  fpga_loader_load_from_rom (board 16 always_ok cdone_high no_files) 100
    (Some {| bin_start := 4096; bin_end := 4096 |}) initial_state
  = Some (ESP_ERR_INVALID_ARG, initial_state).
Proof.
  apply (invalid_rom_descriptor_rejected
           (board 16 always_ok cdone_high no_files) 100
           (Some {| bin_start := 4096; bin_end := 4096 |}) initial_state).
  right. eexists. split; [reflexivity|]. cbn. lia.
Defined.

(** An existing file of zero bytes is not rejected: the file entry point
    runs the whole sequence on it, reset pulse, dummy byte and padding
    included, and reports the timeout of the wait. *)
Lemma empty_file_is_loaded :
  exists st,
    fpga_loader_load_from_file (board 16 always_ok cdone_low empty_file) 100
      "/spiffs/top.bin" initial_state = Some (ESP_ERR_TIMEOUT, st) /\
    ESP_ERR_TIMEOUT <> ESP_ERR_INVALID_ARG /\
    In (EvGpioSetLevel 4 0) (history st) /\
    In (EvGpioSetLevel 4 1) (history st) /\
    transmit_bits (history st) = [8; 104; 56].
Proof.
  eexists. split; [vm_compute; reflexivity|].
  split; [discriminate|].
  split; [vm_compute; tauto|]. split; [vm_compute; tauto|].
  vm_compute. reflexivity.
Qed.

(** ** Claim C10 *)

Lemma transmits_before_memset_app (a b : list event) (n : Z) :
  Forall (fun e => is_memset e = false) a ->
  transmits_before_memset (a ++ EvMemset n :: b) = count_ev is_transmit a.
Proof.
  induction 1 as [|e a He _ IH]; [reflexivity|].
  cbn [app transmits_before_memset count_ev]. rewrite IH.
  destruct e; try reflexivity; discriminate.
Qed.

Lemma count_ev_rev (p : event -> bool) (l : list event) :
  count_ev p (rev l) = count_ev p l.
Proof.
  induction l as [|e l IH]; [reflexivity|].
  cbn [rev count_ev]. rewrite count_ev_app, IH. cbn [count_ev].
  destruct (p e); lia.
Qed.

(** The streaming loop asks for the outcomes of its own transmissions
    only. *)
Lemma stream_loop_agrees (pf : platform) (C : Type)
    (source : firmware_source_t C) (tx' : nat -> esp_err_t) :
  forall (fuel : nat) (buffer : list byte) (c : C) (remaining : Z)
         (ret : esp_err_t) (s s' : state) out,
  stream_loop pf source fuel buffer c remaining ret s = Some (out, s') ->
  (forall k, (k < count_ev is_transmit (trace s'))%nat ->
     tx' k = spi_device_transmit_res pf k) ->
  stream_loop (with_transmit_res pf tx') source fuel buffer c remaining ret s
  = Some (out, s').
Proof.
  induction fuel as [|fuel IH]; intros buffer c remaining ret s s' out H Hagree;
    [discriminate|].
  rewrite stream_loop_step in H |- *.
  change (chunk_of (with_transmit_res pf tx') remaining)
    with (chunk_of pf remaining).
  change (LOADER_BUFFER_SIZE (with_transmit_res pf tx'))
    with (LOADER_BUFFER_SIZE pf).
  destruct (remaining >? 0); [|exact H].
  cbv zeta in H |- *.
  destruct (read source buffer _ c) as [[n buffer'] c'].
  destruct (negb (n =? _)); [exact H|].
  destruct (to_int _ >? _); [exact H|].
  set (tr := EvSourceRead (chunk_of pf remaining) n :: trace s) in *.
  assert (Hlt : (count_ev is_transmit tr < count_ev is_transmit (trace s'))%nat).
  { destruct (negb (transmit_res_at pf tr =? ESP_OK)).
    - injection H as _ Hs. subst s'. unfold tr.
      cbn [push trace block_trace app count_ev is_transmit]. lia.
    - apply stream_loop_inv in H. destruct H as [_ [evs [Htr _]]].
      rewrite Htr, count_ev_app. unfold tr.
      cbn [push trace block_trace app count_ev is_transmit]. lia. }
  assert (Htx : transmit_res_at (with_transmit_res pf tx') tr
                = transmit_res_at pf tr).
  { unfold transmit_res_at. cbn [with_transmit_res spi_device_transmit_res].
    apply Hagree. exact Hlt. }
  unfold block_trace. rewrite Htx.
  fold (block_trace pf (fpga_update_device s) buffer'
          (to_int (chunk_of pf remaining)) tr).
  destruct (negb (transmit_res_at pf tr =? ESP_OK)); [exact H|].
  apply IH; assumption.
Qed.

(** The poll loop looks at the pin and at the clock only. *)
Lemma cdone_pin_poll_ignores_transmit (pf : platform) (tx' : nat -> esp_err_t)
    (value : bool) (timeout : Z) :
  forall (fuel : nat) (s1 s2 s1' : state) (r : esp_err_t),
  count_ev is_gpio_get (trace s1) = count_ev is_gpio_get (trace s2) ->
  count_ev is_tick_read (trace s1) = count_ev is_tick_read (trace s2) ->
  cdone_pin_poll pf fuel value timeout s1 = Some (r, s1') ->
  exists s2',
    cdone_pin_poll (with_transmit_res pf tx') fuel value timeout s2
    = Some (r, s2').
Proof.
  induction fuel as [|fuel IH]; intros s1 s2 s1' r Hg Ht H; [discriminate|].
  rewrite cdone_pin_poll_step in H |- *. cbv zeta in H |- *.
  cbn [with_transmit_res gpio_get_level_res xTaskGetTickCount_res
       CONFIG_FPGA_CDONE_GPIO].
  rewrite <- Hg, <- Ht.
  destruct (_ =? level_of value); [injection H as Hr _; subst; eauto|].
  destruct (_ >? timeout); [injection H as Hr _; subst; eauto|].
  eapply IH; [| |exact H];
    cbn [push trace app count_ev is_gpio_get is_tick_read]; congruence.
Qed.

Lemma write_trace_quiet (pf : platform) (h : spi_device_handle_t)
    (buffer : list byte) (n : Z) (tr : list event) (p : event -> bool) :
  (forall e, is_poll_ev e = false -> p e = false) ->
  count_ev p (write_trace pf h buffer n tr) = O.
Proof.
  intros Hp. unfold write_trace. destruct (n >? _); [reflexivity|].
  cbn [block_trace count_ev]. rewrite !Hp by reflexivity. reflexivity.
Qed.

Lemma before_wait_count (pf : platform) (buffer : list byte) (s : state)
    (p : event -> bool) :
  (forall e, is_poll_ev e = false -> p e = false) ->
  count_ev p (trace (before_wait pf buffer s)) = count_ev p (trace s).
Proof.
  intros Hp. unfold before_wait. cbn [trace].
  rewrite count_ev_app, write_trace_quiet by exact Hp.
  cbn [count_ev Nat.add]. rewrite !Hp by reflexivity. reflexivity.
Qed.

(** Steps 8 to 10 give the same value whatever the transmissions give. *)
Lemma load_steps_8_to_10_ignores_transmit (pf : platform)
    (tx' : nat -> esp_err_t) (fuel : nat) (buffer : list byte)
    (ret0 : esp_err_t) (s st : state) (ret : esp_err_t) :
  load_steps_8_to_10 pf fuel buffer ret0 s = Some (ret, st) ->
  exists st',
    load_steps_8_to_10 (with_transmit_res pf tx') fuel buffer ret0 s
    = Some (ret, st').
Proof.
  intros H. rewrite load_steps_8_to_10_eq in H |- *.
  rewrite cdone_pin_wait_eq in H |- *. cbv zeta in H |- *.
  destruct (cdone_pin_poll pf fuel true _ _) as [[r sw]|] eqn:Hpoll;
    [|discriminate].
  injection H as Hr _. subst r.
  assert (Hp : forall p, (forall e, is_poll_ev e = false -> p e = false) ->
      count_ev p (trace (before_wait pf buffer s))
      = count_ev p (trace (before_wait (with_transmit_res pf tx') buffer s))).
  { intros p Hp. rewrite !before_wait_count by exact Hp. reflexivity. }
  assert (Hg := Hp is_gpio_get
                  ltac:(intros e; destruct e; intros; try reflexivity;
                        discriminate)).
  assert (Ht := Hp is_tick_read
                  ltac:(intros e; destruct e; intros; try reflexivity;
                        discriminate)).
  cbn [with_transmit_res xTaskGetTickCount_res pdMS_TO_TICKS].
  rewrite <- Ht.
  edestruct (cdone_pin_poll_ignores_transmit pf tx' true) as [sw' Hpoll'];
    [| |exact Hpoll|].
  3:{ rewrite Hpoll'. eauto. }
  - cbn [push trace app count_ev is_gpio_get]. exact Hg.
  - cbn [push trace app count_ev is_tick_read]. f_equal. exact Ht.
Qed.

(** Where Step 8 starts in the history of a session. *)
Lemma load_steps_8_to_10_history (pf : platform) (fuel : nat)
    (buffer : list byte) (ret0 : esp_err_t) (s st : state) (ret : esp_err_t) :
  load_steps_8_to_10 pf fuel buffer ret0 s = Some (ret, st) ->
  exists post,
    history st =
      (history s ++ [EvGpioSetLevel (CONFIG_FPGA_CS_GPIO pf) 1])
      ++ EvMemset (LOADER_BUFFER_SIZE pf) :: post.
Proof.
  intros H. rewrite load_steps_8_to_10_eq, cdone_pin_wait_eq in H.
  cbv zeta in H.
  destruct (cdone_pin_poll pf fuel true _ _) as [[r sw]|] eqn:Hpoll;
    [|discriminate].
  injection H as _ Hst. subst st.
  apply cdone_pin_poll_inv in Hpoll. destruct Hpoll as [_ [pevs [Htr _]]].
  cbn [push before_wait trace app] in Htr.
  unfold history, after_wait. cbn [trace]. rewrite Htr.
  repeat first [rewrite rev_app_distr | progress cbn [rev app]].
  eexists. rewrite <- !app_assoc. cbn [app]. reflexivity.
Qed.

Lemma streaming_start_no_memset (pf : platform) :
  Forall (fun e => is_memset e = false) (trace (streaming_start pf)).
Proof.
  unfold streaming_start, state_of. cbn [trace]. apply Forall_rev.
  repeat constructor.
Qed.

Lemma streaming_start_transmits (pf : platform) :
  count_ev is_transmit (trace (streaming_start pf)) = 1%nat.
Proof. reflexivity. Qed.

(** C10. The value [fpga_loader_load] returns does not depend on the
    outcomes of the two padding transmissions: on a platform whose transmit
    outcomes agree with those of [pf] for every transmission made before
    the buffer is zeroed (the dummy byte and the chunks), and are anything
    at all for the Completion and Activation padding, [fpga_loader_load]
    returns the same value. *)
Theorem padding_results_discarded (pf : platform) (C : Type)
    (source : firmware_source_t C) (fuel : nat) (ret : esp_err_t) (st : state)
    (tx' : nat -> esp_err_t) :
  fpga_loader_load pf source fuel initial_state = Some (ret, st) ->
  (forall k, (k < transmits_before_memset (history st))%nat ->
     tx' k = spi_device_transmit_res pf k) ->
  exists st',
    fpga_loader_load (with_transmit_res pf tx') source fuel initial_state
    = Some (ret, st').
Proof.
  intros Hload Hagree.
  rewrite fpga_loader_load_eq in Hload |- *.
  change (spi_bus_add_device_res (with_transmit_res pf tx'))
    with (spi_bus_add_device_res pf).
  change (spi_device_acquire_bus_res (with_transmit_res pf tx'))
    with (spi_device_acquire_bus_res pf).
  change (LOADER_BUFFER_SIZE (with_transmit_res pf tx'))
    with (LOADER_BUFFER_SIZE pf).
  change (heap_caps_malloc_res (with_transmit_res pf tx'))
    with (heap_caps_malloc_res pf).
  change (spi_device_transmit_res (with_transmit_res pf tx') 0) with (tx' O).
  destruct (negb (spi_bus_add_device_res pf =? ESP_OK));
    [injection Hload as Hr _; subst; eauto|].
  destruct (negb (spi_device_acquire_bus_res pf =? ESP_OK));
    [injection Hload as Hr _; subst; eauto|].
  destruct (1 >? LOADER_BUFFER_SIZE pf);
    [injection Hload as Hr _; subst; eauto|].
  assert (Htx0 : tx' O = spi_device_transmit_res pf 0).
  { apply Hagree.
    destruct (negb (spi_device_transmit_res pf 0 =? ESP_OK));
      [|destruct (heap_caps_malloc_res pf) as [buffer|]].
    - injection Hload as _ Hst. subst st. rewrite history_state_of.
      cbn. lia.
    - destruct (stream_loop pf source fuel buffer _ _ _ _)
        as [[[[r b] c] s8]|] eqn:Hloop; [|discriminate].
      destruct (load_steps_8_to_10_history pf fuel b r s8 st ret Hload)
        as [post Hh].
      apply stream_loop_inv in Hloop. destruct Hloop as [_ [evs [Htr Hevs]]].
      rewrite Hh, transmits_before_memset_app.
      + unfold history. rewrite count_ev_app, count_ev_rev, Htr, count_ev_app.
        rewrite streaming_start_transmits. lia.
      + apply Forall_app. split; [|repeat constructor].
        unfold history. apply Forall_rev. rewrite Htr.
        apply Forall_app. split; [|apply streaming_start_no_memset].
        revert Hevs. apply Forall_impl.
        intros e He; destruct e; try reflexivity; discriminate.
    - injection Hload as _ Hst. subst st. rewrite history_state_of.
      cbn. lia. }
  rewrite Htx0.
  destruct (negb (spi_device_transmit_res pf 0 =? ESP_OK));
    [injection Hload as Hr _; subst; eauto|].
  destruct (heap_caps_malloc_res pf) as [buffer|];
    [|injection Hload as Hr _; subst; eauto].
  destruct (stream_loop pf source fuel buffer _ _ _ _)
    as [[[[r b] c] s8]|] eqn:Hloop; [|discriminate].
  assert (Hstart : streaming_start (with_transmit_res pf tx')
                   = streaming_start pf).
  { unfold streaming_start, steps_1_to_6, dummy_steps.
    change (spi_device_transmit_res (with_transmit_res pf tx') 0)
      with (tx' O).
    rewrite Htx0. reflexivity. }
  rewrite Hstart.
  rewrite (stream_loop_agrees pf C source tx' _ _ _ _ _ _ _ _ Hloop).
  - apply load_steps_8_to_10_ignores_transmit with (st := st). exact Hload.
  - intros k Hk. apply Hagree.
    destruct (load_steps_8_to_10_history pf fuel b r s8 st ret Hload)
      as [post Hh].
    pose proof (stream_loop_inv pf C source _ _ _ _ _ _ _ _ Hloop)
      as [_ [evs [Htr Hevs]]].
    rewrite Hh, transmits_before_memset_app.
    + unfold history. rewrite count_ev_app, count_ev_rev.
      cbn [count_ev is_transmit]. lia.
    + apply Forall_app. split; [|repeat constructor].
      unfold history. apply Forall_rev. rewrite Htr.
      apply Forall_app. split; [|apply streaming_start_no_memset].
      revert Hevs. apply Forall_impl.
      intros e He; destruct e; try reflexivity; discriminate.
Qed.

Lemma padding_results_discarded_witness :
  exists st',
    fpga_loader_load
      (with_transmit_res (board 16 always_ok cdone_after_three no_files)
         padding_fails)
      (rom_source byte_at 4096 100) 100 initial_state = Some (ESP_OK, st').
Proof.
  eapply (padding_results_discarded
            (board 16 always_ok cdone_after_three no_files) _
            (rom_source byte_at 4096 100) 100 ESP_OK _ padding_fails).
  - vm_compute. reflexivity.
  - intros k Hk. vm_compute in Hk.
    destruct k as [|[|[|k]]]; [reflexivity|reflexivity|reflexivity|lia].
Defined.

(** * Further properties *)

(** ** The calls of a session *)

Lemma loop_exit_cons (pf : platform) (h : spi_device_handle_t)
    (ret0 : esp_err_t) (ct : Z * spi_transaction_t)
    (rounds : list (Z * spi_transaction_t)) (last : list event)
    (ret : esp_err_t) :
  loop_exit pf h ESP_OK rounds last ret ->
  loop_exit pf h ret0 (ct :: rounds) last ret.
Proof.
  intros H. inversion H; subst.
  - replace (match rounds with [] => ESP_OK | _ :: _ => ESP_OK end)
      with (match ct :: rounds with [] => ret0 | _ :: _ => ESP_OK end)
      by (destruct rounds; reflexivity).
    constructor.
  - constructor. assumption.
  - constructor; assumption.
Qed.

(** The calls of the streaming loop, round by round. *)
Lemma stream_loop_rounds (pf : platform) (C : Type)
    (source : firmware_source_t C) :
  forall (fuel : nat) (buffer : list byte) (c : C) (remaining : Z)
         (ret0 : esp_err_t) (s s' : state) out,
  stream_loop pf source fuel buffer c remaining ret0 s = Some (out, s') ->
  exists rounds last,
    history s' =
      history s ++ flat_map (full_round (fpga_update_device s)) rounds ++ last /\
    Forall (chunk_sent pf) rounds /\
    loop_exit pf (fpga_update_device s) ret0 rounds last (fst (fst out)).
Proof.
  induction fuel as [|fuel IH]; intros buffer c remaining ret0 s s' out H;
    [discriminate|].
  rewrite stream_loop_step in H.
  destruct (remaining >? 0) eqn:Hrem.
  2:{ injection H as Hout Hs. subst out s'.
      exists [], []. cbn [flat_map app fst]. rewrite app_nil_r.
      split; [reflexivity|]. split; constructor. }
  zbool. cbv zeta in H.
  destruct (read source buffer _ c) as [[n buffer'] c'].
  destruct (n =? chunk_of pf remaining) eqn:Hn; cbn [negb] in H.
  2:{ injection H as Hout Hs. subst out s'. zbool.
      exists [], [EvSourceRead (chunk_of pf remaining) n].
      split; [unfold history; cbn [push trace app rev flat_map]; reflexivity|].
      split; [constructor|]. cbn [fst]. constructor. left. exact Hn. }
  zbool. subst n.
  destruct (to_int _ >? LOADER_BUFFER_SIZE pf) eqn:Hfit.
  { injection H as Hout Hs. subst out s'. zbool.
    exists [], [EvSourceRead (chunk_of pf remaining) (chunk_of pf remaining)].
    split; [unfold history; cbn [push trace app rev flat_map]; reflexivity|].
    split; [constructor|]. cbn [fst]. constructor. right. lia. }
  zbool.
  set (t := {| trans_length := to_size_t (to_int (to_int (chunk_of pf remaining) * 8));
               trans_tx_buffer :=
                 firstn (Z.to_nat (to_int (chunk_of pf remaining))) buffer' |}).
  assert (Hsent : chunk_sent pf (chunk_of pf remaining, t)).
  { unfold chunk_sent. cbn [fst snd t trans_length].
    split; [exists remaining; split; [exact Hrem|reflexivity]|].
    split; [exact Hfit|reflexivity]. }
  destruct (transmit_res_at pf _ =? ESP_OK) eqn:Htx; cbn [negb] in H.
  2:{ injection H as Hout Hs. subst out s'. zbool.
      exists [], (round_steps (fpga_update_device s) (chunk_of pf remaining) t
                    (transmit_res_at pf
                       (EvSourceRead (chunk_of pf remaining)
                          (chunk_of pf remaining) :: trace s))).
      split.
      { unfold history, round_steps, block_trace.
        cbn [push trace app rev flat_map].
        rewrite <- !app_assoc. reflexivity. }
      split; [constructor|]. cbn [fst]. constructor; assumption. }
  zbool. rewrite Htx in H.
  apply IH in H. destruct H as [rounds [last [Hh [Hall Hexit]]]].
  cbn [push fpga_update_device] in Hh, Hexit.
  exists ((chunk_of pf remaining, t) :: rounds), last.
  split.
  { rewrite Hh. unfold history, full_round, round_steps, block_trace.
    rewrite Htx. cbn [push trace app rev flat_map fst snd].
    rewrite <- !app_assoc. reflexivity. }
  split; [constructor; assumption|].
  apply loop_exit_cons. exact Hexit.
Qed.

(** Every session that returns is one of the sessions of [session]. *)
Lemma load_session (pf : platform) (C : Type) (source : firmware_source_t C)
    (fuel : nat) (ret : esp_err_t) (st : state) :
  fpga_loader_load pf source fuel initial_state = Some (ret, st) ->
  session pf ret (history st).
Proof.
  intros Hload. rewrite fpga_loader_load_eq in Hload.
  destruct (spi_bus_add_device_res pf =? ESP_OK) eqn:Hadd; cbn [negb] in Hload.
  2:{ injection Hload as Hr Hs. subst ret st. zbool.
      rewrite history_state_of. constructor. exact Hadd. }
  destruct (spi_device_acquire_bus_res pf =? ESP_OK) eqn:Hacq;
    cbn [negb] in Hload.
  2:{ injection Hload as Hr Hs. subst ret st. zbool.
      rewrite history_state_of. constructor; assumption. }
  destruct (1 >? LOADER_BUFFER_SIZE pf) eqn:Hfit.
  { injection Hload as Hr Hs. subst ret st. zbool.
    rewrite history_state_of. constructor; assumption. }
  destruct (spi_device_transmit_res pf 0 =? ESP_OK) eqn:Htx;
    cbn [negb] in Hload.
  2:{ injection Hload as Hr Hs. subst ret st. zbool.
      rewrite history_state_of. constructor; assumption. }
  zbool.
  destruct (heap_caps_malloc_res pf) as [buffer|] eqn:Hmem.
  2:{ injection Hload as Hr Hs. subst ret st.
      rewrite history_state_of. constructor; assumption. }
  assert (Hreach : reaches_streaming pf).
  { unfold reaches_streaming. rewrite Hmem.
    repeat split; try assumption. discriminate. }
  destruct (stream_loop pf source fuel buffer _ _ _ _)
    as [[[[r8 b] c] s8]|] eqn:Hloop; [|discriminate].
  pose proof (stream_loop_inv _ _ _ _ _ _ _ _ _ _ _ Hloop) as [Hdev8 _].
  apply stream_loop_rounds in Hloop.
  destruct Hloop as [rounds [last [Hh8 [Hall Hexit]]]].
  change (fpga_update_device (streaming_start pf)) with (session_handle pf)
    in Hdev8, Hh8, Hexit.
  cbn [fst] in Hexit.
  rewrite load_steps_8_to_10_eq, cdone_pin_wait_eq in Hload. cbv zeta in Hload.
  destruct (cdone_pin_poll pf fuel true _ _) as [[ret' sw]|] eqn:Hpoll;
    [|discriminate].
  injection Hload as Hr Hs. subst ret' st.
  apply cdone_pin_poll_inv in Hpoll.
  destruct Hpoll as [Hdevw [pevs [Htrw [Hpevs Hout]]]].
  cbn [push before_wait trace fpga_update_device app] in Hdevw, Htrw.
  rewrite Hdev8 in *.
  assert (Hhist : exists r13 r7 tick,
    history (after_wait pf b sw) =
      history s8
      ++ [EvGpioSetLevel (CONFIG_FPGA_CS_GPIO pf) 1;
          EvMemset (LOADER_BUFFER_SIZE pf)]
      ++ padding_steps pf 13 r13
      ++ (EvTaskGetTickCount tick :: rev pevs)
      ++ padding_steps pf 7 r7
      ++ hand_off_steps pf
      ++ cleanup_bus_steps (session_handle pf)).
  { do 3 eexists. unfold history, after_wait. cbn [trace].
    rewrite Hdevw, Htrw.
    repeat first [rewrite rev_app_distr | rewrite rev_involutive
                 | progress cbn [rev app]].
    rewrite !write_trace_padding by (unfold INT_MAX; lia).
    rewrite <- !app_assoc. cbn [app]. reflexivity. }
  destruct Hhist as [r13 [r7 [tick Hhist]]].
  rewrite Hhist, Hh8.
  unfold streaming_start. rewrite history_state_of.
  rewrite <- !app_assoc.
  apply (session_complete pf rounds last (EvTaskGetTickCount tick :: rev pevs)
           r8 r13 r7 ret Hreach Hall Hexit).
  - constructor; [reflexivity|]. apply Forall_rev. exact Hpevs.
  - destruct Hout as [[Hr [evs' He]]|[Hr [now [evs' [He _]]]]]; subst pevs.
    + left. split; [exact Hr|]. eexists (_ :: rev evs'). reflexivity.
    + right. split; [exact Hr|]. eexists (_ :: rev evs'), now. reflexivity.
Qed.

(** *** The semaphore *)

Lemma semaphore_quiet (l : list event) :
  Forall (fun e => match e with
                   | EvSemaphoreTake | EvSemaphoreGive
                   | EvSpiDeviceTransmit _ _ _ => False
                   | _ => True
                   end) l ->
  fold_left semaphore_step l (Some SemFree) = Some SemFree.
Proof.
  induction 1 as [|e l He _ IH]; [reflexivity|].
  cbn [fold_left]. destruct e; try contradiction; exact IH.
Qed.

Lemma semaphore_poll (l : list event) :
  Forall (fun e => is_poll_ev e = true) l ->
  fold_left semaphore_step l (Some SemFree) = Some SemFree.
Proof.
  intros H. apply semaphore_quiet. revert H. apply Forall_impl.
  intros e He. destruct e; try discriminate; exact I.
Qed.

Lemma semaphore_padding (pf : platform) (n : Z) (r : esp_err_t) :
  fold_left semaphore_step (padding_steps pf n r) (Some SemFree) = Some SemFree.
Proof. unfold padding_steps. destruct (n >? _); reflexivity. Qed.

Lemma semaphore_rounds (h : spi_device_handle_t)
    (rounds : list (Z * spi_transaction_t)) :
  fold_left semaphore_step (flat_map (full_round h) rounds) (Some SemFree)
  = Some SemFree.
Proof.
  induction rounds as [|ct rounds IH]; [reflexivity|]. exact IH.
Qed.

Lemma semaphore_exit (pf : platform) (h : spi_device_handle_t)
    (ret0 ret : esp_err_t) (rounds : list (Z * spi_transaction_t))
    (last : list event) :
  loop_exit pf h ret0 rounds last ret ->
  fold_left semaphore_step last (Some SemFree) = Some SemFree.
Proof. intros H. destruct H; reflexivity. Qed.

Lemma session_semaphore (pf : platform) (ret : esp_err_t) (h : list event) :
  session pf ret h -> semaphore_after h = Some SemFree.
Proof.
  intros H. unfold semaphore_after. destruct H; try reflexivity.
  rewrite !fold_left_app.
  change (fold_left semaphore_step (steps_1_to_6 pf) (Some SemFree))
    with (Some SemFree).
  cbn [fold_left semaphore_step].
  rewrite semaphore_rounds.
  rewrite (semaphore_exit _ _ _ _ _ _ H1).
  cbn [fold_left semaphore_step].
  rewrite semaphore_padding, (semaphore_poll _ H2), semaphore_padding.
  reflexivity.
Qed.

(** *** Resources *)

Lemma in_order_stream (l : list event) :
  Forall (fun e => is_stream_ev e = true) l ->
  fold_left checked_event l (Some working) = Some working.
Proof.
  induction 1 as [|e l He _ IH]; [reflexivity|].
  cbn [fold_left]. destruct e; try discriminate; exact IH.
Qed.

Lemma in_order_poll (l : list event) :
  Forall (fun e => is_poll_ev e = true) l ->
  fold_left checked_event l (Some working) = Some working.
Proof.
  induction 1 as [|e l He _ IH]; [reflexivity|].
  cbn [fold_left]. destruct e; try discriminate; exact IH.
Qed.

Lemma in_order_padding (pf : platform) (n : Z) (r : esp_err_t) :
  fold_left checked_event (padding_steps pf n r) (Some working) = Some working.
Proof. unfold padding_steps. destruct (n >? _); reflexivity. Qed.

Lemma rounds_stream (h : spi_device_handle_t)
    (rounds : list (Z * spi_transaction_t)) :
  Forall (fun e => is_stream_ev e = true) (flat_map (full_round h) rounds).
Proof.
  induction rounds as [|ct rounds IH]; [constructor|].
  cbn [flat_map]. apply Forall_app. split; [repeat constructor|exact IH].
Qed.

Lemma exit_stream (pf : platform) (h : spi_device_handle_t)
    (ret0 ret : esp_err_t) (rounds : list (Z * spi_transaction_t))
    (last : list event) :
  loop_exit pf h ret0 rounds last ret ->
  Forall (fun e => is_stream_ev e = true) last.
Proof. intros H. destruct H; repeat constructor. Qed.

Lemma session_in_order (pf : platform) (ret : esp_err_t) (h : list event) :
  session pf ret h -> resources_in_order h = Some no_resources.
Proof.
  intros H. unfold resources_in_order.
  destruct H as [Hadd|Hadd Hacq|Hadd Hacq Hfit|Hadd Hacq Hfit Htx
                |Hadd Hacq Hfit Htx Hmem
                |rounds last wait r8 r13 r7 ret Hreach Hall Hexit Hwait Hout].
  - apply Z.eqb_neq in Hadd.
    cbn [fold_left checked_event in_order apply_event no_resources
         device_registered negb]. rewrite Hadd. reflexivity.
  - apply Z.eqb_neq in Hacq. unfold acquire_steps.
    cbn [app fold_left checked_event in_order apply_event no_resources
         device_registered bus_acquired negb andb].
    rewrite Hadd. cbn [Z.eqb ESP_OK in_order device_registered bus_acquired
                       andb negb].
    rewrite Hacq. reflexivity.
  - unfold acquire_steps. rewrite Hadd, Hacq. reflexivity.
  - unfold acquire_steps. rewrite Hadd, Hacq. reflexivity.
  - unfold steps_1_to_6, acquire_steps. rewrite Hadd, Hacq. reflexivity.
  - destruct Hreach as [Hadd [Hacq _]].
    rewrite !fold_left_app.
    assert (H16 : fold_left checked_event (steps_1_to_6 pf) (Some no_resources)
                  = Some {| device_registered := true; bus_acquired := true;
                            buffer_allocated := false |}).
    { unfold steps_1_to_6, acquire_steps. rewrite Hadd, Hacq. reflexivity. }
    rewrite H16.
    change (fold_left checked_event [EvHeapCapsMalloc (LOADER_BUFFER_SIZE pf) true]
              (Some {| device_registered := true; bus_acquired := true;
                       buffer_allocated := false |}))
      with (Some working).
    rewrite (in_order_stream _ (rounds_stream _ rounds)).
    rewrite (in_order_stream _ (exit_stream _ _ _ _ _ _ Hexit)).
    change (fold_left checked_event
              [EvGpioSetLevel (CONFIG_FPGA_CS_GPIO pf) 1;
               EvMemset (LOADER_BUFFER_SIZE pf)] (Some working))
      with (Some working).
    rewrite in_order_padding, (in_order_poll _ Hwait), in_order_padding.
    reflexivity.
Qed.

(** *** Handles *)

Lemma handles_app (a b : list event) :
  handles (a ++ b) = handles a ++ handles b.
Proof. unfold handles. apply flat_map_app. Qed.

Lemma handles_poll (l : list event) :
  Forall (fun e => is_poll_ev e = true) l -> handles l = [].
Proof.
  induction 1 as [|e l He _ IH]; [reflexivity|].
  destruct e; try discriminate; exact IH.
Qed.

Lemma handles_rounds (h : spi_device_handle_t)
    (rounds : list (Z * spi_transaction_t)) :
  Forall (eq h) (handles (flat_map (full_round h) rounds)).
Proof.
  induction rounds as [|ct rounds IH]; [constructor|].
  cbn [flat_map]. rewrite handles_app. apply Forall_app.
  split; [repeat constructor|exact IH].
Qed.

Lemma handles_exit (pf : platform) (h : spi_device_handle_t)
    (ret0 ret : esp_err_t) (rounds : list (Z * spi_transaction_t))
    (last : list event) :
  loop_exit pf h ret0 rounds last ret -> Forall (eq h) (handles last).
Proof. intros H. destruct H; repeat constructor. Qed.

Lemma handles_padding (pf : platform) (n : Z) (r : esp_err_t) :
  Forall (eq (session_handle pf)) (handles (padding_steps pf n r)).
Proof. unfold padding_steps. destruct (n >? _); repeat constructor. Qed.

Lemma session_handles (pf : platform) (ret : esp_err_t) (h : list event) :
  session pf ret h -> Forall (eq (session_handle pf)) (handles h).
Proof.
  intros H. destruct H; try (repeat constructor; fail).
  rewrite !handles_app. repeat (apply Forall_app; split);
    try (repeat constructor; fail).
  - apply handles_rounds.
  - eapply handles_exit; eassumption.
  - apply handles_padding.
  - rewrite handles_poll by assumption. constructor.
  - apply handles_padding.
Qed.

(** *** Transfer sizes *)

Lemma chunk_sent_bits (pf : platform) (ct : Z * spi_transaction_t) :
  1 <= LOADER_BUFFER_SIZE pf ->
  8 * LOADER_BUFFER_SIZE pf <= INT_MAX ->
  chunk_sent pf ct ->
  0 < fst ct <= LOADER_BUFFER_SIZE pf /\ trans_length (snd ct) = 8 * fst ct.
Proof.
  intros Hpos Hmax [[remaining [Hrem Hchunk]] [_ Hlen]].
  assert (Hsz : to_size_t (LOADER_BUFFER_SIZE pf) = LOADER_BUFFER_SIZE pf).
  { apply to_size_t_small. unfold INT_MAX in Hmax. lia. }
  assert (Hb : 0 < fst ct <= LOADER_BUFFER_SIZE pf).
  { rewrite Hchunk. unfold chunk_of. rewrite Hsz.
    destruct (remaining >? _) eqn:Hc; zbool; lia. }
  split; [exact Hb|].
  rewrite Hlen. unfold INT_MAX in Hmax.
  rewrite (to_int_small (fst ct)) by (unfold INT_MAX; lia).
  rewrite to_int_small by (unfold INT_MAX; lia).
  rewrite to_size_t_small by lia. lia.
Qed.

Lemma bits_rounds (pf : platform) (h : spi_device_handle_t)
    (rounds : list (Z * spi_transaction_t)) :
  1 <= LOADER_BUFFER_SIZE pf ->
  8 * LOADER_BUFFER_SIZE pf <= INT_MAX ->
  Forall (chunk_sent pf) rounds ->
  Forall (fun b => 0 < b <= 8 * LOADER_BUFFER_SIZE pf)
    (transmit_bits (flat_map (full_round h) rounds)).
Proof.
  intros Hpos Hmax. induction 1 as [|ct rounds Hct _ IH]; [constructor|].
  cbn [flat_map]. rewrite transmit_bits_app. apply Forall_app.
  split; [|exact IH].
  destruct (chunk_sent_bits pf ct Hpos Hmax Hct) as [Hb Hlen].
  cbn [full_round round_steps transmit_bits flat_map app].
  constructor; [lia|constructor].
Qed.

Lemma bits_exit (pf : platform) (h : spi_device_handle_t)
    (ret0 ret : esp_err_t) (rounds : list (Z * spi_transaction_t))
    (last : list event) :
  1 <= LOADER_BUFFER_SIZE pf ->
  8 * LOADER_BUFFER_SIZE pf <= INT_MAX ->
  loop_exit pf h ret0 rounds last ret ->
  Forall (fun b => 0 < b <= 8 * LOADER_BUFFER_SIZE pf) (transmit_bits last).
Proof.
  intros Hpos Hmax H. destruct H as [|chunk n Hn|chunk t r Hct Hr];
    try constructor.
  - destruct (chunk_sent_bits pf _ Hpos Hmax Hct) as [Hb Hlen].
    cbn [fst snd] in Hb, Hlen. lia.
  - constructor.
Qed.

Lemma bits_padding (pf : platform) (n : Z) (r : esp_err_t) :
  0 < n ->
  Forall (fun b => 0 < b <= 8 * LOADER_BUFFER_SIZE pf)
    (transmit_bits (padding_steps pf n r)).
Proof.
  intros Hn. unfold padding_steps. destruct (n >? _) eqn:Hfit;
    [constructor|]. zbool.
  cbn [block_steps transmit_bits flat_map app trans_length].
  constructor; [lia|constructor].
Qed.

Lemma bits_poll (l : list event) :
  Forall (fun e => is_poll_ev e = true) l -> transmit_bits l = [].
Proof.
  induction 1 as [|e l He _ IH]; [reflexivity|].
  destruct e; try discriminate; exact IH.
Qed.

Lemma session_bits (pf : platform) (ret : esp_err_t) (h : list event) :
  8 * LOADER_BUFFER_SIZE pf <= INT_MAX ->
  session pf ret h ->
  Forall (fun b => 0 < b <= 8 * LOADER_BUFFER_SIZE pf) (transmit_bits h).
Proof.
  intros Hmax H.
  destruct H as [Hadd|Hadd Hacq|Hadd Hacq Hfit|Hadd Hacq Hfit Htx
                |Hadd Hacq Hfit Htx Hmem
                |rounds last wait r8 r13 r7 ret Hreach Hall Hexit Hwait Hout].
  1-5: unfold steps_1_to_6, acquire_steps, reset_steps, dummy_steps,
         cleanup_bus_steps;
       cbn [app transmit_bits flat_map trans_length];
       repeat constructor; lia.
  assert (Hfit' : 1 <= LOADER_BUFFER_SIZE pf) by apply Hreach.
  rewrite !transmit_bits_app.
  repeat (apply Forall_app; split);
    first [ apply bits_rounds; assumption
          | eapply bits_exit; eassumption
          | apply bits_padding; lia
          | rewrite bits_poll by assumption; constructor
          | unfold steps_1_to_6, acquire_steps, reset_steps, dummy_steps,
              hand_off_steps, cleanup_bus_steps;
            cbn [app transmit_bits flat_map trans_length];
            repeat constructor; lia ].
Qed.

(** *** Chip-select *)

Lemma cs_at_transmits_keeps (pf : platform) (sig : gpio_signal) (level : Z)
    (l rest : list event) :
  Forall (fun e => keeps_cs e = true) l ->
  cs_at_transmits pf sig level (l ++ rest)
  = repeat (sig, level) (count_ev is_transmit l)
    ++ cs_at_transmits pf sig level rest.
Proof.
  induction 1 as [|e l He _ IH]; [reflexivity|].
  cbn [app]. destruct e; try discriminate;
    cbn [cs_at_transmits count_ev is_transmit repeat app]; rewrite IH;
    reflexivity.
Qed.

Lemma stream_keeps_cs (l : list event) :
  Forall (fun e => is_stream_ev e = true) l ->
  Forall (fun e => keeps_cs e = true) l.
Proof.
  apply Forall_impl. intros e He. destruct e; try reflexivity; discriminate.
Qed.

Lemma poll_keeps_cs (l : list event) :
  Forall (fun e => is_poll_ev e = true) l ->
  Forall (fun e => keeps_cs e = true) l.
Proof.
  apply Forall_impl. intros e He. destruct e; try reflexivity; discriminate.
Qed.

Lemma padding_keeps_cs (pf : platform) (n : Z) (r : esp_err_t) :
  Forall (fun e => keeps_cs e = true) (padding_steps pf n r).
Proof. unfold padding_steps. destruct (n >? _); repeat constructor. Qed.

Lemma stream_no_memset (l : list event) :
  Forall (fun e => is_stream_ev e = true) l ->
  Forall (fun e => is_memset e = false) l.
Proof.
  apply Forall_impl. intros e He. destruct e; try reflexivity; discriminate.
Qed.

Lemma poll_no_transmit (l : list event) :
  Forall (fun e => is_poll_ev e = true) l ->
  count_ev is_transmit l = O.
Proof.
  intros H. apply count_ev_none. revert H. apply Forall_impl.
  intros e He. destruct e; try reflexivity; discriminate.
Qed.

Lemma session_chip_select (pf : platform) (ret : esp_err_t) (h : list event)
    (sig : gpio_signal) (level : Z) :
  reaches_streaming pf ->
  session pf ret h ->
  cs_at_transmits pf sig level h
  = (SIG_GPIO_OUT_IDX, 1)
    :: repeat (SIG_GPIO_OUT_IDX, 0) (transmits_before_memset h - 1)
    ++ repeat (SIG_GPIO_OUT_IDX, 1)
         (count_ev is_transmit h - transmits_before_memset h).
Proof.
  intros Hreach H.
  destruct H as [Hadd|Hadd Hacq|Hadd Hacq Hfit|Hadd Hacq Hfit Htx
                |Hadd Hacq Hfit Htx Hmem
                |rounds last wait r8 r13 r7 ret _ Hall Hexit Hwait Hout];
    try (destruct Hreach as [Ha [Hb [Hc [Hd He]]]]; congruence || lia).
  pose proof (rounds_stream (session_handle pf) rounds) as HR.
  pose proof (exit_stream _ _ _ _ _ _ Hexit) as HL.
  set (R := flat_map (full_round (session_handle pf)) rounds) in *.
  (* the counts *)
  assert (Htbm :
    transmits_before_memset
      (steps_1_to_6 pf ++ [EvHeapCapsMalloc (LOADER_BUFFER_SIZE pf) true]
       ++ R ++ last
       ++ [EvGpioSetLevel (CONFIG_FPGA_CS_GPIO pf) 1;
           EvMemset (LOADER_BUFFER_SIZE pf)]
       ++ padding_steps pf 13 r13 ++ wait ++ padding_steps pf 7 r7
       ++ hand_off_steps pf ++ cleanup_bus_steps (session_handle pf))
    = S (count_ev is_transmit R + count_ev is_transmit last)).
  { replace (steps_1_to_6 pf ++ [EvHeapCapsMalloc (LOADER_BUFFER_SIZE pf) true]
       ++ R ++ last
       ++ [EvGpioSetLevel (CONFIG_FPGA_CS_GPIO pf) 1;
           EvMemset (LOADER_BUFFER_SIZE pf)]
       ++ padding_steps pf 13 r13 ++ wait ++ padding_steps pf 7 r7
       ++ hand_off_steps pf ++ cleanup_bus_steps (session_handle pf))
      with ((steps_1_to_6 pf ++ [EvHeapCapsMalloc (LOADER_BUFFER_SIZE pf) true]
             ++ R ++ last ++ [EvGpioSetLevel (CONFIG_FPGA_CS_GPIO pf) 1])
            ++ EvMemset (LOADER_BUFFER_SIZE pf)
               :: (padding_steps pf 13 r13 ++ wait ++ padding_steps pf 7 r7
                   ++ hand_off_steps pf
                   ++ cleanup_bus_steps (session_handle pf)))
      by (rewrite <- !app_assoc; reflexivity).
    rewrite transmits_before_memset_app.
    - rewrite !count_ev_app. cbn [count_ev is_transmit steps_1_to_6
        acquire_steps reset_steps dummy_steps app]. lia.
    - repeat (apply Forall_app; split); try (repeat constructor; fail).
      + apply stream_no_memset. exact HR.
      + apply stream_no_memset. exact HL. }
  rewrite Htbm.
  rewrite !count_ev_app.
  rewrite (poll_no_transmit _ Hwait).
  replace (count_ev is_transmit (steps_1_to_6 pf)) with 1%nat by reflexivity.
  cbn [count_ev is_transmit hand_off_steps cleanup_bus_steps].
  replace (S (count_ev is_transmit R + count_ev is_transmit last) - 1)%nat
    with (count_ev is_transmit R + count_ev is_transmit last)%nat by lia.
  replace (1 + (0 + (count_ev is_transmit R + (count_ev is_transmit last
            + (0 + (count_ev is_transmit (padding_steps pf 13 r13)
               + (0 + (count_ev is_transmit (padding_steps pf 7 r7) + (0 + 0))))))))
           - S (count_ev is_transmit R + count_ev is_transmit last))%nat
    with (count_ev is_transmit (padding_steps pf 13 r13)
          + (count_ev is_transmit wait
             + count_ev is_transmit (padding_steps pf 7 r7)))%nat
    by (rewrite (poll_no_transmit _ Hwait); lia).
  (* the levels *)
  unfold steps_1_to_6, acquire_steps, reset_steps, dummy_steps.
  cbn [app cs_at_transmits]. rewrite !Z.eqb_refl.
  f_equal.
  rewrite (cs_at_transmits_keeps pf _ _ R) by (apply stream_keeps_cs; exact HR).
  rewrite (cs_at_transmits_keeps pf _ _ last)
    by (apply stream_keeps_cs; exact HL).
  cbn [app cs_at_transmits]. rewrite !Z.eqb_refl.
  rewrite (cs_at_transmits_keeps pf _ _ (padding_steps pf 13 r13))
    by apply padding_keeps_cs.
  rewrite (cs_at_transmits_keeps pf _ _ wait) by (apply poll_keeps_cs; exact Hwait).
  rewrite (cs_at_transmits_keeps pf _ _ (padding_steps pf 7 r7))
    by apply padding_keeps_cs.
  cbn [hand_off_steps cleanup_bus_steps app cs_at_transmits].
  rewrite app_nil_r, !repeat_app, <- !app_assoc. reflexivity.
Qed.

(** *** Bytes on the bus *)

Lemma transmit_payloads_app (a b : list event) :
  transmit_payloads (a ++ b) = transmit_payloads a ++ transmit_payloads b.
Proof. unfold transmit_payloads. apply flat_map_app. Qed.

Lemma bytes_sent_app (a b : list event) :
  bytes_sent (a ++ b) = bytes_sent a ++ bytes_sent b.
Proof. unfold bytes_sent. rewrite transmit_payloads_app. apply concat_app. Qed.

Lemma bytes_sent_poll (l : list event) :
  Forall (fun e => is_poll_ev e = true) l -> bytes_sent l = [].
Proof.
  induction 1 as [|e l He _ IH]; [reflexivity|].
  destruct e; try discriminate; exact IH.
Qed.

Lemma bytes_sent_padding (pf : platform) (n : Z) (r : esp_err_t) :
  bytes_sent (padding_steps pf n r) = padding_bytes pf n.
Proof.
  unfold padding_steps, padding_bytes. destruct (n >? _); [reflexivity|].
  unfold bytes_sent.
  cbn [block_steps transmit_payloads flat_map app trans_tx_buffer List.concat].
  apply app_nil_r.
Qed.

Lemma firstn_memcpy (buffer src : list byte) :
  firstn (List.length src) (memcpy buffer src) = src.
Proof.
  unfold memcpy. rewrite firstn_app, Nat.sub_diag, firstn_all.
  cbn [firstn]. apply app_nil_r.
Qed.

(** The loop on a source that delivers [bytes]: what it puts on the bus is
    the start of [bytes], all of it unless a transmission failed. *)
Lemma stream_loop_payloads (pf : platform) (C : Type)
    (source : firmware_source_t C) (holds : C -> list byte -> Prop) :
  0 < LOADER_BUFFER_SIZE pf ->
  8 * LOADER_BUFFER_SIZE pf <= INT_MAX ->
  delivers source holds ->
  forall (fuel : nat) (bytes : list byte) (buffer : list byte) (c : C)
         (ret : esp_err_t) (s s' : state) out,
  holds c bytes ->
  Z.of_nat (List.length bytes) < 2 ^ 32 ->
  stream_loop pf source fuel buffer c (Z.of_nat (List.length bytes)) ret s
  = Some (out, s') ->
  exists evs rest,
    history s' = history s ++ evs /\
    bytes_sent evs ++ rest = bytes /\
    (rest = [] \/
     exists k, spi_device_transmit_res pf k <> ESP_OK /\
               fst (fst out) = spi_device_transmit_res pf k).
Proof.
  intros Hpos Hmax Hdel.
  assert (Hsz : to_size_t (LOADER_BUFFER_SIZE pf) = LOADER_BUFFER_SIZE pf).
  { apply to_size_t_small. unfold INT_MAX in Hmax. lia. }
  induction fuel as [|fuel IH];
    intros bytes buffer c ret s s' out Hholds Hlen H; [discriminate|].
  rewrite stream_loop_step in H.
  remember (Z.of_nat (List.length bytes)) as remaining eqn:Hrem.
  destruct (remaining >? 0) eqn:Hgt.
  2:{ zbool. assert (Hnil : bytes = [])
        by (destruct bytes; [reflexivity|cbn in Hrem; lia]).
      injection H as Hout Hs. subst out s' bytes.
      exists [], []. rewrite app_nil_r. repeat split. left. reflexivity. }
  zbool. cbv zeta in H.
  assert (Hchunk : 0 < chunk_of pf remaining <= remaining /\
                   chunk_of pf remaining <= LOADER_BUFFER_SIZE pf).
  { unfold chunk_of. rewrite Hsz.
    destruct (remaining >? _) eqn:Hc; zbool; lia. }
  destruct Hchunk as [Hchunk Hfit].
  destruct (Hdel buffer (chunk_of pf remaining) c bytes Hholds)
    as [c' [Hrd Hholds']]; [lia|].
  rewrite Hrd, Z.eqb_refl in H. cbn [negb] in H.
  assert (Hint : to_int (chunk_of pf remaining) = chunk_of pf remaining).
  { apply to_int_small. unfold INT_MAX in *. lia. }
  rewrite Hint in H.
  destruct (chunk_of pf remaining >? LOADER_BUFFER_SIZE pf) eqn:Hblk;
    [zbool; lia|].
  assert (Hl : List.length (firstn (Z.to_nat (chunk_of pf remaining)) bytes)
               = Z.to_nat (chunk_of pf remaining)).
  { rewrite length_firstn. lia. }
  assert (Hpay : firstn (Z.to_nat (chunk_of pf remaining))
                   (memcpy buffer
                      (firstn (Z.to_nat (chunk_of pf remaining)) bytes))
                 = firstn (Z.to_nat (chunk_of pf remaining)) bytes).
  { rewrite <- Hl at 1. apply firstn_memcpy. }
  destruct (transmit_res_at pf _ =? ESP_OK) eqn:Htx; cbn [negb] in H.
  2:{ injection H as Hout Hs. subst out s'. zbool.
      eexists [EvSourceRead _ _; EvSemaphoreTake; EvSpiDeviceTransmit _ _ _;
               EvSemaphoreGive],
        (skipn (Z.to_nat (chunk_of pf remaining)) bytes).
      split.
      { unfold history, block_trace. cbn [push trace app rev].
        rewrite <- 3 app_assoc. reflexivity. }
      split; [|right; eexists; split; [exact Htx|reflexivity]].
      unfold bytes_sent.
      cbn [app transmit_payloads flat_map trans_tx_buffer List.concat].
      rewrite Hpay, app_nil_r. apply firstn_skipn. }
  assert (Hrest : List.length (skipn (Z.to_nat (chunk_of pf remaining)) bytes)
                  = Z.to_nat (remaining - chunk_of pf remaining)).
  { rewrite length_skipn. lia. }
  assert (Hnext : to_size_t (remaining - chunk_of pf remaining)
                  = Z.of_nat (List.length
                       (skipn (Z.to_nat (chunk_of pf remaining)) bytes))).
  { rewrite Hrest, to_size_t_small by lia. lia. }
  rewrite Hnext in H.
  apply IH in H; [|exact Hholds'|rewrite Hrest; lia].
  destruct H as [evs [rest [Hh [Hcat Hend]]]].
  eexists ([EvSourceRead _ _; EvSemaphoreTake; EvSpiDeviceTransmit _ _ _;
            EvSemaphoreGive] ++ evs), rest.
  split.
  { rewrite Hh. unfold history, block_trace. cbn [push trace app rev].
    rewrite <- 4 app_assoc. reflexivity. }
  split; [|exact Hend].
  rewrite bytes_sent_app, <- app_assoc, Hcat.
  unfold bytes_sent.
  cbn [app transmit_payloads flat_map trans_tx_buffer List.concat].
  rewrite Hpay, app_nil_r. apply firstn_skipn.
Qed.

(** *** The two sources *)

Lemma mem_bytes_length (mem : Z -> byte) (a n : Z) :
  List.length (mem_bytes mem a n) = Z.to_nat n.
Proof. unfold mem_bytes. rewrite length_map, length_seq. reflexivity. Qed.

Lemma map_seq_from (A : Type) (f : nat -> A) (k m : nat) :
  map f (seq k m) = map (fun i => f (k + i)%nat) (seq 0 m).
Proof.
  revert f. induction k as [|k IH]; intros f; [reflexivity|].
  rewrite <- seq_shift, map_map, IH. reflexivity.
Qed.

Lemma mem_bytes_app (mem : Z -> byte) (a n m : Z) :
  0 <= n -> 0 <= m ->
  mem_bytes mem a (n + m) = mem_bytes mem a n ++ mem_bytes mem (a + n) m.
Proof.
  intros Hn Hm. unfold mem_bytes.
  rewrite Z2Nat.inj_add by lia. rewrite seq_app, map_app. f_equal.
  cbn [Nat.add]. rewrite map_seq_from.
  apply map_ext. intros i. f_equal. lia.
Qed.

Lemma mem_bytes_firstn (mem : Z -> byte) (a n m : Z) :
  0 <= n <= m ->
  firstn (Z.to_nat n) (mem_bytes mem a m) = mem_bytes mem a n.
Proof.
  intros H. replace m with (n + (m - n)) by lia.
  rewrite mem_bytes_app by lia.
  rewrite <- (mem_bytes_length mem a n) at 1.
  rewrite firstn_app, Nat.sub_diag, firstn_all. cbn [firstn].
  apply app_nil_r.
Qed.

Lemma mem_bytes_skipn (mem : Z -> byte) (a n m : Z) :
  0 <= n <= m ->
  skipn (Z.to_nat n) (mem_bytes mem a m) = mem_bytes mem (a + n) (m - n).
Proof.
  intros H. replace m with (n + (m - n)) at 1 by lia.
  rewrite mem_bytes_app by lia.
  rewrite <- (mem_bytes_length mem a n) at 1.
  rewrite skipn_app, Nat.sub_diag, skipn_all. reflexivity.
Qed.

Lemma rom_delivers (mem : Z -> byte) (start len : Z) :
  len < 2 ^ 32 ->
  delivers (rom_source mem start len) (rom_holds mem start len).
Proof.
  intros Hlen buffer n c bytes [Hdata [Hsize [Hpos [Hleft Hbytes]]]] Hn.
  cbn [rom_source read]. unfold rom_read.
  rewrite to_size_t_small by lia.
  destruct (_ >? _) eqn:Hc; [zbool; lia|].
  eexists. split.
  - rewrite Hdata. rewrite Hbytes at 1.
    rewrite mem_bytes_firstn by lia. reflexivity.
  - unfold rom_holds. cbn [rom_data rom_size rom_pos].
    rewrite length_skipn.
    repeat split; try assumption; try lia.
    rewrite Hbytes at 1. rewrite mem_bytes_skipn by lia.
    f_equal; lia.
Qed.

Lemma file_delivers (size : Z) (fp : FILE) :
  delivers {| size := size; ctx := fp; read := file_read |}
    (fun fp bytes => exists more, fp = bytes ++ more).
Proof.
  intros buffer n c bytes [more Hc] Hn. subst c.
  cbn [read]. unfold file_read, fread. cbv zeta.
  assert (Hf : firstn (Z.to_nat n) (bytes ++ more)
               = firstn (Z.to_nat n) bytes).
  { rewrite firstn_app.
    replace (Z.to_nat n - List.length bytes)%nat with O by lia.
    cbn [firstn]. apply app_nil_r. }
  rewrite Hf. rewrite length_firstn.
  replace (Z.of_nat (Nat.min (Z.to_nat n) (List.length bytes))) with n by lia.
  eexists. split; [reflexivity|].
  exists more. rewrite skipn_app.
  replace (Z.to_nat n - List.length bytes)%nat with O by lia.
  reflexivity.
Qed.

(** *** Runs of a session *)

(** The wait loop when it ends at the sample [n]: its result and its
    calls. *)
Lemma cdone_pin_poll_run (pf : platform) (timeout : Z) :
  forall (n fuel : nat) (s : state),
  (n < fuel)%nat ->
  (forall j, (j < n)%nat ->
     gpio_get_level_res pf (count_ev is_gpio_get (trace s) + j) <> 1 /\
     xTaskGetTickCount_res pf (count_ev is_tick_read (trace s) + j)
     <= timeout) ->
  (gpio_get_level_res pf (count_ev is_gpio_get (trace s) + n) = 1 \/
   xTaskGetTickCount_res pf (count_ev is_tick_read (trace s) + n) > timeout) ->
  exists pevs,
    cdone_pin_poll pf fuel true timeout s
    = Some ((if gpio_get_level_res pf (count_ev is_gpio_get (trace s) + n) =? 1
             then ESP_OK else ESP_ERR_TIMEOUT), push pevs s) /\
    count_ev is_gpio_get pevs = S n /\
    Forall (fun e => is_poll_ev e = true) pevs.
Proof.
  induction n as [|n IH]; intros fuel s Hfuel Hwait Hend;
    (destruct fuel as [|fuel]; [lia|]);
    rewrite cdone_pin_poll_step; cbv zeta; cbn [level_of].
  - rewrite !Nat.add_0_r in Hend. rewrite !Nat.add_0_r.
    destruct (_ =? 1) eqn:Hl.
    + eexists [_]. split; [reflexivity|].
      split; [reflexivity|repeat constructor].
    + destruct Hend as [Hend|Hend]; [zbool; contradiction|].
      apply Z.gt_lt, Z.gtb_lt in Hend. rewrite Hend.
      eexists [_; _]. split; [reflexivity|].
      split; [reflexivity|repeat constructor].
  - destruct (Hwait O ltac:(lia)) as [Hl0 Hw0].
    rewrite Nat.add_0_r in Hl0, Hw0.
    apply Z.eqb_neq in Hl0. rewrite Hl0.
    destruct (_ >? timeout) eqn:Hgt; [zbool; lia|].
    edestruct (IH fuel
                 (push [EvTaskDelay 1;
                        EvTaskGetTickCount
                          (xTaskGetTickCount_res pf
                             (count_ev is_tick_read (trace s)));
                        EvGpioGetLevel (CONFIG_FPGA_CDONE_GPIO pf)
                          (gpio_get_level_res pf
                             (count_ev is_gpio_get (trace s)))] s))
      as [pevs [Hrun [Hcount Hall]]].
    + lia.
    + intros j Hj. cbn [push trace app count_ev is_gpio_get is_tick_read].
      rewrite !Nat.add_succ_comm. apply Hwait. lia.
    + cbn [push trace app count_ev is_gpio_get is_tick_read].
      rewrite !Nat.add_succ_comm. exact Hend.
    + cbn [push trace app count_ev is_gpio_get is_tick_read] in Hrun.
      rewrite !Nat.add_succ_comm in Hrun.
      rewrite Hrun.
      eexists (pevs ++ [_; _; _]). split.
      * unfold push. cbn [trace fpga_update_device app].
        rewrite <- app_assoc. reflexivity.
      * split.
        -- rewrite count_ev_app, Hcount. cbn [count_ev is_gpio_get]. lia.
        -- apply Forall_app. split; [exact Hall|repeat constructor].
Qed.

(** A session that reaches the streaming loop and whose wait ends at the
    sample [n]: it returns, with what the wait decides, after [n + 1]
    samples. *)
Lemma load_run (pf : platform) (C : Type) (source : firmware_source_t C)
    (n : nat) :
  reaches_streaming pf ->
  LOADER_BUFFER_SIZE pf < 2 ^ 32 ->
  cdone_wait_ends pf n ->
  exists fuel st buffer out s8 wait r13 r7,
    fpga_loader_load pf source fuel initial_state
    = Some ((if gpio_get_level_res pf n =? 1
             then ESP_OK else ESP_ERR_TIMEOUT), st) /\
    heap_caps_malloc_res pf = Some buffer /\
    stream_loop pf source fuel buffer (ctx source) (size source)
      (spi_device_transmit_res pf 0) (streaming_start pf) = Some (out, s8) /\
    history st =
      history s8
      ++ [EvGpioSetLevel (CONFIG_FPGA_CS_GPIO pf) 1;
          EvMemset (LOADER_BUFFER_SIZE pf)]
      ++ padding_steps pf 13 r13
      ++ wait
      ++ padding_steps pf 7 r7
      ++ hand_off_steps pf
      ++ cleanup_bus_steps (session_handle pf) /\
    Forall (fun e => is_poll_ev e = true) wait /\
    count_ev is_gpio_get (history st) = S n.
Proof.
  intros Hreach Hmax [Hwait Hend].
  set (fuel := S (Z.to_nat (size source) + n)).
  destruct (reaches_streaming_load pf C source fuel Hreach)
    as [buffer [Hmem Heq]].
  assert (Hpos : 0 < to_size_t (LOADER_BUFFER_SIZE pf)).
  { destruct Hreach as [_ [_ [H1 _]]]. rewrite to_size_t_small; lia. }
  destruct (stream_loop_terminates pf C source Hpos fuel buffer (ctx source)
              (size source) (spi_device_transmit_res pf 0) (streaming_start pf))
    as [[[r b] c] [s8 Hloop]]; [unfold fuel; lia|].
  pose proof (stream_loop_inv pf C source _ _ _ _ _ _ _ _ Hloop)
    as [Hdev8 [evs [Htr8 Hevs]]].
  change (fpga_update_device (streaming_start pf)) with (session_handle pf)
    in Hdev8.
  destruct (before_wait_quiet pf b evs s8 Htr8 Hevs) as [Hg Ht].
  destruct (cdone_pin_poll_run pf
              (to_size_t (xTaskGetTickCount_res pf 0 + pdMS_TO_TICKS pf 100))
              n fuel
              (push [EvTaskGetTickCount (xTaskGetTickCount_res pf 0)]
                    (before_wait pf b s8)))
    as [pevs [Hpoll [Hcount Hall]]].
  { unfold fuel; lia. }
  { intros j Hj. cbn [push trace app count_ev is_gpio_get is_tick_read].
    rewrite Hg, Ht. apply Hwait. exact Hj. }
  { cbn [push trace app count_ev is_gpio_get is_tick_read].
    rewrite Hg, Ht. exact Hend. }
  cbn [push trace app count_ev is_gpio_get is_tick_read] in Hpoll.
  rewrite Hg in Hpoll. cbn [Nat.add] in Hpoll.
  destruct (after_wait_history pf b s8
              {| trace := pevs ++ EvTaskGetTickCount (xTaskGetTickCount_res pf 0)
                                  :: trace (before_wait pf b s8);
                 fpga_update_device := fpga_update_device (before_wait pf b s8) |}
              (xTaskGetTickCount_res pf 0) pevs Hdev8)
    as [r13 [r7 Hh]]; [exact Hdev8|reflexivity|].
  eexists fuel, _, buffer, (r, b, c), s8,
    (EvTaskGetTickCount (xTaskGetTickCount_res pf 0) :: rev pevs), r13, r7.
  split.
  { rewrite Heq, Hloop, load_steps_8_to_10_eq, cdone_pin_wait_eq.
    cbv zeta. rewrite Ht. unfold push in Hpoll |- *.
    cbn [trace fpga_update_device app] in Hpoll |- *.
    rewrite Hpoll. reflexivity. }
  split; [exact Hmem|]. split; [exact Hloop|]. split; [exact Hh|].
  split.
  - constructor; [reflexivity|]. apply Forall_rev. exact Hall.
  - unfold history, after_wait. cbn [trace].
    rewrite count_ev_rev, !count_ev_app.
    rewrite write_trace_quiet
      by (intros e He; destruct e; try reflexivity; discriminate).
    rewrite ?count_ev_app, Hcount. cbn [count_ev is_gpio_get].
    rewrite Hg. cbn [rev cleanup_bus_steps hand_off_steps app count_ev
                     is_gpio_get]. lia.
Qed.

Lemma first_hit (P : nat -> bool) (N : nat) :
  P N = true ->
  exists n, (n <= N)%nat /\ P n = true /\
            forall j, (j < n)%nat -> P j = false.
Proof.
  intros HN.
  assert (H : forall m,
    (forall j, (j < m)%nat -> P j = false) \/
    exists n, (n < m)%nat /\ P n = true /\
              forall j, (j < n)%nat -> P j = false).
  { induction m as [|m IH]; [left; intros j Hj; lia|].
    destruct IH as [Hnone|[n [Hn [Hp Hbefore]]]].
    - destruct (P m) eqn:Hm.
      + right. exists m. repeat split; [lia|exact Hm|exact Hnone].
      + left. intros j Hj.
        destruct (Nat.eq_dec j m) as [->|Hne]; [exact Hm|apply Hnone; lia].
    - right. exists n. repeat split; [lia|exact Hp|exact Hbefore]. }
  destruct (H (S N)) as [Hnone|[n [Hn [Hp Hbefore]]]].
  - rewrite Hnone in HN by lia. discriminate.
  - exists n. repeat split; [lia|exact Hp|exact Hbefore].
Qed.

Lemma wait_over_ends (pf : platform) (n : nat) :
  wait_over pf n = true ->
  (forall j, (j < n)%nat -> wait_over pf j = false) ->
  cdone_wait_ends pf n.
Proof.
  unfold wait_over, cdone_wait_ends. cbv zeta. intros Hn Hbefore. split.
  - intros j Hj. specialize (Hbefore j Hj).
    apply orb_false_iff in Hbefore. destruct Hbefore as [Hl Ht].
    zbool. split; [exact Hl|lia].
  - apply orb_true_iff in Hn. destruct Hn as [Hl|Ht]; zbool; [left|right]; lia.
Qed.

Lemma clock_advances_by (pf : platform) (n : nat) :
  clock_advances pf n ->
  forall k, (k <= S n)%nat ->
    xTaskGetTickCount_res pf 0 + Z.of_nat k <= xTaskGetTickCount_res pf k.
Proof.
  intros Hclock. induction k as [|k IH]; intros Hk; [lia|].
  specialize (Hclock k ltac:(lia)). specialize (IH ltac:(lia)). lia.
Qed.

Lemma in_rounds_read (h : spi_device_handle_t)
    (rounds : list (Z * spi_transaction_t)) (chunk n : Z) :
  In (EvSourceRead chunk n) (flat_map (full_round h) rounds) -> n = chunk.
Proof.
  intros H. apply in_flat_map in H. destruct H as [ct [_ H]].
  cbn [full_round round_steps In] in H.
  destruct H as [H|[H|[H|[H|[]]]]]; try discriminate.
  injection H as H1 H2. congruence.
Qed.

Lemma in_rounds_transmit (h h' : spi_device_handle_t)
    (rounds : list (Z * spi_transaction_t)) (t : spi_transaction_t)
    (r : esp_err_t) :
  In (EvSpiDeviceTransmit h' t r) (flat_map (full_round h) rounds) ->
  r = ESP_OK.
Proof.
  intros H. apply in_flat_map in H. destruct H as [ct [_ H]].
  cbn [full_round round_steps In] in H.
  destruct H as [H|[H|[H|[H|[]]]]]; try discriminate.
  injection H as _ _ H. symmetry. exact H.
Qed.

Lemma stream_loop_breaks (pf : platform) (C : Type)
    (source : firmware_source_t C) (fuel : nat) (buffer : list byte) (c : C)
    (remaining : Z) (ret0 : esp_err_t) (s s' : state) out :
  stream_loop pf source fuel buffer c remaining ret0 s = Some (out, s') ->
  exists evs,
    history s' = history s ++ evs /\
    (forall chunk n,
       In (EvSourceRead chunk n) evs -> n <> chunk ->
       fst (fst out) = ESP_FAIL /\
       exists pre, evs = pre ++ [EvSourceRead chunk n]) /\
    (forall h t r,
       In (EvSpiDeviceTransmit h t r) evs -> r <> ESP_OK ->
       fst (fst out) = r /\
       exists pre, evs = pre ++ [EvSpiDeviceTransmit h t r; EvSemaphoreGive]).
Proof.
  intros H. apply stream_loop_rounds in H.
  destruct H as [rounds [last [Hh [_ Hexit]]]].
  eexists. split; [exact Hh|]. split.
  - intros chunk n Hin Hn. apply in_app_or in Hin.
    destruct Hin as [Hin|Hin]; [apply in_rounds_read in Hin; contradiction|].
    destruct Hexit as [|chunk' n' Hn'|chunk' t r Hct Hr].
    + destruct Hin.
    + destruct Hin as [Hin|[]]. injection Hin as -> ->.
      split; [reflexivity|]. eexists. reflexivity.
    + cbn [round_steps In] in Hin.
      destruct Hin as [Hin|[Hin|[Hin|[Hin|[]]]]]; try discriminate.
      injection Hin as H1 H2. congruence.
  - intros h t r Hin Hr. apply in_app_or in Hin.
    destruct Hin as [Hin|Hin]; [apply in_rounds_transmit in Hin; contradiction|].
    destruct Hexit as [|chunk' n' Hn'|chunk' t' r' Hct Hr'].
    + destruct Hin.
    + destruct Hin as [Hin|[]]. discriminate.
    + cbn [round_steps In] in Hin.
      destruct Hin as [Hin|[Hin|[Hin|[Hin|[]]]]]; try discriminate.
      injection Hin as -> -> ->.
      split; [reflexivity|].
      eexists (flat_map (full_round _) rounds
               ++ [EvSourceRead chunk' chunk'; EvSemaphoreTake]).
      unfold round_steps. rewrite <- app_assoc. reflexivity.
Qed.

(** A session on a source that delivers [bytes] over a bus that transmits:
    what goes over the bus. *)
Lemma load_sends_image (pf : platform) (C : Type)
    (source : firmware_source_t C) (holds : C -> list byte -> Prop)
    (bytes : list byte) (n : nat) :
  reaches_streaming pf ->
  8 * LOADER_BUFFER_SIZE pf <= INT_MAX ->
  (forall k, spi_device_transmit_res pf k = ESP_OK) ->
  delivers source holds ->
  holds (ctx source) bytes ->
  size source = Z.of_nat (List.length bytes) ->
  size source < 2 ^ 32 ->
  cdone_wait_ends pf n ->
  exists fuel st,
    fpga_loader_load pf source fuel initial_state
    = Some ((if gpio_get_level_res pf n =? 1
             then ESP_OK else ESP_ERR_TIMEOUT), st) /\
    bytes_sent (history st)
    = [x00] ++ bytes ++ padding_bytes pf 13 ++ padding_bytes pf 7.
Proof.
  intros Hreach Hmax Htx Hdel Hholds Hsize Hlen Hends.
  assert (Hfit : 1 <= LOADER_BUFFER_SIZE pf) by apply Hreach.
  destruct (load_run pf C source n Hreach) as
    [fuel [st [buffer [out [s8 [wait [r13 [r7
       [Hload [_ [Hloop [Hh [Hwait _]]]]]]]]]]]]];
    [unfold INT_MAX in Hmax; lia|exact Hends|].
  exists fuel, st. split; [exact Hload|].
  rewrite Hsize in Hloop.
  eapply stream_loop_payloads in Hloop;
    [|lia|exact Hmax|exact Hdel|exact Hholds|lia].
  destruct Hloop as [evs [rest [Hh8 [Hcat Hend]]]].
  destruct Hend as [->|[k [Hk _]]]; [|rewrite Htx in Hk; contradiction].
  rewrite app_nil_r in Hcat.
  rewrite Hh, Hh8. unfold streaming_start. rewrite history_state_of.
  rewrite !bytes_sent_app, Hcat, !bytes_sent_padding.
  rewrite (bytes_sent_poll _ Hwait).
  change (bytes_sent (steps_1_to_6 pf)) with [x00].
  change (bytes_sent [EvHeapCapsMalloc (LOADER_BUFFER_SIZE pf) true])
    with (@nil byte).
  change (bytes_sent [EvGpioSetLevel (CONFIG_FPGA_CS_GPIO pf) 1;
                      EvMemset (LOADER_BUFFER_SIZE pf)]) with (@nil byte).
  change (bytes_sent (hand_off_steps pf)) with (@nil byte).
  change (bytes_sent (cleanup_bus_steps (session_handle pf)))
    with (@nil byte).
  cbn [app]. rewrite !app_nil_r. reflexivity.
Qed.

(** *** Files *)

Lemma file_step_neutral (l : list event) (q : option nat) :
  Forall (fun e => is_file_ev e = false) l ->
  fold_left file_step l q = q.
Proof.
  intros H. revert q. induction H as [|e l He _ IH]; intros q; [reflexivity|].
  cbn [fold_left]. rewrite IH.
  destruct q as [k|]; [|reflexivity].
  destruct e; try reflexivity; discriminate.
Qed.

Lemma session_no_file_ev (pf : platform) (ret : esp_err_t) (h : list event) :
  session pf ret h -> Forall (fun e => is_file_ev e = false) h.
Proof.
  intros H. destruct H; try (repeat constructor; fail).
  repeat (apply Forall_app; split); try (repeat constructor; fail).
  - eapply Forall_impl; [|apply rounds_stream].
    intros e He. destruct e; try reflexivity; discriminate.
  - eapply Forall_impl; [|eapply exit_stream; eassumption].
    intros e He. destruct e; try reflexivity; discriminate.
  - unfold padding_steps. destruct (13 >? _); repeat constructor.
  - eapply Forall_impl; [|eassumption].
    intros e He. destruct e; try reflexivity; discriminate.
  - unfold padding_steps. destruct (7 >? _); repeat constructor.
Qed.

Lemma checked_event_file (l : list event) (q : option resources) :
  Forall (fun e => is_file_ev e = true) l ->
  fold_left checked_event l q = q.
Proof.
  intros H. revert q. induction H as [|e l He _ IH]; intros q; [reflexivity|].
  cbn [fold_left]. rewrite IH.
  destruct q as [r|]; [|reflexivity].
  destruct e; try discriminate; reflexivity.
Qed.

(** The file entry point, path by path. *)
Lemma load_from_file_paths (pf : platform) (fuel : nat) (filename : string)
    (ret : esp_err_t) (st : state) :
  fpga_loader_load_from_file pf fuel filename initial_state = Some (ret, st) ->
  fpga_update_device st = None /\
  ((stat_res pf filename = None /\ ret = ESP_ERR_NOT_FOUND /\
    history st = [EvStat filename false]) \/
   (stat_res pf filename <> None /\ fopen_res pf filename = None /\
    ret = ESP_FAIL /\
    history st = [EvStat filename true; EvFopen filename false]) \/
   (exists h,
      session (shift_responses pf [EvFopen filename true; EvStat filename true])
        ret h /\
      history st =
        [EvStat filename true; EvFopen filename true] ++ h ++ [EvFclose])).
Proof.
  intros H.
  destruct (stat_res pf filename) as [st_size|] eqn:Hstat.
  2:{ unfold fpga_loader_load_from_file in H. rewrite Hstat in H.
      injection H as Hr Hs. subst ret st.
      split; [reflexivity|]. left. repeat split. }
  destruct (fopen_res pf filename) as [fp|] eqn:Hopen.
  2:{ unfold fpga_loader_load_from_file in H.
      rewrite Hstat, Hopen in H.
      injection H as Hr Hs. subst ret st.
      split; [reflexivity|]. right. left. repeat split. discriminate. }
  rewrite (fpga_loader_load_from_file_eq pf fuel filename st_size fp Hstat Hopen)
    in H.
  destruct (fpga_loader_load _ _ fuel initial_state) as [[r s]|] eqn:Hload;
    [|discriminate].
  injection H as Hr Hs. subst ret st.
  split.
  { cbn [push resume fpga_update_device].
    exact (load_leaves_device_null _ _ _ _ _ _ Hload). }
  right. right.
  exists (history s). split; [exact (load_session _ _ _ _ _ _ Hload)|].
  unfold history, push, resume. cbn [trace].
  repeat first [rewrite rev_app_distr | progress cbn [rev app]].
  reflexivity.
Qed.

(** ** The bitstream on the bus *)

(** X1. On a source that delivers the bytes [bytes] and with
    [8 * LOADER_BUFFER_SIZE] within [int], the streaming loop ends and what
    it handed to [spi_device_transmit], chunk after chunk, is the start of
    [bytes] with nothing left out, repeated or reordered; it is all of
    [bytes] unless a transmission failed, and then the loop leaves the
    error of that transmission in [ret]. *)
Theorem stream_sends_source_in_order (pf : platform) (C : Type)
    (source : firmware_source_t C) (holds : C -> list byte -> Prop)
    (bytes : list byte) (buffer : list byte) (ret : esp_err_t) (s : state) :
  0 < LOADER_BUFFER_SIZE pf ->
  8 * LOADER_BUFFER_SIZE pf <= INT_MAX ->
  delivers source holds ->
  holds (ctx source) bytes ->
  size source = Z.of_nat (List.length bytes) ->
  size source < 2 ^ 32 ->
  exists fuel out s' evs rest,
    stream_loop pf source fuel buffer (ctx source) (size source) ret s
    = Some (out, s') /\
    history s' = history s ++ evs /\
    bytes_sent evs ++ rest = bytes /\
    (rest = [] \/
     exists k, spi_device_transmit_res pf k <> ESP_OK /\
               fst (fst out) = spi_device_transmit_res pf k).
Proof.
  intros Hpos Hmax Hdel Hholds Hsize Hlen.
  assert (Hsz : 0 < to_size_t (LOADER_BUFFER_SIZE pf)).
  { rewrite to_size_t_small; unfold INT_MAX in Hmax; lia. }
  destruct (stream_loop_terminates pf C source Hsz
              (S (Z.to_nat (size source))) buffer (ctx source) (size source)
              ret s) as [out [s' Hloop]]; [lia|].
  exists (S (Z.to_nat (size source))), out, s'.
  pose proof Hloop as Hrun. rewrite Hsize in Hrun.
  eapply stream_loop_payloads in Hrun;
    [|exact Hpos|exact Hmax|exact Hdel|exact Hholds|lia].
  destruct Hrun as [evs [rest H]]. exists evs, rest.
  split; [exact Hloop|exact H].
Qed.

(** The 100 bytes at address 4096 through a buffer of 64 bytes, the second
    chunk failing: the two chunks went to the bus and nothing is left. *)
Lemma stream_sends_source_in_order_witness :
  exists fuel out s' evs rest,
    stream_loop (board 16 second_chunk_fails cdone_high no_files)
      (rom_source byte_at 4096 100) fuel (repeat xff 64)
      (ctx (rom_source byte_at 4096 100)) 100 ESP_OK
      (streaming_start (board 16 second_chunk_fails cdone_high no_files))
    = Some (out, s') /\
    history s'
    = history (streaming_start (board 16 second_chunk_fails cdone_high no_files))
      ++ evs /\
    bytes_sent evs ++ rest = mem_bytes byte_at 4096 100 /\
    (rest = [] \/
     exists k, second_chunk_fails k <> ESP_OK /\
               fst (fst out) = second_chunk_fails k).
Proof.
  apply (stream_sends_source_in_order
           (board 16 second_chunk_fails cdone_high no_files) _
           (rom_source byte_at 4096 100) (rom_holds byte_at 4096 100)
           (mem_bytes byte_at 4096 100) (repeat xff 64) ESP_OK
           (streaming_start (board 16 second_chunk_fails cdone_high no_files))).
  - vm_compute. reflexivity.
  - vm_compute. discriminate.
  - apply rom_delivers. lia.
  - unfold rom_holds. rewrite mem_bytes_length.
    cbn [rom_source ctx rom_data rom_size rom_pos].
    repeat split; lia.
  - rewrite mem_bytes_length. reflexivity.
  - cbn. lia.
Defined.

(** X2. [fpga_loader_load_from_rom] on a descriptor of at least one byte,
    on a platform where the session reaches the streaming loop, every
    transmission goes through and the wait ends at the sample [n]: the
    session returns, and the bytes it handed to [spi_device_transmit] are,
    in this order, the dummy byte, the bytes of the image from [start] to
    [end], and the zero bytes of the two paddings. *)
Theorem rom_image_on_the_bus (pf : platform) (bin : fpga_bin_t) (n : nat) :
  bin_start bin < bin_end bin ->
  bin_end bin - bin_start bin < 2 ^ 32 ->
  reaches_streaming pf ->
  8 * LOADER_BUFFER_SIZE pf <= INT_MAX ->
  (forall k, spi_device_transmit_res pf k = ESP_OK) ->
  cdone_wait_ends pf n ->
  exists fuel st,
    fpga_loader_load_from_rom pf fuel (Some bin) initial_state
    = Some ((if gpio_get_level_res pf n =? 1
             then ESP_OK else ESP_ERR_TIMEOUT), st) /\
    bytes_sent (history st)
    = [x00]
      ++ mem_bytes (rom_mem pf) (bin_start bin) (bin_end bin - bin_start bin)
      ++ padding_bytes pf 13 ++ padding_bytes pf 7.
Proof.
  intros Hbin Hlen Hreach Hmax Htx Hends.
  assert (Hsz : to_size_t (bin_end bin - bin_start bin)
                = bin_end bin - bin_start bin)
    by (apply to_size_t_small; lia).
  destruct (load_sends_image pf rom_ctx_t
              (rom_source (rom_mem pf) (bin_start bin)
                 (bin_end bin - bin_start bin))
              (rom_holds (rom_mem pf) (bin_start bin)
                 (bin_end bin - bin_start bin))
              (mem_bytes (rom_mem pf) (bin_start bin)
                 (bin_end bin - bin_start bin)) n Hreach Hmax Htx)
    as [fuel [st [Hload Hbytes]]].
  - apply rom_delivers. exact Hlen.
  - unfold rom_holds. rewrite mem_bytes_length.
    cbn [rom_source ctx rom_data rom_size rom_pos].
    repeat split; try lia. f_equal; lia.
  - rewrite mem_bytes_length. cbn [rom_source size]. lia.
  - cbn [rom_source size]. exact Hlen.
  - exact Hends.
  - exists fuel, st. split; [|exact Hbytes].
    rewrite fpga_loader_load_from_rom_eq by exact Hbin.
    rewrite Hsz. exact Hload.
Qed.

Lemma rom_image_on_the_bus_witness :
  exists fuel st,
    fpga_loader_load_from_rom (board 16 always_ok cdone_after_three no_files)
      fuel (Some image) initial_state = Some (ESP_OK, st) /\
    bytes_sent (history st)
    = [x00] ++ mem_bytes byte_at 4096 100 ++ repeat x00 13 ++ repeat x00 7.
Proof.
  apply (rom_image_on_the_bus
           (board 16 always_ok cdone_after_three no_files) image 3).
  - cbn. lia.
  - cbn. lia.
  - unfold reaches_streaming. cbn.
    repeat split; try reflexivity; try lia; discriminate.
  - vm_compute. discriminate.
  - intros k. reflexivity.
  - unfold cdone_wait_ends. change (to_size_t _) with 10.
    cbn [board gpio_get_level_res xTaskGetTickCount_res cdone_after_three].
    split.
    + intros j Hj. split.
      * destruct j as [|[|[|j]]]; try lia; cbn; discriminate.
      * lia.
    + left. reflexivity.
Defined.

(** X3. [fpga_loader_load_from_file] on a file that [stat] reports as
    [st_size] bytes long and that holds at least that many, on a platform
    where the session reaches the streaming loop, every transmission goes
    through and the wait ends at the sample [n]: the session returns, and
    the bytes it handed to [spi_device_transmit] are, in this order, the
    dummy byte, the first [st_size] bytes of the file, and the zero bytes
    of the two paddings (13 and 7, each sent only when it fits
    [LOADER_BUFFER_SIZE]: [padding_bytes]). *)
Theorem file_on_the_bus (pf : platform) (filename : string) (st_size : Z)
    (fp : FILE) (n : nat) :
  stat_res pf filename = Some st_size ->
  fopen_res pf filename = Some fp ->
  0 <= st_size <= Z.of_nat (List.length fp) ->
  st_size < 2 ^ 32 ->
  reaches_streaming pf ->
  8 * LOADER_BUFFER_SIZE pf <= INT_MAX ->
  (forall k, spi_device_transmit_res pf k = ESP_OK) ->
  cdone_wait_ends pf n ->
  exists fuel st,
    fpga_loader_load_from_file pf fuel filename initial_state
    = Some ((if gpio_get_level_res pf n =? 1
             then ESP_OK else ESP_ERR_TIMEOUT), st) /\
    bytes_sent (history st)
    = [x00] ++ firstn (Z.to_nat st_size) fp
      ++ padding_bytes pf 13 ++ padding_bytes pf 7.
Proof.
  intros Hstat Hopen Hsize Hlen Hreach Hmax Htx Hends.
  assert (Hsz : to_size_t st_size = st_size)
    by (apply to_size_t_small; lia).
  destruct (load_sends_image
              (shift_responses pf [EvFopen filename true; EvStat filename true])
              FILE
              {| size := to_size_t st_size; ctx := fp; read := file_read |}
              (fun fp bytes => exists more, fp = bytes ++ more)
              (firstn (Z.to_nat st_size) fp) n)
    as [fuel [st [Hload Hbytes]]].
  - exact Hreach.
  - exact Hmax.
  - intros k. apply Htx.
  - apply file_delivers.
  - exists (skipn (Z.to_nat st_size) fp). symmetry. apply firstn_skipn.
  - cbn [size]. rewrite Hsz, length_firstn. lia.
  - cbn [size]. rewrite Hsz. exact Hlen.
  - exact Hends.
  - eexists fuel, _. split.
    { rewrite (fpga_loader_load_from_file_eq pf fuel filename st_size fp
                 Hstat Hopen).
      rewrite Hload. reflexivity. }
    unfold history, push, resume. cbn [trace].
    fold (history st).
    repeat first [rewrite rev_app_distr | progress cbn [rev app]].
    fold (history st).
    change (bytes_sent (history st ++ [EvFclose]) =
            [x00] ++ firstn (Z.to_nat st_size) fp
            ++ padding_bytes pf 13 ++ padding_bytes pf 7).
    rewrite bytes_sent_app.
    change (bytes_sent [EvFclose]) with (@nil byte).
    rewrite app_nil_r. exact Hbytes.
Qed.

Lemma file_on_the_bus_witness :
  exists fuel st,
    fpga_loader_load_from_file (board 16 always_ok cdone_high whole_file) fuel
      "/spiffs/top.bin" initial_state = Some (ESP_OK, st) /\
    bytes_sent (history st)
    = [x00] ++ firstn 100 (map byte_at (map Z.of_nat (seq 0 100)))
      ++ repeat x00 13 ++ repeat x00 7.
Proof.
  apply (file_on_the_bus (board 16 always_ok cdone_high whole_file)
           "/spiffs/top.bin" 100 (map byte_at (map Z.of_nat (seq 0 100))) 0).
  - reflexivity.
  - reflexivity.
  - vm_compute. split; discriminate.
  - lia.
  - unfold reaches_streaming. cbn.
    repeat split; try reflexivity; try lia; discriminate.
  - vm_compute. discriminate.
  - intros k. reflexivity.
  - unfold cdone_wait_ends. cbv zeta. split; [intros j Hj; lia|].
    left. reflexivity.
Defined.

(** ** The two ways out of the streaming loop *)

(** X4. The streaming loop stops at the first read that comes short: such
    a read is the last call of the loop, the chunk is not transmitted, and
    the loop leaves [ESP_FAIL] in [ret]. *)
Theorem short_read_ends_streaming (pf : platform) (C : Type)
    (source : firmware_source_t C) (fuel : nat) (buffer : list byte) (c : C)
    (remaining : Z) (ret0 : esp_err_t) (s s' : state) out :
  stream_loop pf source fuel buffer c remaining ret0 s = Some (out, s') ->
  exists evs,
    history s' = history s ++ evs /\
    forall chunk n,
      In (EvSourceRead chunk n) evs -> n <> chunk ->
      fst (fst out) = ESP_FAIL /\
      exists pre, evs = pre ++ [EvSourceRead chunk n].
Proof.
  intros H. destruct (stream_loop_breaks _ _ _ _ _ _ _ _ _ _ _ H)
    as [evs [Hh [Hread _]]].
  exists evs. split; [exact Hh|exact Hread].
Qed.

(** A file of 80 bytes read as 100 through a buffer of 64: the second
    read gives 16 bytes for 36. *)
Lemma short_read_ends_streaming_witness :
  exists out s' evs,
    stream_loop (board 16 always_ok cdone_high truncated_file)
      {| size := 100; ctx := repeat x01 80; read := file_read |}
      10 (repeat xff 64) (repeat x01 80) 100 ESP_OK
      (streaming_start (board 16 always_ok cdone_high truncated_file))
    = Some (out, s') /\
    history s'
    = history (streaming_start (board 16 always_ok cdone_high truncated_file))
      ++ evs /\
    In (EvSourceRead 36 16) evs /\
    forall chunk n,
      In (EvSourceRead chunk n) evs -> n <> chunk ->
      fst (fst out) = ESP_FAIL /\
      exists pre, evs = pre ++ [EvSourceRead chunk n].
Proof.
  destruct (stream_loop (board 16 always_ok cdone_high truncated_file)
              {| size := 100; ctx := repeat x01 80; read := file_read |}
              10 (repeat xff 64) (repeat x01 80) 100 ESP_OK
              (streaming_start (board 16 always_ok cdone_high truncated_file)))
    as [[out s']|] eqn:Hrun; [|vm_compute in Hrun; discriminate].
  destruct (short_read_ends_streaming _ _ _ _ _ _ _ _ _ _ _ Hrun)
    as [evs [Hh Hread]].
  exists out, s', evs. split; [reflexivity|]. split; [exact Hh|].
  split; [|exact Hread].
  assert (He : evs = skipn (List.length (history (streaming_start
                       (board 16 always_ok cdone_high truncated_file))))
                     (history s')).
  { rewrite Hh, skipn_app, Nat.sub_diag, skipn_all. reflexivity. }
  vm_compute in Hrun. injection Hrun as _ Hs. subst s'.
  rewrite He. vm_compute. tauto.
Defined.

(** X5. The streaming loop stops at the first transmission that fails:
    such a transmission is the last one of the loop, only the give of the
    semaphore follows it, and the loop leaves its error in [ret]. *)
Theorem failed_transmission_ends_streaming (pf : platform) (C : Type)
    (source : firmware_source_t C) (fuel : nat) (buffer : list byte) (c : C)
    (remaining : Z) (ret0 : esp_err_t) (s s' : state) out :
  stream_loop pf source fuel buffer c remaining ret0 s = Some (out, s') ->
  exists evs,
    history s' = history s ++ evs /\
    forall h t r,
      In (EvSpiDeviceTransmit h t r) evs -> r <> ESP_OK ->
      fst (fst out) = r /\
      exists pre, evs = pre ++ [EvSpiDeviceTransmit h t r; EvSemaphoreGive].
Proof.
  intros H. destruct (stream_loop_breaks _ _ _ _ _ _ _ _ _ _ _ H)
    as [evs [Hh [_ Htx]]].
  exists evs. split; [exact Hh|exact Htx].
Qed.

(** 200 bytes through a buffer of 64, the second chunk failing: the loop
    makes two transmissions of the four. *)
Lemma failed_transmission_ends_streaming_witness :
  exists out s' evs,
    stream_loop (board 16 second_chunk_fails cdone_high no_files)
      (rom_source byte_at 4096 200) 10 (repeat xff 64)
      (ctx (rom_source byte_at 4096 200)) 200 ESP_OK
      (streaming_start (board 16 second_chunk_fails cdone_high no_files))
    = Some (out, s') /\
    history s'
    = history (streaming_start (board 16 second_chunk_fails cdone_high no_files))
      ++ evs /\
    transmit_bits evs = [512; 512] /\
    forall h t r,
      In (EvSpiDeviceTransmit h t r) evs -> r <> ESP_OK ->
      fst (fst out) = r /\
      exists pre, evs = pre ++ [EvSpiDeviceTransmit h t r; EvSemaphoreGive].
Proof.
  destruct (stream_loop (board 16 second_chunk_fails cdone_high no_files)
              (rom_source byte_at 4096 200) 10 (repeat xff 64)
              (ctx (rom_source byte_at 4096 200)) 200 ESP_OK
              (streaming_start
                 (board 16 second_chunk_fails cdone_high no_files)))
    as [[out s']|] eqn:Hrun; [|vm_compute in Hrun; discriminate].
  destruct (failed_transmission_ends_streaming _ _ _ _ _ _ _ _ _ _ _ Hrun)
    as [evs [Hh Htx]].
  exists out, s', evs. split; [reflexivity|]. split; [exact Hh|].
  split; [|exact Htx].
  assert (He : evs = skipn (List.length (history (streaming_start
                       (board 16 second_chunk_fails cdone_high no_files))))
                     (history s')).
  { rewrite Hh, skipn_app, Nat.sub_diag, skipn_all. reflexivity. }
  vm_compute in Hrun. injection Hrun as _ Hs. subst s'.
  rewrite He. vm_compute. reflexivity.
Defined.

(** ** What holds of every session *)

(** X6. With [8 * LOADER_BUFFER_SIZE] within [int], every transmission of
    every session that returns, on every path, carries at least one bit and
    at most [8 * LOADER_BUFFER_SIZE] bits: no transaction is longer than
    the DMA buffer. *)
Theorem transmissions_fit_the_buffer (pf : platform) (C : Type)
    (source : firmware_source_t C) (fuel : nat) (ret : esp_err_t) (st : state) :
  8 * LOADER_BUFFER_SIZE pf <= INT_MAX ->
  fpga_loader_load pf source fuel initial_state = Some (ret, st) ->
  Forall (fun bits => 0 < bits <= 8 * LOADER_BUFFER_SIZE pf)
    (transmit_bits (history st)).
Proof.
  intros Hmax Hload. apply (session_bits pf ret); [exact Hmax|].
  exact (load_session pf C source fuel ret st Hload).
Qed.

Lemma transmissions_fit_the_buffer_witness :
  exists ret st,
    fpga_loader_load (board 16 always_ok cdone_after_three no_files)
      (rom_source byte_at 4096 100) 100 initial_state = Some (ret, st) /\
    transmit_bits (history st) = [8; 512; 288; 104; 56] /\
    Forall (fun bits => 0 < bits <= 8 * 64) (transmit_bits (history st)).
Proof.
  eexists _, _. split; [vm_compute; reflexivity|].
  split; [vm_compute; reflexivity|].
  eapply (transmissions_fit_the_buffer
            (board 16 always_ok cdone_after_three no_files) _
            (rom_source byte_at 4096 100) 100);
    [vm_compute; discriminate|vm_compute; reflexivity].
Defined.

(** X7. In every session that returns, on every path, the bus semaphore is
    taken before each transmission and given back right after it: one
    transmission for each take, no other call while the semaphore is held,
    no transmission without it, and the semaphore is free at the return. *)
Theorem semaphore_held_only_to_transmit (pf : platform) (C : Type)
    (source : firmware_source_t C) (fuel : nat) (ret : esp_err_t) (st : state) :
  fpga_loader_load pf source fuel initial_state = Some (ret, st) ->
  semaphore_after (history st) = Some SemFree.
Proof.
  intros Hload. apply (session_semaphore pf ret).
  exact (load_session pf C source fuel ret st Hload).
Qed.

Lemma semaphore_held_only_to_transmit_witness :
  exists ret st,
    fpga_loader_load (board 16 second_chunk_fails cdone_low no_files)
      (rom_source byte_at 4096 100) 100 initial_state = Some (ret, st) /\
    semaphore_after (history st) = Some SemFree.
Proof.
  eexists _, _. split; [vm_compute; reflexivity|].
  eapply (semaphore_held_only_to_transmit
            (board 16 second_chunk_fails cdone_low no_files) _
            (rom_source byte_at 4096 100) 100).
  vm_compute. reflexivity.
Defined.

(** X8. In every session that returns, on every path (the failure to add
    the device and the failure to acquire the bus included), every call is
    in order for what the session holds: the bus is acquired with the
    device registered, transmissions are made with the bus acquired, the
    buffer is read into and zeroed while it is allocated, the bus is
    released and the buffer freed only when held, the device is removed
    with the bus released; and nothing is held at the return. *)
Theorem resources_used_in_order (pf : platform) (C : Type)
    (source : firmware_source_t C) (fuel : nat) (ret : esp_err_t) (st : state) :
  fpga_loader_load pf source fuel initial_state = Some (ret, st) ->
  resources_in_order (history st) = Some no_resources.
Proof.
  intros Hload. apply (session_in_order pf ret).
  exact (load_session pf C source fuel ret st Hload).
Qed.

Lemma resources_used_in_order_witness :
  exists ret st,
    fpga_loader_load (board 16 always_ok cdone_after_three no_files)
      (rom_source byte_at 4096 100) 100 initial_state = Some (ret, st) /\
    resources_in_order (history st) = Some no_resources.
Proof.
  eexists _, _. split; [vm_compute; reflexivity|].
  eapply (resources_used_in_order
            (board 16 always_ok cdone_after_three no_files) _
            (rom_source byte_at 4096 100) 100).
  vm_compute. reflexivity.
Defined.

(** X9. In every session that reaches the streaming loop, whatever the
    chip-select pin was before: every transmission is made with the pin
    under GPIO control; the dummy byte goes out with the pin high, every
    chunk of the bitstream with the pin low, and the padding after the
    buffer is zeroed with the pin high. *)
Theorem chip_select_during_session (pf : platform) (C : Type)
    (source : firmware_source_t C) (fuel : nat) (ret : esp_err_t) (st : state)
    (sig : gpio_signal) (level : Z) :
  reaches_streaming pf ->
  fpga_loader_load pf source fuel initial_state = Some (ret, st) ->
  cs_at_transmits pf sig level (history st)
  = (SIG_GPIO_OUT_IDX, 1)
    :: repeat (SIG_GPIO_OUT_IDX, 0)
         (transmits_before_memset (history st) - 1)
    ++ repeat (SIG_GPIO_OUT_IDX, 1)
         (count_ev is_transmit (history st)
          - transmits_before_memset (history st)).
Proof.
  intros Hreach Hload. apply (session_chip_select pf ret); [exact Hreach|].
  exact (load_session pf C source fuel ret st Hload).
Qed.

Lemma chip_select_during_session_witness :
  exists ret st,
    fpga_loader_load (board 16 always_ok cdone_after_three no_files)
      (rom_source byte_at 4096 100) 100 initial_state = Some (ret, st) /\
    cs_at_transmits (board 16 always_ok cdone_after_three no_files)
      FSPICS0_OUT_IDX 1 (history st)
    = [(SIG_GPIO_OUT_IDX, 1); (SIG_GPIO_OUT_IDX, 0); (SIG_GPIO_OUT_IDX, 0);
       (SIG_GPIO_OUT_IDX, 1); (SIG_GPIO_OUT_IDX, 1)].
Proof.
  eexists _, _. split; [vm_compute; reflexivity|].
  eapply (chip_select_during_session
            (board 16 always_ok cdone_after_three no_files) _
            (rom_source byte_at 4096 100) 100).
  - unfold reaches_streaming. cbn.
    repeat split; try reflexivity; try lia; discriminate.
  - vm_compute. reflexivity.
Defined.

(** X10. In every session that returns, on every path, every call that
    takes a device handle (acquire, transmit, release, remove) is made with
    the handle [spi_bus_add_device] gave to this session: never with
    [NULL], never with another. *)
Theorem one_handle_per_session (pf : platform) (C : Type)
    (source : firmware_source_t C) (fuel : nat) (ret : esp_err_t) (st : state) :
  fpga_loader_load pf source fuel initial_state = Some (ret, st) ->
  Forall (eq (Some (spi_bus_add_device_handle pf))) (handles (history st)).
Proof.
  intros Hload. apply (session_handles pf ret).
  exact (load_session pf C source fuel ret st Hload).
Qed.

Lemma one_handle_per_session_witness :
  exists ret st,
    fpga_loader_load (board 16 always_ok cdone_after_three no_files)
      (rom_source byte_at 4096 100) 100 initial_state = Some (ret, st) /\
    Forall (eq (Some 1)) (handles (history st)).
Proof.
  eexists _, _. split; [vm_compute; reflexivity|].
  eapply (one_handle_per_session
            (board 16 always_ok cdone_after_three no_files) _
            (rom_source byte_at 4096 100) 100).
  vm_compute. reflexivity.
Defined.

(** ** The wait for CDONE *)

(** X11. A session that reaches the streaming loop returns when CDONE is
    sampled at level 1 before the deadline, whatever the source gave and
    whatever the transmissions of the chunks and of the padding returned:
    the value is [ESP_OK], after [n + 1] samples of the pin. *)
Theorem load_succeeds_when_cdone_rises (pf : platform) (C : Type)
    (source : firmware_source_t C) (n : nat) :
  reaches_streaming pf ->
  LOADER_BUFFER_SIZE pf < 2 ^ 32 ->
  cdone_rises pf n ->
  exists fuel st,
    fpga_loader_load pf source fuel initial_state = Some (ESP_OK, st) /\
    count_ev is_gpio_get (history st) = S n.
Proof.
  intros Hreach Hmax [Hwait Hhigh].
  destruct (load_run pf C source n Hreach Hmax) as
    [fuel [st [buffer [out [s8 [wait [r13 [r7
       [Hload [_ [_ [_ [_ Hcount]]]]]]]]]]]]].
  { split; [exact Hwait|left; exact Hhigh]. }
  exists fuel, st. rewrite Hhigh in Hload. split; [exact Hload|exact Hcount].
Qed.

(** CDONE goes high at the fourth sample, on a bus where the second chunk
    fails. *)
Lemma load_succeeds_when_cdone_rises_witness :
  exists fuel st,
    fpga_loader_load (board 16 second_chunk_fails cdone_after_three no_files)
      (rom_source byte_at 4096 100) fuel initial_state = Some (ESP_OK, st) /\
    count_ev is_gpio_get (history st) = 4%nat.
Proof.
  apply (load_succeeds_when_cdone_rises
           (board 16 second_chunk_fails cdone_after_three no_files) _
           (rom_source byte_at 4096 100) 3).
  - unfold reaches_streaming. cbn.
    repeat split; try reflexivity; try lia; discriminate.
  - vm_compute. reflexivity.
  - unfold cdone_rises. change (to_size_t _) with 10.
    cbn [board gpio_get_level_res xTaskGetTickCount_res cdone_after_three].
    split; [|reflexivity].
    intros j Hj. split.
    + destruct j as [|[|[|j]]]; try lia; cbn; discriminate.
    + lia.
Defined.

(** X12. A session that reaches the streaming loop returns whatever the
    FPGA does, as long as the tick count, a value of 32 bits at every
    read, goes up from one read to the next without wrapping until it has
    passed the deadline: with the deadline [d] ticks after the first tick
    read, the wait ends after at most [d + 1] samples of the pin.  (No
    tick count passes a deadline of [2 ^ 32 - 1]: the hypotheses leave
    that deadline out.) *)
Theorem load_returns_when_clock_advances (pf : platform) (C : Type)
    (source : firmware_source_t C) :
  reaches_streaming pf ->
  LOADER_BUFFER_SIZE pf < 2 ^ 32 ->
  ticks_in_range pf
    (S (Z.to_nat (to_size_t (xTaskGetTickCount_res pf 0 + pdMS_TO_TICKS pf 100)
                  - xTaskGetTickCount_res pf 0))) ->
  clock_advances pf
    (Z.to_nat (to_size_t (xTaskGetTickCount_res pf 0 + pdMS_TO_TICKS pf 100)
               - xTaskGetTickCount_res pf 0)) ->
  exists fuel ret st,
    fpga_loader_load pf source fuel initial_state = Some (ret, st) /\
    (count_ev is_gpio_get (history st)
     <= S (Z.to_nat (to_size_t (xTaskGetTickCount_res pf 0
                                + pdMS_TO_TICKS pf 100)
                     - xTaskGetTickCount_res pf 0)))%nat /\
    to_size_t (xTaskGetTickCount_res pf 0 + pdMS_TO_TICKS pf 100) < 2 ^ 32 - 1.
Proof.
  intros Hreach Hmax Hrange Hclock.
  set (d := to_size_t (xTaskGetTickCount_res pf 0 + pdMS_TO_TICKS pf 100)) in *.
  remember (Z.to_nat (d - xTaskGetTickCount_res pf 0)) as N eqn:HN.
  pose proof (clock_advances_by pf N Hclock (S N) ltac:(lia)) as Hby.
  pose proof (Hrange (S N) ltac:(lia)) as Hlast.
  pose proof (Hrange O ltac:(lia)) as Hfirst.
  assert (Hlate : wait_over pf N = true).
  { unfold wait_over. fold d. apply orb_true_iff. right.
    apply Z.gtb_lt. lia. }
  destruct (first_hit (wait_over pf) N Hlate) as [n [Hn [Hhit Hbefore]]].
  destruct (load_run pf C source n Hreach Hmax
              (wait_over_ends pf n Hhit Hbefore)) as
    [fuel [st [buffer [out [s8 [wait [r13 [r7
       [Hload [_ [_ [_ [_ Hcount]]]]]]]]]]]]].
  eexists fuel, _, st. split; [exact Hload|].
  split; [rewrite Hcount; lia|lia].
Qed.

(** CDONE never rises; the deadline is 10 ticks away. *)
Lemma load_returns_when_clock_advances_witness :
  exists fuel ret st,
    fpga_loader_load (board 16 always_ok cdone_low no_files)
      (rom_source byte_at 4096 100) fuel initial_state = Some (ret, st) /\
    (count_ev is_gpio_get (history st) <= 11)%nat /\
    10 < 2 ^ 32 - 1.
Proof.
  apply (load_returns_when_clock_advances
           (board 16 always_ok cdone_low no_files) _
           (rom_source byte_at 4096 100)).
  - unfold reaches_streaming. cbn.
    repeat split; try reflexivity; try lia; discriminate.
  - vm_compute. reflexivity.
  - intros k Hk. change (to_size_t _) with 10 in Hk.
    cbn [board xTaskGetTickCount_res] in Hk |- *. lia.
  - intros k Hk. cbn [board xTaskGetTickCount_res]. lia.
Defined.

(** X13. When the tick count at the start of the wait is so close to the
    end of its 32 bits that the deadline wraps around, the wait gives up
    at its first check: a session whose first sample of CDONE is not 1
    returns [ESP_ERR_TIMEOUT] after that one sample, although no tick has
    passed. *)
Theorem deadline_wrap_times_out_at_once (pf : platform) (C : Type)
    (source : firmware_source_t C) :
  reaches_streaming pf ->
  LOADER_BUFFER_SIZE pf < 2 ^ 32 ->
  0 <= xTaskGetTickCount_res pf 0 < 2 ^ 32 ->
  0 <= pdMS_TO_TICKS pf 100 < 2 ^ 32 ->
  2 ^ 32 <= xTaskGetTickCount_res pf 0 + pdMS_TO_TICKS pf 100 ->
  xTaskGetTickCount_res pf 0 <= xTaskGetTickCount_res pf 1 ->
  gpio_get_level_res pf 0 <> 1 ->
  exists fuel st,
    fpga_loader_load pf source fuel initial_state
    = Some (ESP_ERR_TIMEOUT, st) /\
    count_ev is_gpio_get (history st) = 1%nat.
Proof.
  intros Hreach Hmax Htick Hms Hwrap Hmono Hlow.
  destruct (load_run pf C source 0 Hreach Hmax) as
    [fuel [st [buffer [out [s8 [wait [r13 [r7
       [Hload [_ [_ [_ [_ Hcount]]]]]]]]]]]]].
  { split; [intros j Hj; lia|]. right.
    assert (Hd : to_size_t (xTaskGetTickCount_res pf 0 + pdMS_TO_TICKS pf 100)
                 = xTaskGetTickCount_res pf 0 + pdMS_TO_TICKS pf 100 - 2 ^ 32).
    { unfold to_size_t.
      rewrite <- (Z.mod_add _ (-1) (2 ^ 32)) by lia.
      rewrite Z.mod_small; lia. }
    rewrite Hd. lia. }
  exists fuel, st. apply Z.eqb_neq in Hlow. rewrite Hlow in Hload.
  split; [exact Hload|exact Hcount].
Qed.

(** The tick count is 5 ticks from the wrap and the deadline 10 ticks
    away. *)
Lemma deadline_wrap_times_out_at_once_witness :
  exists fuel st,
    fpga_loader_load (board_at (2 ^ 32 - 5) 16 always_ok cdone_low no_files)
      (rom_source byte_at 4096 100) fuel initial_state
    = Some (ESP_ERR_TIMEOUT, st) /\
    count_ev is_gpio_get (history st) = 1%nat.
Proof.
  apply (deadline_wrap_times_out_at_once
           (board_at (2 ^ 32 - 5) 16 always_ok cdone_low no_files) _
           (rom_source byte_at 4096 100)).
  - unfold reaches_streaming. cbn.
    repeat split; try reflexivity; try lia; discriminate.
  - vm_compute. reflexivity.
  - vm_compute. split; [discriminate|reflexivity].
  - vm_compute. split; [discriminate|reflexivity].
  - vm_compute. discriminate.
  - vm_compute. discriminate.
  - vm_compute. discriminate.
Defined.

(** ** The memory-range source *)

(** X14. Two reads that fit what is left of the range give the
    consecutive bytes of the range: the first the [n1] bytes at the
    cursor, the second the [n2] bytes after them, and the context they
    leave is the one a single read of [n1 + n2] bytes leaves, which gives
    the same bytes in one piece. *)
Theorem rom_read_consecutive (mem : Z -> byte) (b1 b2 : list byte)
    (n1 n2 : Z) (rom : rom_ctx_t) :
  0 <= n1 -> 0 <= n2 ->
  0 <= rom_pos rom ->
  rom_pos rom + n1 + n2 <= rom_size rom ->
  rom_size rom < 2 ^ 32 ->
  exists rom1 rom2,
    rom_read mem b1 n1 rom
    = (n1, memcpy b1 (mem_bytes mem (rom_data rom + rom_pos rom) n1), rom1) /\
    rom_read mem b2 n2 rom1
    = (n2, memcpy b2 (mem_bytes mem (rom_data rom + rom_pos rom + n1) n2),
       rom2) /\
    rom_read mem b1 (n1 + n2) rom
    = (n1 + n2,
       memcpy b1 (mem_bytes mem (rom_data rom + rom_pos rom) n1
                  ++ mem_bytes mem (rom_data rom + rom_pos rom + n1) n2),
       rom2).
Proof.
  intros Hn1 Hn2 Hpos Hfit Hsize.
  assert (H1 : to_size_t (rom_pos rom + n1) = rom_pos rom + n1)
    by (apply to_size_t_small; lia).
  assert (H2 : to_size_t (rom_pos rom + n1 + n2) = rom_pos rom + n1 + n2)
    by (apply to_size_t_small; lia).
  assert (H3 : to_size_t (rom_pos rom + (n1 + n2)) = rom_pos rom + n1 + n2)
    by (rewrite to_size_t_small; lia).
  eexists _, _. split; [|split].
  - unfold rom_read. rewrite H1.
    destruct (rom_pos rom + n1 >? rom_size rom) eqn:Hc; [zbool; lia|].
    reflexivity.
  - unfold rom_read. cbn [rom_data rom_size rom_pos]. rewrite H2.
    destruct (rom_pos rom + n1 + n2 >? rom_size rom) eqn:Hc; [zbool; lia|].
    rewrite Z.add_assoc. reflexivity.
  - unfold rom_read. rewrite H3.
    destruct (rom_pos rom + n1 + n2 >? rom_size rom) eqn:Hc; [zbool; lia|].
    rewrite mem_bytes_app by lia. reflexivity.
Qed.

Lemma rom_read_consecutive_witness :
  exists rom1 rom2,
    rom_read byte_at (repeat xff 64) 64
      {| rom_data := 4096; rom_size := 100; rom_pos := 0 |}
    = (64, memcpy (repeat xff 64) (mem_bytes byte_at (4096 + 0) 64), rom1) /\
    rom_read byte_at (repeat xff 64) 36 rom1
    = (36, memcpy (repeat xff 64) (mem_bytes byte_at (4096 + 0 + 64) 36),
       rom2) /\
    rom_read byte_at (repeat xff 64) (64 + 36)
      {| rom_data := 4096; rom_size := 100; rom_pos := 0 |}
    = (64 + 36,
       memcpy (repeat xff 64)
         (mem_bytes byte_at (4096 + 0) 64
          ++ mem_bytes byte_at (4096 + 0 + 64) 36),
       rom2).
Proof.
  apply (rom_read_consecutive byte_at (repeat xff 64) (repeat xff 64) 64 36
           {| rom_data := 4096; rom_size := 100; rom_pos := 0 |});
    cbn; lia.
Defined.

(** X15. The bounds check of [rom_read] adds the cursor and the request in
    [size_t]: for a request so large that the sum passes [2 ^ 32] and
    wraps to a value within the size, the check passes, although more is
    asked for than is left; [rom_read] then reports the whole request,
    copies that many bytes from the cursor on, past the end of the range,
    and moves the cursor back. *)
Theorem rom_read_wraps_past_the_range (mem : Z -> byte) (buffer : list byte)
    (n : Z) (rom : rom_ctx_t) :
  0 <= rom_pos rom <= rom_size rom ->
  rom_size rom < 2 ^ 32 ->
  0 <= n < 2 ^ 32 ->
  2 ^ 32 <= rom_pos rom + n ->
  rom_pos rom + n - 2 ^ 32 <= rom_size rom ->
  rom_size rom - rom_pos rom < n /\
  rom_read mem buffer n rom
  = (n,
     memcpy buffer (mem_bytes mem (rom_data rom + rom_pos rom) n),
     {| rom_data := rom_data rom; rom_size := rom_size rom;
        rom_pos := rom_pos rom + n - 2 ^ 32 |}).
Proof.
  intros Hpos Hsize Hn Hwrap Hfit. split; [lia|].
  unfold rom_read.
  assert (Hd : to_size_t (rom_pos rom + n) = rom_pos rom + n - 2 ^ 32).
  { unfold to_size_t.
    rewrite <- (Z.mod_add _ (-1) (2 ^ 32)) by lia.
    rewrite Z.mod_small; lia. }
  rewrite Hd.
  destruct (_ >? _) eqn:Hc; [zbool; lia|reflexivity].
Qed.

(** 40 bytes are left of 100 and [2 ^ 32 - 50] are asked for. *)
Lemma rom_read_wraps_past_the_range_witness :
  100 - 60 < 2 ^ 32 - 50 /\
  fst (fst (rom_read byte_at [] (2 ^ 32 - 50)
              {| rom_data := 4096; rom_size := 100; rom_pos := 60 |}))
  = 2 ^ 32 - 50 /\
  snd (rom_read byte_at [] (2 ^ 32 - 50)
         {| rom_data := 4096; rom_size := 100; rom_pos := 60 |})
  = {| rom_data := 4096; rom_size := 100; rom_pos := 10 |}.
Proof.
  destruct (rom_read_wraps_past_the_range byte_at [] (2 ^ 32 - 50)
              {| rom_data := 4096; rom_size := 100; rom_pos := 60 |})
    as [Hmore Hread]; try (cbn; lia).
  split; [exact Hmore|]. rewrite Hread. split; reflexivity.
Defined.

(** ** The file entry point *)

(** X16. Every call of [fpga_loader_load_from_file] that returns has
    closed the file it opened, whatever the session did, and closes
    nothing when [fopen] failed; the calls of the session are in order for
    what it holds, nothing is held at the return, and the device variable
    is [NULL] again. *)
Theorem file_session_closes_the_file (pf : platform) (fuel : nat)
    (filename : string) (ret : esp_err_t) (st : state) :
  fpga_loader_load_from_file pf fuel filename initial_state = Some (ret, st) ->
  files_open_after (history st) = Some O /\
  resources_in_order (history st) = Some no_resources /\
  fpga_update_device st = None.
Proof.
  intros H.
  destruct (load_from_file_paths pf fuel filename ret st H)
    as [Hdev [[_ [_ Hh]]|[[_ [_ [_ Hh]]]|[h [Hs Hh]]]]].
  - rewrite Hh. repeat split. exact Hdev.
  - rewrite Hh. repeat split. exact Hdev.
  - rewrite Hh. split; [|split; [|exact Hdev]].
    + unfold files_open_after. rewrite !fold_left_app.
      cbn [fold_left file_step].
      rewrite (file_step_neutral h) by (eapply session_no_file_ev; exact Hs).
      reflexivity.
    + unfold resources_in_order. rewrite !fold_left_app.
      cbn [fold_left checked_event in_order apply_event].
      fold (resources_in_order h). rewrite (session_in_order _ _ _ Hs).
      reflexivity.
Qed.

(** A file that is shorter than [stat] reports: the session goes through
    Step 8 after the short read, and the file is closed. *)
Lemma file_session_closes_the_file_witness :
  exists ret st,
    fpga_loader_load_from_file (board 16 always_ok cdone_high truncated_file)
      100 "/spiffs/top.bin" initial_state = Some (ret, st) /\
    files_open_after (history st) = Some O /\
    resources_in_order (history st) = Some no_resources /\
    fpga_update_device st = None.
Proof.
  eexists _, _. split; [vm_compute; reflexivity|].
  eapply (file_session_closes_the_file
            (board 16 always_ok cdone_high truncated_file) 100
            "/spiffs/top.bin").
  vm_compute. reflexivity.
Defined.

(** X17. When [stat] does not find the file, or [fopen] can not open it,
    [fpga_loader_load_from_file] returns at once, whatever the fuel: with
    [ESP_ERR_NOT_FOUND] in the first case and [ESP_FAIL] in the second,
    without a call to the SPI driver or to a GPIO (the FPGA is not reset
    and keeps its configuration) and with no file left open. *)
Theorem unreadable_file_leaves_the_fpga_alone (pf : platform) (fuel : nat)
    (filename : string) :
  stat_res pf filename = None \/ fopen_res pf filename = None ->
  exists ret st,
    fpga_loader_load_from_file pf fuel filename initial_state
    = Some (ret, st) /\
    ret = match stat_res pf filename with
          | None => ESP_ERR_NOT_FOUND
          | Some _ => ESP_FAIL
          end /\
    Forall (fun e => is_file_ev e = true) (history st) /\
    files_open_after (history st) = Some O /\
    fpga_update_device st = None.
Proof.
  intros H. unfold fpga_loader_load_from_file.
  destruct (stat_res pf filename) as [st_size|].
  - destruct H as [H|H]; [discriminate|]. rewrite H.
    eexists _, _. split; [reflexivity|].
    repeat split; repeat constructor.
  - eexists _, _. split; [reflexivity|].
    repeat split; repeat constructor.
Qed.

Lemma unreadable_file_leaves_the_fpga_alone_witness :
  exists ret st,
    fpga_loader_load_from_file locked_file_board 0 "/spiffs/top.bin"
      initial_state = Some (ret, st) /\
    ret = ESP_FAIL /\
    Forall (fun e => is_file_ev e = true) (history st) /\
    files_open_after (history st) = Some O /\
    fpga_update_device st = None.
Proof.
  apply (unreadable_file_leaves_the_fpga_alone locked_file_board 0
           "/spiffs/top.bin").
  right. reflexivity.
Defined.

(** ** One session after another *)

(** X18. A second session can follow a first one that returned, whatever
    the first one returned: it runs as a session from the initial state
    does on the responses the first one left, and over the calls of both
    the resources are used in order, the semaphore is held only to
    transmit, and nothing is held at the end. *)
Theorem second_session_starts_clean (pf : platform) (C1 C2 : Type)
    (source1 : firmware_source_t C1) (source2 : firmware_source_t C2)
    (fuel1 fuel2 : nat) (ret1 ret2 : esp_err_t) (st1 st2 : state) :
  fpga_loader_load pf source1 fuel1 initial_state = Some (ret1, st1) ->
  fpga_loader_load pf source2 fuel2 st1 = Some (ret2, st2) ->
  exists st,
    fpga_loader_load (shift_responses pf (trace st1)) source2 fuel2
      initial_state = Some (ret2, st) /\
    history st2 = history st1 ++ history st /\
    resources_in_order (history st2) = Some no_resources /\
    semaphore_after (history st2) = Some SemFree /\
    fpga_update_device st2 = None.
Proof.
  intros H1 H2.
  pose proof (load_leaves_device_null _ _ _ _ _ _ H1) as Hdev.
  assert (Hst1 : st1 = {| trace := trace st1; fpga_update_device := None |}).
  { destruct st1 as [tr d]. cbn in Hdev |- *. subst d. reflexivity. }
  rewrite Hst1 in H2. rewrite fpga_loader_load_later in H2.
  destruct (fpga_loader_load (shift_responses pf (trace st1)) source2 fuel2
              initial_state) as [[r st]|] eqn:Hload; [|discriminate].
  injection H2 as Hr Hs. subst r st2.
  exists st. split; [reflexivity|].
  assert (Hh : history (resume (trace st1) st) = history st1 ++ history st).
  { unfold history, resume. cbn [trace]. apply rev_app_distr. }
  split; [exact Hh|]. rewrite Hh.
  pose proof (load_session _ _ _ _ _ _ H1) as S1.
  pose proof (load_session _ _ _ _ _ _ Hload) as S2.
  split; [|split].
  - unfold resources_in_order. rewrite fold_left_app.
    fold (resources_in_order (history st1)).
    rewrite (session_in_order _ _ _ S1).
    exact (session_in_order _ _ _ S2).
  - unfold semaphore_after. rewrite fold_left_app.
    fold (semaphore_after (history st1)).
    rewrite (session_semaphore _ _ _ S1).
    exact (session_semaphore _ _ _ S2).
  - cbn [resume fpga_update_device].
    exact (load_leaves_device_null _ _ _ _ _ _ Hload).
Qed.

(** A first session that times out, and a second one on another image. *)
Lemma second_session_starts_clean_witness :
  exists ret1 st1 ret2 st2 st,
    fpga_loader_load (board 16 always_ok cdone_low no_files)
      (rom_source byte_at 4096 100) 100 initial_state = Some (ret1, st1) /\
    fpga_loader_load (board 16 always_ok cdone_low no_files)
      (rom_source byte_at 8192 10) 100 st1 = Some (ret2, st2) /\
    fpga_loader_load
      (shift_responses (board 16 always_ok cdone_low no_files) (trace st1))
      (rom_source byte_at 8192 10) 100 initial_state = Some (ret2, st) /\
    history st2 = history st1 ++ history st /\
    resources_in_order (history st2) = Some no_resources /\
    semaphore_after (history st2) = Some SemFree /\
    fpga_update_device st2 = None.
Proof.
  destruct (fpga_loader_load (board 16 always_ok cdone_low no_files)
              (rom_source byte_at 4096 100) 100 initial_state)
    as [[ret1 st1]|] eqn:H1; [|vm_compute in H1; discriminate].
  destruct (fpga_loader_load (board 16 always_ok cdone_low no_files)
              (rom_source byte_at 8192 10) 100 st1)
    as [[ret2 st2]|] eqn:H2.
  2:{ vm_compute in H1. injection H1 as _ Hs. subst st1.
      vm_compute in H2. discriminate. }
  destruct (second_session_starts_clean _ _ _ _ _ _ _ _ _ _ _ H1 H2)
    as [st H].
  exists ret1, st1, ret2, st2, st.
  split; [reflexivity|]. split; [exact H2|exact H].
Defined.

(** * The applications *)

(** ** The loader inside an application *)

Lemma loader_calls_app (a b : list app_event) :
  loader_calls (a ++ b) = loader_calls a ++ loader_calls b.
Proof. unfold loader_calls. apply flat_map_app. Qed.

Lemma loader_calls_Ev (l : list event) : loader_calls (map Ev l) = l.
Proof.
  induction l as [|e l IH]; [reflexivity|].
  cbn [map loader_calls flat_map app]. f_equal. exact IH.
Qed.

Lemma loader_calls_rev (l : list app_event) :
  loader_calls (rev l) = rev (loader_calls l).
Proof.
  induction l as [|e l IH]; [reflexivity|].
  cbn [rev]. rewrite loader_calls_app, IH.
  destruct e; cbn [loader_calls flat_map app rev]; rewrite ?app_nil_r;
    reflexivity.
Qed.

Ltac app_hist :=
  unfold app_history; cbn [calls with_calls rev app];
  rewrite <- ?app_assoc; reflexivity.

(** A function of the loader that adds the calls [evs] to the trace, run
    by the application. *)
Lemma lift_run (A : Type) (m : M A) (a : app_state) (x : A) (s' : state)
    (evs : list event) :
  m (loader_view a) = Some (x, s') ->
  trace s' = evs ++ loader_calls (calls a) ->
  lift m a
  = Some (x, with_calls a (map Ev evs ++ calls a) (fpga_update_device s')).
Proof.
  intros Hm Htr. unfold lift. cbv zeta. rewrite Hm.
  cbn [loader_view trace]. rewrite Htr.
  replace (List.length (evs ++ loader_calls (calls a))
           - List.length (loader_calls (calls a)))%nat
    with (List.length evs + 0)%nat by (rewrite length_app; lia).
  rewrite firstn_app_2. cbn [firstn]. rewrite app_nil_r. reflexivity.
Qed.

Lemma lift_emit (e : event) (a : app_state) :
  lift (emit e) a
  = Some (tt, with_calls a (Ev e :: calls a) (loader_device a)).
Proof.
  rewrite (lift_run unit (emit e) a tt
             {| trace := e :: loader_calls (calls a);
                fpga_update_device := loader_device a |} [e]);
    reflexivity.
Qed.

Lemma lift_transmit (pf : platform) (h : spi_device_handle_t)
    (t : spi_transaction_t) (a : app_state) :
  lift (spi_device_transmit pf h t) a
  = Some (spi_device_transmit_res pf
            (count_ev is_transmit (loader_calls (calls a))),
          with_calls a
            (Ev (EvSpiDeviceTransmit h t
                   (spi_device_transmit_res pf
                      (count_ev is_transmit (loader_calls (calls a)))))
             :: calls a) (loader_device a)).
Proof.
  rewrite (lift_run _ (spi_device_transmit pf h t) a
             (spi_device_transmit_res pf
                (count_ev is_transmit (loader_calls (calls a))))
             {| trace :=
                  EvSpiDeviceTransmit h t
                    (spi_device_transmit_res pf
                       (count_ev is_transmit (loader_calls (calls a))))
                  :: loader_calls (calls a);
                fpga_update_device := loader_device a |}
             [EvSpiDeviceTransmit h t
                (spi_device_transmit_res pf
                   (count_ev is_transmit (loader_calls (calls a))))]);
    reflexivity.
Qed.

(** *** master_spi_init *)

Lemma master_spi_init_bus_eq (ap : app_platform) (a : app_state) :
  master_spi_init_bus ap a
  = let r := spi_bus_initialize_res ap (count_app is_bus_initialize (calls a)) in
    Some (r,
          with_calls a
            (EvSpiBusInitialize
               {| mosi_io_num := CONFIG_FPGA_MOSI_GPIO ap;
                  miso_io_num := CONFIG_FPGA_MISO_GPIO ap;
                  sclk_io_num := CONFIG_FPGA_SCLK_GPIO ap;
                  quadwp_io_num := CONFIG_FPGA_WP_GPIO ap;
                  quadhd_io_num := CONFIG_FPGA_HD_GPIO ap;
                  max_transfer_sz :=
                    CONFIG_FPGA_SPI_BUFFER_SIZE (loader_platform ap) * 4;
                  bus_flags :=
                    [SPICOMMON_BUSFLAG_MASTER; SPICOMMON_BUSFLAG_GPIO_PINS] |}
               r :: calls a) (loader_device a)).
Proof.
  unfold master_spi_init_bus, spi_bus_initialize, abind, get_calls, app_emit,
    aret. cbv zeta. cbn [calls with_calls].
  destruct (_ =? ESP_OK) eqn:Hr; cbn [negb]; [|reflexivity].
  zbool. rewrite Hr. reflexivity.
Qed.

(** X19. [master_spi_init] always returns.  When it returns [ESP_OK] the
    mutex exists and its last call is [spi_bus_initialize], which returned
    [ESP_OK], with [max_transfer_sz] equal to the [LOADER_BUFFER_SIZE] of
    the loader.  When the mutex can not be created it returns
    [ESP_ERR_NO_MEM] and the bus is not initialised:
    [xSemaphoreCreateMutex] is its only call. *)
Theorem master_spi_init_ok_means_ready (ap : app_platform) (a : app_state) :
  exists ret a' made,
    master_spi_init ap a = Some (ret, a') /\
    app_history a' = app_history a ++ made /\
    (ret = ESP_OK ->
     master_spi_semaphore a' <> None /\
     exists pre cfg,
       made = pre ++ [EvSpiBusInitialize cfg ESP_OK] /\
       max_transfer_sz cfg = LOADER_BUFFER_SIZE (loader_platform ap)) /\
    (master_spi_semaphore a' = None ->
     ret = ESP_ERR_NO_MEM /\ made = [EvSemaphoreCreateMutex false]).
Proof.
  unfold master_spi_init. unfold abind at 1. unfold get_semaphore.
  destruct (master_spi_semaphore a) as [h|] eqn:Hsem.
  - rewrite master_spi_init_bus_eq. cbv zeta.
    eexists _, _, [_]. split; [reflexivity|].
    split; [app_hist|]. cbn [with_calls master_spi_semaphore].
    rewrite Hsem. split.
    + intros Hr. split; [discriminate|].
      eexists [], _. rewrite Hr. split; reflexivity.
    + discriminate.
  - unfold abind at 1. unfold xSemaphoreCreateMutex, abind, get_calls,
      app_emit, aret, set_semaphore. cbn [calls with_calls].
    destruct (xSemaphoreCreateMutex_res ap _) as [h|].
    + rewrite master_spi_init_bus_eq. cbv zeta. cbn [calls with_calls].
      eexists _, _, [_; _]. split; [reflexivity|].
      split; [app_hist|].
      cbn [with_calls master_spi_semaphore loader_device]. split.
      * intros Hr. split; [discriminate|].
        eexists [_], _. rewrite Hr. split; reflexivity.
      * discriminate.
    + eexists _, _, [_]. split; [reflexivity|].
      split; [app_hist|]. split; [discriminate|].
      intros _. split; reflexivity.
Qed.

(** X20. [master_spi_init] called with the mutex in place keeps it: it
    creates no other mutex, calls [spi_bus_initialize] once more and
    returns what that call returns. *)
Theorem master_spi_init_keeps_the_mutex (ap : app_platform) (a : app_state)
    (h : Z) :
  master_spi_semaphore a = Some h ->
  exists ret a' cfg,
    master_spi_init ap a = Some (ret, a') /\
    master_spi_semaphore a' = Some h /\
    app_history a' = app_history a ++ [EvSpiBusInitialize cfg ret] /\
    ret = spi_bus_initialize_res ap (count_app is_bus_initialize (calls a)).
Proof.
  intros Hsem. unfold master_spi_init. unfold abind at 1.
  unfold get_semaphore. rewrite Hsem.
  rewrite master_spi_init_bus_eq. cbv zeta.
  eexists _, _, _. split; [reflexivity|].
  cbn [with_calls master_spi_semaphore]. split; [exact Hsem|].
  split; [app_hist|reflexivity].
Qed.

(** The second call at boot, on a bus that initialises once and then
    reports [ESP_ERR_INVALID_STATE]. *)
Lemma master_spi_init_keeps_the_mutex_witness :
  exists ret a' cfg,
    master_spi_init (demo_app (board 16 always_ok cdone_high no_files))
      {| calls := [EvSemaphoreCreateMutex true]; loader_device := None;
         master_spi_semaphore := Some 7; fpga_spi_device := None;
         current_r := 0; current_g := 0; current_b := 0 |}
    = Some (ret, a') /\
    master_spi_semaphore a' = Some 7 /\
    app_history a' = [EvSemaphoreCreateMutex true; EvSpiBusInitialize cfg ret] /\
    ret = ESP_OK.
Proof.
  apply (master_spi_init_keeps_the_mutex
           (demo_app (board 16 always_ok cdone_high no_files))
           {| calls := [EvSemaphoreCreateMutex true]; loader_device := None;
              master_spi_semaphore := Some 7; fpga_spi_device := None;
              current_r := 0; current_g := 0; current_b := 0 |} 7).
  reflexivity.
Defined.

(** *** fpga_loader_init *)

Lemma pin_mask_bits (pin i : Z) :
  0 <= pin < 64 -> 0 <= i ->
  Z.testbit (to_uint64 (Z.shiftl 1 pin)) i = (i =? pin).
Proof.
  intros Hpin Hi. unfold to_uint64.
  rewrite Z.shiftl_1_l.
  assert (Hlt : 2 ^ pin < 2 ^ 64) by (apply Z.pow_lt_mono_r; lia).
  rewrite Z.mod_small by (split; [apply Z.pow_nonneg; lia|exact Hlt]).
  rewrite Z.pow2_bits_eqb by lia. apply Z.eqb_sym.
Qed.

(** X21. [fpga_loader_init] always returns [ESP_OK], whatever the two
    calls of [gpio_config] return.  It writes level 0 to CRESET, then
    configures CRESET as an output and CDONE as an input, each with a pin
    mask that holds the bit of that pin and no other (for pins 0 to 63),
    pulls and interrupts disabled. *)
Theorem fpga_loader_init_reports_ok (ap : app_platform) (a : app_state) :
  exists a' creset_cfg cdone_cfg,
    fpga_loader_init ap a = Some (ESP_OK, a') /\
    app_history a'
    = app_history a
      ++ [Ev (EvGpioSetLevel (CONFIG_FPGA_CRESET_GPIO (loader_platform ap)) 0);
          EvGpioConfig creset_cfg
            (gpio_config_res ap (count_app is_gpio_config (calls a)));
          EvGpioConfig cdone_cfg
            (gpio_config_res ap (S (count_app is_gpio_config (calls a))))] /\
    mode creset_cfg = GPIO_MODE_OUTPUT /\
    mode cdone_cfg = GPIO_MODE_INPUT /\
    (0 <= CONFIG_FPGA_CRESET_GPIO (loader_platform ap) < 64 ->
     forall i, 0 <= i ->
       Z.testbit (pin_bit_mask creset_cfg) i
       = (i =? CONFIG_FPGA_CRESET_GPIO (loader_platform ap))) /\
    (0 <= CONFIG_FPGA_CDONE_GPIO (loader_platform ap) < 64 ->
     forall i, 0 <= i ->
       Z.testbit (pin_bit_mask cdone_cfg) i
       = (i =? CONFIG_FPGA_CDONE_GPIO (loader_platform ap))) /\
    loader_device a' = loader_device a /\
    master_spi_semaphore a' = master_spi_semaphore a.
Proof.
  unfold fpga_loader_init. cbv zeta. unfold abind at 1.
  unfold gpio_set_level. rewrite lift_emit.
  unfold gpio_config, abind, get_calls, app_emit, aret.
  cbn [calls with_calls count_app is_gpio_config].
  eexists _, _, _. split; [reflexivity|].
  split; [app_hist|].
  split; [reflexivity|]. split; [reflexivity|].
  split; [intros Hpin i Hi; apply pin_mask_bits; assumption|].
  split; [intros Hpin i Hi; apply pin_mask_bits; assumption|].
  split; reflexivity.
Qed.

(** *** set_handler *)

Lemma clamp_spec (v : Z) :
  clamp v = Z.max 0 (Z.min 255 v) /\ 0 <= clamp v <= 255.
Proof.
  unfold clamp. destruct (v <? 0) eqn:H0; [apply Z.ltb_lt in H0; lia|].
  apply Z.ltb_ge in H0.
  destruct (v >? 255) eqn:H1; zbool; lia.
Qed.

Lemma to_uint8_clamp (v : Z) : to_uint8 (clamp v) = clamp v.
Proof.
  unfold to_uint8. apply Z.mod_small.
  destruct (clamp_spec v) as [_ H]. lia.
Qed.

(** [set_handler], with the colours it works out. *)
Lemma set_handler_eq (ap : app_platform) (req : httpd_req_t) (a : app_state) :
  set_handler ap req a
  = abind (set_current (clamp (requested_color ap req "r"))
             (clamp (requested_color ap req "g"))
             (clamp (requested_color ap req "b")))
      (fun _ =>
         abind (send_rgb_to_fpga ap (clamp (requested_color ap req "r"))
                  (clamp (requested_color ap req "g"))
                  (clamp (requested_color ap req "b")))
           (fun _ =>
              abind (httpd_resp_set_type "text/plain")
                (fun _ => abind (httpd_resp_send "OK" 2)
                            (fun _ => aret ESP_OK)))) a.
Proof.
  unfold set_handler, requested_color, query_color.
  destruct (httpd_req_get_url_query_str_res ap req 64) as [err buf].
  destruct (err =? ESP_OK).
  - destruct (httpd_query_key_value_res ap buf "r" 8) as [er pr].
    destruct (httpd_query_key_value_res ap buf "g" 8) as [eg pg].
    destruct (httpd_query_key_value_res ap buf "b" 8) as [eb pb].
    cbv zeta. rewrite !to_uint8_clamp. reflexivity.
  - cbv zeta. rewrite !to_uint8_clamp. reflexivity.
Qed.

(** X22. [set_handler] with the device of the application in place: the
    colours it stores are the ones the request asks for, brought into the
    range 0 to 255 (0 for a colour the request does not name), and it
    sends exactly these three values, as one transaction of 24 bits
    between the take and the give of the bus semaphore; the conversions
    from [int] to [uint8_t] change nothing. *)
Theorem set_handler_sends_clamped_colour (ap : app_platform)
    (req : httpd_req_t) (a : app_state) (h : Z) :
  fpga_spi_device a = Some h ->
  exists a' res,
    set_handler ap req a = Some (ESP_OK, a') /\
    current_r a' = Z.max 0 (Z.min 255 (requested_color ap req "r")) /\
    current_g a' = Z.max 0 (Z.min 255 (requested_color ap req "g")) /\
    current_b a' = Z.max 0 (Z.min 255 (requested_color ap req "b")) /\
    app_history a'
    = app_history a
      ++ [Ev EvSemaphoreTake;
          Ev (EvSpiDeviceTransmit (Some h)
                {| trans_length := 24;
                   trans_tx_buffer :=
                     [uint8_byte (current_r a'); uint8_byte (current_g a');
                      uint8_byte (current_b a')] |} res);
          Ev EvSemaphoreGive;
          EvHttpdRespSetType "text/plain";
          EvHttpdRespSend "OK" 2].
Proof.
  intros Hdev. rewrite set_handler_eq.
  unfold abind at 1. unfold set_current.
  unfold abind at 1. unfold send_rgb_to_fpga.
  unfold abind at 1. unfold get_fpga_spi_device.
  cbn [fpga_spi_device]. rewrite Hdev.
  unfold abind at 1. unfold xSemaphoreTake. rewrite lift_emit.
  unfold abind at 1. rewrite lift_transmit.
  unfold abind at 1. unfold xSemaphoreGive. rewrite lift_emit.
  unfold aret, abind, httpd_resp_set_type, httpd_resp_send, app_emit.
  cbn [calls with_calls loader_device].
  eexists _, _. split; [reflexivity|].
  cbn [current_r current_g current_b with_calls].
  split; [apply clamp_spec|]. split; [apply clamp_spec|].
  split; [apply clamp_spec|].
  app_hist.
Qed.

(** The request [/set?r=300&b=-5]: red is cut to 255, blue raised to 0,
    green is not named. *)
Lemma set_handler_sends_clamped_colour_witness :
  exists a' res,
    set_handler (demo_app (board 16 always_ok cdone_high no_files))
      "/set?r=300&b=-5"%string web_led_running = Some (ESP_OK, a') /\
    current_r a' = 255 /\
    current_g a' = 0 /\
    current_b a' = 0 /\
    app_history a'
    = [Ev EvSemaphoreTake;
       Ev (EvSpiDeviceTransmit (Some 2)
             {| trans_length := 24; trans_tx_buffer := [xff; x00; x00] |} res);
       Ev EvSemaphoreGive;
       EvHttpdRespSetType "text/plain";
       EvHttpdRespSend "OK" 2].
Proof.
  destruct (set_handler_sends_clamped_colour
              (demo_app (board 16 always_ok cdone_high no_files))
              "/set?r=300&b=-5"%string web_led_running 2 eq_refl)
    as [a' [res [Hrun [Hr [Hg [Hb Hh]]]]]].
  exists a', res. split; [exact Hrun|].
  change (requested_color _ _ "r") with 300 in Hr.
  change (requested_color _ _ "g") with 0 in Hg.
  change (requested_color _ _ "b") with (-5) in Hb.
  rewrite Hr, Hg, Hb in Hh.
  split; [exact Hr|]. split; [exact Hg|]. split; [exact Hb|]. exact Hh.
Defined.

(** X23. [set_handler] always returns [ESP_OK] and always ends with the
    answer ["OK"], whatever [send_rgb_to_fpga] returned: also when the
    device of the application is [NULL], in which case nothing is sent and
    the semaphore is not taken, and also when the transmission failed.
    The colours are stored in every case, within 0 to 255. *)
Theorem set_handler_always_answers_ok (ap : app_platform) (req : httpd_req_t)
    (a : app_state) :
  exists a' sent,
    set_handler ap req a = Some (ESP_OK, a') /\
    app_history a'
    = app_history a ++ sent
      ++ [EvHttpdRespSetType "text/plain"; EvHttpdRespSend "OK" 2] /\
    (fpga_spi_device a = None -> sent = []) /\
    (forall h, fpga_spi_device a = Some h ->
       exists t res, sent = [Ev EvSemaphoreTake;
                             Ev (EvSpiDeviceTransmit (Some h) t res);
                             Ev EvSemaphoreGive] /\
                     res = spi_device_transmit_res (loader_platform ap)
                             (count_ev is_transmit
                                (loader_calls (calls a)))) /\
    current_r a' = clamp (requested_color ap req "r") /\
    current_g a' = clamp (requested_color ap req "g") /\
    current_b a' = clamp (requested_color ap req "b") /\
    0 <= current_r a' <= 255 /\ 0 <= current_g a' <= 255 /\
    0 <= current_b a' <= 255.
Proof.
  rewrite set_handler_eq.
  unfold abind at 1. unfold set_current.
  unfold abind at 1. unfold send_rgb_to_fpga.
  unfold abind at 1. unfold get_fpga_spi_device.
  cbn [fpga_spi_device].
  destruct (fpga_spi_device a) as [h|] eqn:Hdev.
  - unfold abind at 1. unfold xSemaphoreTake. rewrite lift_emit.
    unfold abind at 1. rewrite lift_transmit.
    unfold abind at 1. unfold xSemaphoreGive. rewrite lift_emit.
    unfold aret, abind, httpd_resp_set_type, httpd_resp_send, app_emit.
    cbn [calls with_calls loader_device].
    eexists _, [_; _; _]. split; [reflexivity|].
    split; [app_hist|].
    split; [discriminate|].
    split.
    { intros h' Hh'. injection Hh' as <-. eexists _, _.
      split; reflexivity. }
    cbn [current_r current_g current_b with_calls].
    repeat split; apply clamp_spec.
  - unfold aret, abind, httpd_resp_set_type, httpd_resp_send, app_emit.
    cbn [calls with_calls loader_device].
    eexists _, []. split; [reflexivity|].
    split; [app_hist|].
    split; [reflexivity|]. split; [discriminate|].
    cbn [current_r current_g current_b with_calls].
    repeat split; apply clamp_spec.
Qed.

Lemma heartbeat_never_returns (ticks : Z) :
  forall (fuel : nat) (a : app_state), heartbeat fuel ticks a = None.
Proof.
  induction fuel as [|fuel IH]; intros a; [reflexivity|].
  cbn [heartbeat]. unfold abind at 1. unfold vTaskDelay.
  rewrite lift_emit. apply IH.
Qed.

Ltac app_fields :=
  cbn [calls loader_device master_spi_semaphore fpga_spi_device current_r
       current_g current_b with_calls boot_state count_app is_create_mutex
       is_bus_initialize is_gpio_config].

Lemma master_spi_init_eq (ap : app_platform) (a : app_state) :
  master_spi_init ap a =
  match master_spi_semaphore a with
  | Some _ => master_spi_init_bus ap a
  | None =>
      match xSemaphoreCreateMutex_res ap
              (count_app is_create_mutex (calls a)) with
      | Some h =>
          master_spi_init_bus ap
            {| calls := EvSemaphoreCreateMutex true :: calls a;
               loader_device := loader_device a;
               master_spi_semaphore := Some h;
               fpga_spi_device := fpga_spi_device a;
               current_r := current_r a; current_g := current_g a;
               current_b := current_b a |}
      | None =>
          Some (ESP_ERR_NO_MEM,
                {| calls := EvSemaphoreCreateMutex false :: calls a;
                   loader_device := loader_device a;
                   master_spi_semaphore := None;
                   fpga_spi_device := fpga_spi_device a;
                   current_r := current_r a; current_g := current_g a;
                   current_b := current_b a |})
      end
  end.
Proof.
  unfold master_spi_init. unfold abind at 1. unfold get_semaphore.
  destruct (master_spi_semaphore a); [reflexivity|].
  unfold abind at 1. unfold xSemaphoreCreateMutex, abind, get_calls,
    app_emit, aret, set_semaphore. app_fields.
  destruct (xSemaphoreCreateMutex_res ap _); reflexivity.
Qed.

Lemma fpga_loader_init_eq (ap : app_platform) (a : app_state) :
  fpga_loader_init ap a =
  Some (ESP_OK,
        with_calls a
          ([EvGpioConfig
              {| pin_bit_mask :=
                   to_uint64
                     (Z.shiftl 1 (CONFIG_FPGA_CDONE_GPIO (loader_platform ap)));
                 mode := GPIO_MODE_INPUT;
                 pull_up_en := GPIO_PULLUP_DISABLE;
                 pull_down_en := GPIO_PULLDOWN_DISABLE;
                 intr_type := GPIO_INTR_DISABLE |}
              (gpio_config_res ap (S (count_app is_gpio_config (calls a))));
            EvGpioConfig
              {| pin_bit_mask :=
                   to_uint64
                     (Z.shiftl 1 (CONFIG_FPGA_CRESET_GPIO (loader_platform ap)));
                 mode := GPIO_MODE_OUTPUT;
                 pull_up_en := GPIO_PULLUP_DISABLE;
                 pull_down_en := GPIO_PULLDOWN_DISABLE;
                 intr_type := GPIO_INTR_DISABLE |}
              (gpio_config_res ap (count_app is_gpio_config (calls a)));
            Ev (EvGpioSetLevel
                  (CONFIG_FPGA_CRESET_GPIO (loader_platform ap)) 0)]
           ++ calls a) (loader_device a)).
Proof.
  unfold fpga_loader_init. cbv zeta. unfold abind at 1.
  unfold gpio_set_level. rewrite lift_emit.
  unfold gpio_config, abind, get_calls, app_emit, aret.
  app_fields. reflexivity.
Qed.

(** [app_main] up to its loop, path by path, from boot. *)
Lemma app_main_startup_eq (ap : app_platform) (fuel : nat) :
  app_main_startup ap fuel boot_state =
  match xSemaphoreCreateMutex_res ap 0 with
  | None => Some (false, booted [EvSemaphoreCreateMutex false] None)
  | Some sem =>
      if negb (spi_bus_initialize_res ap 0 =? ESP_OK) then
        Some (false,
              booted [EvSemaphoreCreateMutex true;
                      EvSpiBusInitialize (buscfg_of ap)
                        (spi_bus_initialize_res ap 0)] (Some sem))
      else if bin_end (fpga_image ap) <=? bin_start (fpga_image ap) then
        Some (false, booted (init_steps ap) (Some sem))
      else
        match fpga_loader_load (platform_at_load ap) (image_source ap) fuel
                initial_state with
        | Some (ret, st) =>
            Some (ret =? ESP_OK,
                  booted (init_steps ap ++ map Ev (history st)) (Some sem))
        | None => None
        end
  end.
Proof.
  unfold app_main_startup. unfold abind at 1.
  rewrite master_spi_init_eq. app_fields.
  destruct (xSemaphoreCreateMutex_res ap 0) as [sem|] eqn:Hsem;
    [|reflexivity].
  rewrite master_spi_init_bus_eq. cbv zeta. app_fields.
  destruct (spi_bus_initialize_res ap 0 =? ESP_OK) eqn:Hbus; cbn [negb];
    [|reflexivity].
  zbool. rewrite Hbus.
  unfold abind at 1. rewrite fpga_loader_init_eq. app_fields.
  cbn [Z.eqb ESP_OK negb app].
  unfold abind at 1.
  unfold fpga_loader_load_from_rom.
  destruct (bin_end (fpga_image ap) <=? bin_start (fpga_image ap)) eqn:Hbin.
  { rewrite (lift_run _ (mret ESP_ERR_INVALID_ARG) _ ESP_ERR_INVALID_ARG
               _ []) by reflexivity.
    reflexivity. }
  unfold lift. cbv zeta. unfold loader_view.
  cbn [calls loader_calls flat_map app loader_device with_calls].
  rewrite fpga_loader_load_later.
  fold (platform_at_load ap).
  change {| size := _; ctx := _; read := _ |} with (image_source ap).
  destruct (fpga_loader_load (platform_at_load ap) (image_source ap) fuel
              initial_state) as [[ret st]|] eqn:Hload; [|reflexivity].
  cbn [resume trace fpga_update_device].
  rewrite (load_leaves_device_null _ _ _ _ _ _ Hload).
  rewrite length_app. cbn [List.length].
  replace (List.length (trace st) + 1 - 1)%nat
    with (List.length (trace st) + 0)%nat by lia.
  rewrite firstn_app_2. cbn [firstn]. rewrite app_nil_r.
  assert (Hcalls : map Ev (trace st) ++ rev (init_steps ap)
                   = rev (init_steps ap ++ map Ev (history st))).
  { rewrite rev_app_distr. unfold history.
    rewrite <- map_rev, rev_involutive. reflexivity. }
  unfold booted. rewrite <- Hcalls. unfold aret.
  destruct (ret =? ESP_OK); reflexivity.
Qed.

Lemma app_history_booted (l : list app_event) (sem : option Z) :
  app_history (booted l sem) = l.
Proof. unfold app_history, booted. cbn [calls]. apply rev_involutive. Qed.

Lemma app_main_startup_paths (ap : app_platform) (fuel : nat) (running : bool)
    (a' : app_state) :
  app_main_startup ap fuel boot_state = Some (running, a') ->
  (running = false /\ xSemaphoreCreateMutex_res ap 0 = None /\
   app_history a' = [EvSemaphoreCreateMutex false]) \/
  (running = false /\ spi_bus_initialize_res ap 0 <> ESP_OK /\
   app_history a'
   = [EvSemaphoreCreateMutex true;
      EvSpiBusInitialize (buscfg_of ap) (spi_bus_initialize_res ap 0)]) \/
  (exists ret h,
     app_history a' = init_steps ap ++ map Ev h /\
     running = (ret =? ESP_OK) /\
     ((ret = ESP_ERR_INVALID_ARG /\ h = []) \/
      session (platform_at_load ap) ret h)).
Proof.
  rewrite app_main_startup_eq.
  destruct (xSemaphoreCreateMutex_res ap 0) as [sem|] eqn:Hsem.
  2:{ intros H. injection H as <- <-. left.
      rewrite app_history_booted. repeat split. }
  destruct (spi_bus_initialize_res ap 0 =? ESP_OK) eqn:Hbus; cbn [negb].
  2:{ intros H. injection H as <- <-. right. left. zbool.
      rewrite app_history_booted. repeat split. exact Hbus. }
  destruct (bin_end (fpga_image ap) <=? bin_start (fpga_image ap)) eqn:Hbin.
  { intros H. injection H as <- <-. right. right.
    exists ESP_ERR_INVALID_ARG, []. rewrite app_history_booted.
    split; [cbn [map]; rewrite app_nil_r; reflexivity|].
    split; [reflexivity|]. left. split; reflexivity. }
  destruct (fpga_loader_load (platform_at_load ap) (image_source ap) fuel
              initial_state) as [[ret st]|] eqn:Hload; [|discriminate].
  intros H. injection H as <- <-. right. right.
  exists ret, (history st). rewrite app_history_booted.
  split; [reflexivity|]. split; [reflexivity|]. right.
  exact (load_session _ _ _ _ _ _ Hload).
Qed.

Lemma ready_after_inits (ap : app_platform) :
  0 <= CONFIG_FPGA_CRESET_GPIO (loader_platform ap) < 64 ->
  0 <= CONFIG_FPGA_CDONE_GPIO (loader_platform ap) < 64 ->
  gpio_config_res ap 0 = ESP_OK ->
  gpio_config_res ap 1 = ESP_OK ->
  ready_after (loader_platform ap) (init_steps ap) = Some all_ready.
Proof.
  intros Hreset Hdone Hcfg0 Hcfg1.
  unfold ready_after, init_steps. rewrite Hcfg0, Hcfg1.
  cbn [fold_left ready_step finds_ready makes_ready nothing_ready
       mutex_created bus_initialized creset_configured cdone_configured
       mode pin_bit_mask Z.eqb ESP_OK orb andb].
  rewrite andb_false_r.
  cbn [fold_left ready_step finds_ready makes_ready nothing_ready
       mutex_created bus_initialized creset_configured cdone_configured
       mode pin_bit_mask Z.eqb ESP_OK orb andb].
  rewrite !pin_mask_bits by lia.
  rewrite !Z.eqb_refl. reflexivity.
Qed.

Lemma ready_loader_calls (pf : platform) (h : list event) :
  fold_left (ready_step pf) (map Ev h) (Some all_ready) = Some all_ready.
Proof.
  induction h as [|e h IH]; [reflexivity|].
  cbn [map fold_left]. rewrite <- IH at 2. f_equal.
  unfold ready_step.
  assert (Hf : finds_ready pf all_ready (Ev e) = true).
  { destruct e; cbn [finds_ready all_ready mutex_created bus_initialized
                     creset_configured cdone_configured]; try reflexivity.
    - destruct (_ && _); reflexivity.
    - destruct (_ =? _); reflexivity. }
  rewrite Hf. reflexivity.
Qed.

(** X24. In every run of [app_main] up to its loop, with CRESET and CDONE
    among the pins 0 to 63 and on a platform where the two calls of
    [gpio_config] in [fpga_loader_init] return [ESP_OK] (their results are
    not looked at by the code), every call finds ready what it uses: the
    bus semaphore is taken and given only after the mutex was created, the
    loader adds its device only after [spi_bus_initialize] returned
    [ESP_OK], CRESET is released only after a [gpio_config] that returned
    [ESP_OK] made it an output, and CDONE is sampled only after a
    [gpio_config] that returned [ESP_OK] made it an input.  When the loop
    is reached all four are ready. *)
Theorem app_main_makes_ready_before_use (ap : app_platform) (fuel : nat)
    (running : bool) (a' : app_state) :
  0 <= CONFIG_FPGA_CRESET_GPIO (loader_platform ap) < 64 ->
  0 <= CONFIG_FPGA_CDONE_GPIO (loader_platform ap) < 64 ->
  gpio_config_res ap 0 = ESP_OK ->
  gpio_config_res ap 1 = ESP_OK ->
  app_main_startup ap fuel boot_state = Some (running, a') ->
  exists q,
    ready_after (loader_platform ap) (app_history a') = Some q /\
    (running = true -> q = all_ready).
Proof.
  intros Hreset Hdone Hcfg0 Hcfg1 H.
  destruct (app_main_startup_paths ap fuel running a' H)
    as [[Hrun [_ Hh]]|[[Hrun [_ Hh]]|[ret [h [Hh [Hrun _]]]]]].
  - rewrite Hh. eexists. split; [reflexivity|].
    rewrite Hrun. discriminate.
  - rewrite Hh. eexists. split; [reflexivity|].
    rewrite Hrun. discriminate.
  - rewrite Hh. exists all_ready. split; [|reflexivity].
    unfold ready_after. rewrite fold_left_app.
    fold (ready_after (loader_platform ap) (init_steps ap)).
    rewrite ready_after_inits by assumption.
    apply ready_loader_calls.
Qed.

Lemma app_main_makes_ready_before_use_witness :
  exists running a',
    app_main_startup (demo_app (board 16 always_ok cdone_after_three no_files))
      200 boot_state = Some (running, a') /\
    exists q,
      ready_after (board 16 always_ok cdone_after_three no_files)
        (app_history a') = Some q /\
      (running = true -> q = all_ready).
Proof.
  eexists _, _. split; [vm_compute; reflexivity|].
  apply (app_main_makes_ready_before_use
           (demo_app (board 16 always_ok cdone_after_three no_files)) 200).
  - cbn. lia.
  - cbn. lia.
  - reflexivity.
  - reflexivity.
  - vm_compute. reflexivity.
Defined.

Lemma transmit_bits_loader_calls_Ev (l : list app_event) (h : list event) :
  transmit_bits (loader_calls (l ++ map Ev h))
  = transmit_bits (loader_calls l) ++ transmit_bits h.
Proof. rewrite loader_calls_app, loader_calls_Ev. apply transmit_bits_app. Qed.

(** X25. In every run of [app_main] up to its loop, with
    [8 * LOADER_BUFFER_SIZE] within [int]: every SPI transaction the
    loader makes is at most as long as the [max_transfer_sz] that
    [master_spi_init] gave to [spi_bus_initialize] (in bits, eight times
    that many bytes), and at least one bit long. *)
Theorem app_main_transfers_fit_the_bus (ap : app_platform) (fuel : nat)
    (running : bool) (a' : app_state) :
  8 * LOADER_BUFFER_SIZE (loader_platform ap) <= INT_MAX ->
  app_main_startup ap fuel boot_state = Some (running, a') ->
  forall cfg res,
    In (EvSpiBusInitialize cfg res) (app_history a') ->
    Forall (fun bits => 0 < bits <= 8 * max_transfer_sz cfg)
      (transmit_bits (loader_calls (app_history a'))).
Proof.
  intros Hmax H cfg res Hin.
  destruct (app_main_startup_paths ap fuel running a' H)
    as [[_ [_ Hh]]|[[_ [_ Hh]]|[ret [h [Hh [_ Hs]]]]]].
  - rewrite Hh. constructor.
  - rewrite Hh. constructor.
  - rewrite Hh in Hin |- *.
    assert (Hcfg : cfg = buscfg_of ap).
    { apply in_app_or in Hin. destruct Hin as [Hin|Hin].
      - cbn [init_steps In] in Hin.
        destruct Hin as [Hin|[Hin|[Hin|[Hin|[Hin|[]]]]]]; try discriminate.
        injection Hin as <- _. reflexivity.
      - apply in_map_iff in Hin. destruct Hin as [e [He _]]. discriminate. }
    subst cfg. rewrite transmit_bits_loader_calls_Ev.
    change (transmit_bits (loader_calls (init_steps ap))) with (@nil Z).
    cbn [app buscfg_of max_transfer_sz].
    destruct Hs as [[_ ->]|Hs]; [constructor|].
    exact (session_bits (platform_at_load ap) ret h Hmax Hs).
Qed.

Lemma app_main_transfers_fit_the_bus_witness :
  exists running a',
    app_main_startup (demo_app (board 16 always_ok cdone_after_three no_files))
      200 boot_state = Some (running, a') /\
    transmit_bits (loader_calls (app_history a')) = [8; 512; 288; 104; 56] /\
    forall cfg res,
      In (EvSpiBusInitialize cfg res) (app_history a') ->
      Forall (fun bits => 0 < bits <= 8 * max_transfer_sz cfg)
        (transmit_bits (loader_calls (app_history a'))).
Proof.
  eexists _, _. split; [vm_compute; reflexivity|].
  split; [vm_compute; reflexivity|].
  apply (app_main_transfers_fit_the_bus
           (demo_app (board 16 always_ok cdone_after_three no_files)) 200 true).
  - vm_compute. discriminate.
  - vm_compute. reflexivity.
Defined.

(** What [fpga_loader_load_from_rom] does when [app_main] calls it, read
    off the start-up. *)
Lemma app_main_startup_load (ap : app_platform) (fuel : nat) :
  app_main_startup ap fuel boot_state =
  match xSemaphoreCreateMutex_res ap 0 with
  | None => Some (false, booted [EvSemaphoreCreateMutex false] None)
  | Some sem =>
      if negb (spi_bus_initialize_res ap 0 =? ESP_OK) then
        Some (false,
              booted [EvSemaphoreCreateMutex true;
                      EvSpiBusInitialize (buscfg_of ap)
                        (spi_bus_initialize_res ap 0)] (Some sem))
      else
        match fpga_loader_load_from_rom (platform_at_load ap) fuel
                (Some (fpga_image ap)) initial_state with
        | Some (ret, st) =>
            Some (ret =? ESP_OK,
                  booted (init_steps ap ++ map Ev (history st)) (Some sem))
        | None => None
        end
  end.
Proof.
  rewrite app_main_startup_eq.
  destruct (xSemaphoreCreateMutex_res ap 0) as [sem|]; [|reflexivity].
  destruct (negb (spi_bus_initialize_res ap 0 =? ESP_OK)); [reflexivity|].
  unfold fpga_loader_load_from_rom.
  destruct (bin_end (fpga_image ap) <=? bin_start (fpga_image ap)).
  - cbn [mret history initial_state trace rev map].
    rewrite app_nil_r. reflexivity.
  - reflexivity.
Qed.

(** X26. The colorwheel [app_main] returns exactly when the mutex could
    not be created, or [spi_bus_initialize] did not return [ESP_OK], or
    [fpga_loader_load_from_rom] returned something else than [ESP_OK];
    what [gpio_config] returned in [fpga_loader_init] plays no part.  When
    it returns, the failed call is the last thing it did: it made the one
    call for the mutex, or that and [spi_bus_initialize], or the five
    calls of the two initialisations and then the calls of the load. *)
Theorem app_main_returns_only_on_failure (ap : app_platform) (fuel : nat) :
  (forall a,
     app_main ap fuel boot_state = Some (tt, a) ->
     (xSemaphoreCreateMutex_res ap 0 = None /\
      app_history a = [EvSemaphoreCreateMutex false]) \/
     (xSemaphoreCreateMutex_res ap 0 <> None /\
      spi_bus_initialize_res ap 0 <> ESP_OK /\
      app_history a
      = [EvSemaphoreCreateMutex true;
         EvSpiBusInitialize (buscfg_of ap) (spi_bus_initialize_res ap 0)]) \/
     (xSemaphoreCreateMutex_res ap 0 <> None /\
      spi_bus_initialize_res ap 0 = ESP_OK /\
      exists ret st,
        fpga_loader_load_from_rom (platform_at_load ap) fuel
          (Some (fpga_image ap)) initial_state = Some (ret, st) /\
        ret <> ESP_OK /\
        app_history a = init_steps ap ++ map Ev (history st))) /\
  (xSemaphoreCreateMutex_res ap 0 = None \/
   spi_bus_initialize_res ap 0 <> ESP_OK \/
   (exists ret st,
      fpga_loader_load_from_rom (platform_at_load ap) fuel
        (Some (fpga_image ap)) initial_state = Some (ret, st) /\
      ret <> ESP_OK) ->
   exists a, app_main ap fuel boot_state = Some (tt, a)).
Proof.
  unfold app_main, abind. rewrite app_main_startup_load.
  destruct (xSemaphoreCreateMutex_res ap 0) as [sem|] eqn:Hsem.
  2:{ split.
      - intros a H. injection H as <-. left.
        rewrite app_history_booted. split; reflexivity.
      - intros _. eexists. reflexivity. }
  destruct (spi_bus_initialize_res ap 0 =? ESP_OK) eqn:Hbus; cbn [negb]; zbool.
  2:{ split.
      - intros a H. injection H as <-. right. left.
        rewrite app_history_booted.
        split; [discriminate|]. split; [exact Hbus|reflexivity].
      - intros _. eexists. reflexivity. }
  destruct (fpga_loader_load_from_rom (platform_at_load ap) fuel
              (Some (fpga_image ap)) initial_state) as [[ret st]|] eqn:Hload.
  2:{ split; [discriminate|].
      intros [H|[H|[ret [st [H _]]]]];
        [discriminate|contradiction|discriminate]. }
  destruct (ret =? ESP_OK) eqn:Hret; zbool.
  - rewrite heartbeat_never_returns. split; [discriminate|].
    intros [H|[H|[ret' [st' [H Hne]]]]]; [discriminate|contradiction|].
    injection H as <- <-. contradiction.
  - split.
    + intros a H. injection H as <-. right. right.
      split; [discriminate|]. split; [exact Hbus|].
      exists ret, st. rewrite app_history_booted.
      split; [reflexivity|]. split; [exact Hret|reflexivity].
    + intros _. eexists. reflexivity.
Qed.

(** The colorwheel example with no room for the mutex: [app_main] returns
    after the one call. *)
Lemma app_main_returns_only_on_failure_witness :
  exists a,
    app_main (demo_app_no_heap (board 16 always_ok cdone_after_three no_files))
      200 boot_state = Some (tt, a) /\
    app_history a = [EvSemaphoreCreateMutex false].
Proof.
  destruct (proj2 (app_main_returns_only_on_failure
                     (demo_app_no_heap
                        (board 16 always_ok cdone_after_three no_files)) 200)
              (or_introl eq_refl)) as [a Ha].
  exists a. split; [exact Ha|].
  destruct (proj1 (app_main_returns_only_on_failure
                     (demo_app_no_heap
                        (board 16 always_ok cdone_after_three no_files)) 200)
              a Ha) as [[_ Hh]|[[Hsem _]|[Hsem _]]].
  - exact Hh.
  - exfalso. apply Hsem. reflexivity.
  - exfalso. apply Hsem. reflexivity.
Defined.

(** X27. [app_main] on a platform where the mutex is created, the bus
    initialises, the image has at least one byte, the session reaches the
    streaming loop, every transmission goes through and CDONE rises:
    the start-up reaches the heartbeat loop, the bytes handed to
    [spi_device_transmit] are the dummy byte, the embedded image from its
    first byte to its last, and the zero bytes of the two paddings (13
    and 7, each sent only when it fits [LOADER_BUFFER_SIZE]:
    [padding_bytes]), and [app_main] does not return. *)
Theorem app_main_loads_the_image (ap : app_platform) (n : nat) :
  xSemaphoreCreateMutex_res ap 0 <> None ->
  spi_bus_initialize_res ap 0 = ESP_OK ->
  bin_start (fpga_image ap) < bin_end (fpga_image ap) ->
  bin_end (fpga_image ap) - bin_start (fpga_image ap) < 2 ^ 32 ->
  reaches_streaming (loader_platform ap) ->
  8 * LOADER_BUFFER_SIZE (loader_platform ap) <= INT_MAX ->
  (forall k, spi_device_transmit_res (loader_platform ap) k = ESP_OK) ->
  cdone_rises (loader_platform ap) n ->
  exists fuel a',
    app_main_startup ap fuel boot_state = Some (true, a') /\
    bytes_sent (loader_calls (app_history a'))
    = [x00]
      ++ mem_bytes (rom_mem (loader_platform ap)) (bin_start (fpga_image ap))
           (bin_end (fpga_image ap) - bin_start (fpga_image ap))
      ++ padding_bytes (loader_platform ap) 13
      ++ padding_bytes (loader_platform ap) 7 /\
    app_main ap fuel boot_state = None.
Proof.
  intros Hsem Hbus Hbin Hlen Hreach Hmax Htx [Hwait Hhigh].
  assert (Hsz : to_size_t (bin_end (fpga_image ap) - bin_start (fpga_image ap))
                = bin_end (fpga_image ap) - bin_start (fpga_image ap))
    by (apply to_size_t_small; lia).
  destruct (load_sends_image (platform_at_load ap) rom_ctx_t (image_source ap)
              (rom_holds (rom_mem (loader_platform ap))
                 (bin_start (fpga_image ap))
                 (bin_end (fpga_image ap) - bin_start (fpga_image ap)))
              (mem_bytes (rom_mem (loader_platform ap))
                 (bin_start (fpga_image ap))
                 (bin_end (fpga_image ap) - bin_start (fpga_image ap))) n)
    as [fuel [st [Hload Hbytes]]].
  - exact Hreach.
  - exact Hmax.
  - intros k. apply Htx.
  - unfold image_source. rewrite Hsz. apply rom_delivers. exact Hlen.
  - unfold rom_holds, image_source. rewrite mem_bytes_length.
    cbn [rom_source ctx rom_data rom_size rom_pos].
    repeat split; try lia. f_equal; lia.
  - rewrite mem_bytes_length. unfold image_source.
    cbn [rom_source size]. lia.
  - unfold image_source. cbn [rom_source size]. lia.
  - split; [exact Hwait|left; exact Hhigh].
  - change (gpio_get_level_res (platform_at_load ap) n)
      with (gpio_get_level_res (loader_platform ap) n) in Hload.
    rewrite Hhigh in Hload. cbn [Z.eqb] in Hload.
    assert (Hstart : app_main_startup ap fuel boot_state
                     = Some (true,
                             booted (init_steps ap ++ map Ev (history st))
                               (xSemaphoreCreateMutex_res ap 0))).
    { rewrite app_main_startup_eq.
      destruct (xSemaphoreCreateMutex_res ap 0) as [sem|]; [|contradiction].
      rewrite Hbus. cbn [Z.eqb ESP_OK negb].
      destruct (bin_end (fpga_image ap) <=? bin_start (fpga_image ap)) eqn:Hb;
        [zbool; lia|].
      rewrite Hload. reflexivity. }
    eexists fuel, _. split; [exact Hstart|]. split.
    + rewrite app_history_booted, loader_calls_app, loader_calls_Ev.
      rewrite bytes_sent_app.
      change (bytes_sent (loader_calls (init_steps ap))) with (@nil byte).
      cbn [app]. exact Hbytes.
    + unfold app_main, abind. rewrite Hstart.
      apply heartbeat_never_returns.
Qed.

(** The colorwheel example on a board with a buffer of 64 bytes, an image
    of 100 bytes and CDONE high at the fourth sample. *)
Lemma app_main_loads_the_image_witness :
  exists fuel a',
    app_main_startup (demo_app (board 16 always_ok cdone_after_three no_files))
      fuel boot_state = Some (true, a') /\
    bytes_sent (loader_calls (app_history a'))
    = [x00] ++ mem_bytes byte_at 4096 100 ++ repeat x00 13 ++ repeat x00 7 /\
    app_main (demo_app (board 16 always_ok cdone_after_three no_files))
      fuel boot_state = None.
Proof.
  apply (app_main_loads_the_image
           (demo_app (board 16 always_ok cdone_after_three no_files)) 3).
  - discriminate.
  - reflexivity.
  - cbn. lia.
  - cbn. lia.
  - unfold reaches_streaming. cbn.
    repeat split; try reflexivity; try lia; discriminate.
  - vm_compute. discriminate.
  - intros k. reflexivity.
  - unfold cdone_rises. change (to_size_t _) with 10.
    cbn [demo_app loader_platform board gpio_get_level_res
         xTaskGetTickCount_res cdone_after_three].
    split; [|reflexivity].
    intros j Hj. split.
    + destruct j as [|[|[|j]]]; try lia; cbn; discriminate.
    + lia.
Defined.

(** * The removal of the device *)

Lemma stream_loop_ignores_remove (pf : platform) (r : esp_err_t) (C : Type)
    (source : firmware_source_t C) :
  forall (fuel : nat) (buffer : list byte) (c : C) (remaining : Z)
         (ret : esp_err_t) (s : state),
  stream_loop (with_remove_res pf r) source fuel buffer c remaining ret s
  = stream_loop pf source fuel buffer c remaining ret s.
Proof.
  induction fuel as [|fuel IH]; intros buffer c remaining ret s;
    [reflexivity|].
  rewrite !stream_loop_step.
  change (chunk_of (with_remove_res pf r) remaining)
    with (chunk_of pf remaining).
  change (LOADER_BUFFER_SIZE (with_remove_res pf r))
    with (LOADER_BUFFER_SIZE pf).
  destruct (remaining >? 0); [|reflexivity].
  cbv zeta.
  destruct (read source buffer _ c) as [[n buffer'] c'].
  destruct (negb (n =? _)); [reflexivity|].
  destruct (to_int _ >? _); [reflexivity|].
  change (transmit_res_at (with_remove_res pf r)) with (transmit_res_at pf).
  change (block_trace (with_remove_res pf r)) with (block_trace pf).
  destruct (negb (transmit_res_at pf _ =? ESP_OK)); [reflexivity|].
  apply IH.
Qed.

Lemma cdone_pin_poll_ignores_remove (pf : platform) (r : esp_err_t)
    (value : bool) (timeout : Z) :
  forall (fuel : nat) (s : state),
  cdone_pin_poll (with_remove_res pf r) fuel value timeout s
  = cdone_pin_poll pf fuel value timeout s.
Proof.
  induction fuel as [|fuel IH]; intros s; [reflexivity|].
  rewrite !cdone_pin_poll_step. cbv zeta.
  cbn [with_remove_res gpio_get_level_res xTaskGetTickCount_res
       CONFIG_FPGA_CDONE_GPIO].
  destruct (_ =? level_of value); [reflexivity|].
  destruct (_ >? timeout); [reflexivity|].
  apply IH.
Qed.

(** X28. The value [spi_bus_remove_device] returns has no effect on a
    session: [fpga_loader_load] makes the same calls and returns the same
    value whatever the removal of the device returns, so that a device
    that could not be removed is not reported. *)
Theorem remove_failure_is_not_reported (pf : platform) (r : esp_err_t)
    (C : Type) (source : firmware_source_t C) (fuel : nat) :
  fpga_loader_load (with_remove_res pf r) source fuel initial_state
  = fpga_loader_load pf source fuel initial_state.
Proof.
  rewrite !fpga_loader_load_eq.
  change (spi_bus_add_device_res (with_remove_res pf r))
    with (spi_bus_add_device_res pf).
  change (spi_device_acquire_bus_res (with_remove_res pf r))
    with (spi_device_acquire_bus_res pf).
  change (LOADER_BUFFER_SIZE (with_remove_res pf r))
    with (LOADER_BUFFER_SIZE pf).
  change (heap_caps_malloc_res (with_remove_res pf r))
    with (heap_caps_malloc_res pf).
  change (spi_device_transmit_res (with_remove_res pf r))
    with (spi_device_transmit_res pf).
  change (session_handle (with_remove_res pf r)) with (session_handle pf).
  change (acquire_steps (with_remove_res pf r)) with (acquire_steps pf).
  change (reset_steps (with_remove_res pf r)) with (reset_steps pf).
  change (dummy_steps (with_remove_res pf r)) with (dummy_steps pf).
  change (steps_1_to_6 (with_remove_res pf r)) with (steps_1_to_6 pf).
  change (streaming_start (with_remove_res pf r)) with (streaming_start pf).
  destruct (negb (spi_bus_add_device_res pf =? ESP_OK)); [reflexivity|].
  destruct (negb (spi_device_acquire_bus_res pf =? ESP_OK)); [reflexivity|].
  destruct (1 >? LOADER_BUFFER_SIZE pf); [reflexivity|].
  destruct (negb (spi_device_transmit_res pf 0 =? ESP_OK)); [reflexivity|].
  destruct (heap_caps_malloc_res pf) as [buffer|]; [|reflexivity].
  rewrite stream_loop_ignores_remove.
  destruct (stream_loop pf source fuel buffer _ _ _ _)
    as [[[[r8 b] c] s8]|]; [|reflexivity].
  rewrite !load_steps_8_to_10_eq, !cdone_pin_wait_eq. cbv zeta.
  change (xTaskGetTickCount_res (with_remove_res pf r))
    with (xTaskGetTickCount_res pf).
  change (pdMS_TO_TICKS (with_remove_res pf r)) with (pdMS_TO_TICKS pf).
  change (before_wait (with_remove_res pf r)) with (before_wait pf).
  rewrite cdone_pin_poll_ignores_remove.
  destruct (cdone_pin_poll pf fuel true _ _) as [[ret sw]|]; reflexivity.
Qed.
